(** * Authentication and session lifecycle of the to-do backend

    A shallow embedding of [backend/src/routes/auth.ts] and
    [backend/src/middleware/auth.ts]: the [user] table, the request
    handlers as state-passing functions over it, and the properties of
    the session lifecycle stated over those functions.

    What the handlers obtain from outside (the clock, random numbers,
    the mail transport, Google's verdict on an identity token) is
    passed to them in a [World] record, one per request.

    The libraries the handlers call are modelled by what they do:
    jsonwebtoken by tokens as terms, signed under a key and stamped
    with the clock in seconds; argon2 by hashes that remember the
    password; class-validator by the constraints of each DTO, [isEmail]
    being left open; TypeORM's repository by a list of rows, entities
    whose optional properties are [undefined], [null] or a value, and a
    [save] that inserts an entity without identifier and otherwise
    updates the row of its identifier with the properties that are not
    [undefined]. *)

From Stdlib Require Import ZArith NArith List String Ascii Bool Lia.
From Stdlib Require Import Sorted Permutation.
Import ListNotations.

Local Open Scope string_scope.
Local Open Scope list_scope.
Local Open Scope Z_scope.

(** ** JavaScript values *)

(** An optional property: absent ([undefined]), [null], or a value. *)
Inductive js (A : Type) : Type :=
| undefined
| null
| val (a : A).
Arguments undefined {A}.
Arguments null {A}.
Arguments val {A} a.

(** [!x] on an optional string: [undefined], [null] and [''] are falsy. *)
Definition falsy_string (x : js string) : bool :=
  match x with
  | val s => String.eqb s ""
  | _ => true
  end.

(** [!x] on an optional object (a [Date]): objects are truthy. *)
Definition falsy_object {A : Type} (x : js A) : bool :=
  match x with
  | val _ => false
  | _ => true
  end.

(** [!x] on an optional boolean. *)
Definition falsy_bool (x : js bool) : bool :=
  match x with
  | val b => negb b
  | _ => true
  end.

(** ** Identifiers, time *)

(** [@PrimaryGeneratedColumn('uuid')]: identifiers are opaque and only
    compared; the n-th row inserted is given the identifier n. *)
Definition uuid := N.

(** Milliseconds since the epoch, as [Date.now()] and [Date] values. *)
Definition millis := Z.

(** ** jsonwebtoken

    Tokens are terms: a string that is no token of ours, or the claims
    signed under a key.  [sign] is a function of the claims and the key
    (HMAC), and only the holder of the key produces [Signed key _]. *)

Record claims := { sub : uuid; exp : Z; iat : Z }.

Inductive token :=
| Opaque (raw : string)
| Signed (key : string) (c : claims).

Definition claims_eqb (a b : claims) : bool :=
  N.eqb (sub a) (sub b) && Z.eqb (exp a) (exp b) && Z.eqb (iat a) (iat b).

(** [===] on token strings. *)
Definition token_eqb (a b : token) : bool :=
  match a, b with
  | Opaque x, Opaque y => String.eqb x y
  | Signed k c, Signed k' c' => String.eqb k k' && claims_eqb c c'
  | _, _ => false
  end.

(** [sign({ sub, exp }, secret)]; the library stamps [iat] with the
    clock in seconds. *)
Definition sign (payload_sub : uuid) (payload_exp : Z) (secret : string)
  (clock : millis) : token :=
  Signed secret {| sub := payload_sub; exp := payload_exp; iat := clock / 1000 |}.

(** [verify(token, secret)]: the payload, or [None] where the library
    throws (malformed, wrong signature, [clock >= exp]). *)
Definition verify (t : token) (secret : string) (clock : millis) : option claims :=
  match t with
  | Opaque _ => None
  | Signed k c =>
      if String.eqb k secret && (clock / 1000 <? exp c) then Some c else None
  end.

(** [!refreshToken] on a request field. *)
Definition falsy_token (x : js token) : bool :=
  match x with
  | val (Opaque s) => String.eqb s ""
  | val (Signed _ _) => false
  | _ => true
  end.

(** ** argon2

    A hash is the password under a salt; [argon2.verify] accepts the
    password that was hashed. *)
Record pwhash := { salt : N; plain : string }.

Definition argon2_hash (pwd : string) (s : N) : pwhash :=
  {| salt := s; plain := pwd |}.

Definition argon2_verify (h : pwhash) (pwd : string) : bool :=
  String.eqb (plain h) pwd.

(** ** The User entity and its table *)

(** [entities/User.entity]: the object the handlers hold.  The columns
    [createdAt], [updatedAt] and the relation [todos] are kept by the
    persistence layer and no handler below reads or assigns them. *)
Record User := {
  id : js uuid;
  email : string;
  password : pwhash;
  refreshToken : js token;
  resetPasswordToken : js string;
  resetPasswordExpires : js millis;
  emailVerificationOtp : js string;
  emailVerificationExpires : js millis;
  isEmailVerified : js bool
}.

(** A row of the table: nullable columns hold a value or NULL. *)
Record Row := {
  col_id : uuid;
  col_email : string;
  col_password : pwhash;
  col_refreshToken : option token;
  col_resetPasswordToken : option string;
  col_resetPasswordExpires : option millis;
  col_emailVerificationOtp : option string;
  col_emailVerificationExpires : option millis;
  col_isEmailVerified : bool
}.

Definition DB := list Row.

(** Reading a column into the entity: NULL arrives as [null]. *)
Definition hydrate {A : Type} (c : option A) : js A :=
  match c with
  | Some a => val a
  | None => null
  end.

Definition load (r : Row) : User :=
  {| id := val (col_id r);
     email := col_email r;
     password := col_password r;
     refreshToken := hydrate (col_refreshToken r);
     resetPasswordToken := hydrate (col_resetPasswordToken r);
     resetPasswordExpires := hydrate (col_resetPasswordExpires r);
     emailVerificationOtp := hydrate (col_emailVerificationOtp r);
     emailVerificationExpires := hydrate (col_emailVerificationExpires r);
     isEmailVerified := val (col_isEmailVerified r) |}.

(** [userRepo.findOneBy(where)]: the first row that matches. *)
Definition findOneBy (criteria : Row -> bool) (db : DB) : option User :=
  option_map load (find criteria db).

Definition by_email (e : string) (r : Row) : bool := String.eqb (col_email r) e.
Definition by_id (i : uuid) (r : Row) : bool := N.eqb (col_id r) i.
Definition by_resetPasswordToken (t : string) (r : Row) : bool :=
  match col_resetPasswordToken r with
  | Some s => String.eqb s t
  | None => false
  end.

(** What [save] writes to a nullable column of an existing row.
    TypeORM's [Repository.save] is a partial update: it leaves out every
    property whose value is [undefined], so that the column keeps what
    it holds, and writes NULL only for [null]. *)
Definition write {A : Type} (old : option A) (v : js A) : option A :=
  match v with
  | undefined => old
  | null => None
  | val a => Some a
  end.

Definition write_bool (old : bool) (v : js bool) : bool :=
  match v with
  | val b => b
  | _ => old
  end.

Definition update (r : Row) (u : User) : Row :=
  {| col_id := col_id r;
     col_email := email u;
     col_password := password u;
     col_refreshToken := write (col_refreshToken r) (refreshToken u);
     col_resetPasswordToken := write (col_resetPasswordToken r) (resetPasswordToken u);
     col_resetPasswordExpires := write (col_resetPasswordExpires r) (resetPasswordExpires u);
     col_emailVerificationOtp := write (col_emailVerificationOtp r) (emailVerificationOtp u);
     col_emailVerificationExpires :=
       write (col_emailVerificationExpires r) (emailVerificationExpires u);
     col_isEmailVerified := write_bool (col_isEmailVerified r) (isEmailVerified u) |}.

(** The row an INSERT creates: a column not given takes its default
    (NULL; [false] for [isEmailVerified]). *)
Definition inserted (i : uuid) (u : User) : Row :=
  {| col_id := i;
     col_email := email u;
     col_password := password u;
     col_refreshToken := write None (refreshToken u);
     col_resetPasswordToken := write None (resetPasswordToken u);
     col_resetPasswordExpires := write None (resetPasswordExpires u);
     col_emailVerificationOtp := write None (emailVerificationOtp u);
     col_emailVerificationExpires := write None (emailVerificationExpires u);
     col_isEmailVerified := write_bool false (isEmailVerified u) |}.

Definition fresh_id (db : DB) : uuid := N.of_nat (List.length db).

Definition with_id (i : uuid) (u : User) : User :=
  {| id := val i; email := email u; password := password u;
     refreshToken := refreshToken u;
     resetPasswordToken := resetPasswordToken u;
     resetPasswordExpires := resetPasswordExpires u;
     emailVerificationOtp := emailVerificationOtp u;
     emailVerificationExpires := emailVerificationExpires u;
     isEmailVerified := val (write_bool false (isEmailVerified u)) |}.

(** [userRepo.save(user)]: an entity without identifier is inserted, and
    the database refuses a second row with the same email ([unique]); an
    entity with an identifier updates its row.  [None] is a rejected
    promise. *)
Definition save (u : User) (db : DB) : option (DB * User) :=
  match id u with
  | val i =>
      Some (map (fun r => if by_id i r then update r u else r) db, u)
  | _ =>
      if existsb (by_email (email u)) db then None
      else let i := fresh_id db in Some (db ++ [inserted i u], with_id i u)
  end.

(** [userRepo.create({ ... })]: an entity with the given properties and
    nothing else. *)
Definition create (e : string) (p : pwhash) (otp : js string)
  (otpExpires : js millis) (verified : js bool) : User :=
  {| id := undefined; email := e; password := p;
     refreshToken := undefined;
     resetPasswordToken := undefined;
     resetPasswordExpires := undefined;
     emailVerificationOtp := otp;
     emailVerificationExpires := otpExpires;
     isEmailVerified := verified |}.

(** Assignments [user.f = v]. *)
Definition set_password (v : pwhash) (u : User) : User :=
  {| id := id u; email := email u; password := v;
     refreshToken := refreshToken u;
     resetPasswordToken := resetPasswordToken u;
     resetPasswordExpires := resetPasswordExpires u;
     emailVerificationOtp := emailVerificationOtp u;
     emailVerificationExpires := emailVerificationExpires u;
     isEmailVerified := isEmailVerified u |}.

Definition set_refreshToken (v : js token) (u : User) : User :=
  {| id := id u; email := email u; password := password u;
     refreshToken := v;
     resetPasswordToken := resetPasswordToken u;
     resetPasswordExpires := resetPasswordExpires u;
     emailVerificationOtp := emailVerificationOtp u;
     emailVerificationExpires := emailVerificationExpires u;
     isEmailVerified := isEmailVerified u |}.

Definition set_resetPasswordToken (v : js string) (u : User) : User :=
  {| id := id u; email := email u; password := password u;
     refreshToken := refreshToken u;
     resetPasswordToken := v;
     resetPasswordExpires := resetPasswordExpires u;
     emailVerificationOtp := emailVerificationOtp u;
     emailVerificationExpires := emailVerificationExpires u;
     isEmailVerified := isEmailVerified u |}.

Definition set_resetPasswordExpires (v : js millis) (u : User) : User :=
  {| id := id u; email := email u; password := password u;
     refreshToken := refreshToken u;
     resetPasswordToken := resetPasswordToken u;
     resetPasswordExpires := v;
     emailVerificationOtp := emailVerificationOtp u;
     emailVerificationExpires := emailVerificationExpires u;
     isEmailVerified := isEmailVerified u |}.

Definition set_emailVerificationOtp (v : js string) (u : User) : User :=
  {| id := id u; email := email u; password := password u;
     refreshToken := refreshToken u;
     resetPasswordToken := resetPasswordToken u;
     resetPasswordExpires := resetPasswordExpires u;
     emailVerificationOtp := v;
     emailVerificationExpires := emailVerificationExpires u;
     isEmailVerified := isEmailVerified u |}.

Definition set_emailVerificationExpires (v : js millis) (u : User) : User :=
  {| id := id u; email := email u; password := password u;
     refreshToken := refreshToken u;
     resetPasswordToken := resetPasswordToken u;
     resetPasswordExpires := resetPasswordExpires u;
     emailVerificationOtp := emailVerificationOtp u;
     emailVerificationExpires := v;
     isEmailVerified := isEmailVerified u |}.

Definition set_isEmailVerified (v : js bool) (u : User) : User :=
  {| id := id u; email := email u; password := password u;
     refreshToken := refreshToken u;
     resetPasswordToken := resetPasswordToken u;
     resetPasswordExpires := resetPasswordExpires u;
     emailVerificationOtp := emailVerificationOtp u;
     emailVerificationExpires := emailVerificationExpires u;
     isEmailVerified := v |}.

(** ** Numbers

    A finite non-negative binary64 value is [numer / 2 ^ scale].  The
    arithmetic below rounds to nearest, ties to even, on 53 significant
    bits, which is what [*] and [+] do on such values away from
    overflow and underflow. *)
Record double := { numer : Z; scale : Z }.

Definition round53 (p : Z) : Z :=
  let k := Z.log2 p - 52 in
  if k <=? 0 then p
  else
    let q := p / 2 ^ k in
    let r := p mod 2 ^ k in
    let half := 2 ^ (k - 1) in
    let q' := if r <? half then q
              else if half <? r then q + 1
              else if Z.even q then q else q + 1 in
    q' * 2 ^ k.

Definition of_int (n : Z) : double := {| numer := n; scale := 0 |}.

Definition fmul (a b : double) : double :=
  {| numer := round53 (numer a * numer b); scale := scale a + scale b |}.

Definition fadd (a b : double) : double :=
  let s := Z.max (scale a) (scale b) in
  {| numer := round53 (numer a * 2 ^ (s - scale a) + numer b * 2 ^ (s - scale b));
     scale := s |}.

(** [Math.floor]. *)
Definition floor (a : double) : Z := numer a / 2 ^ scale a.

(** The values [Math.random()] can return: binary64 numbers in [0, 1),
    that is [m / 2 ^ s] with [m] on 53 bits and [53 <= s <= 1074]. *)
Definition unit_interval (r : double) : Prop :=
  0 <= numer r < 2 ^ 53 /\ 53 <= scale r <= 1074.

(** [Number.prototype.toString] on an integer: its decimal digits. *)
Definition digit (d : Z) : ascii := ascii_of_nat (48 + Z.to_nat d).

Fixpoint digits (fuel : nat) (n : Z) (acc : string) : string :=
  match fuel with
  | O => acc
  | S fuel' =>
      let acc' := String (digit (n mod 10)) acc in
      if n / 10 =? 0 then acc' else digits fuel' (n / 10) acc'
  end.

Definition toString (n : Z) : string :=
  if n <? 0 then String "-" (digits (S (Z.to_nat (Z.log2 (- n)))) (- n) "")
  else digits (S (Z.to_nat (Z.log2 n))) n "".

(** [Buffer.toString('hex')]. *)
Definition hexdigit (n : N) : ascii :=
  if (n <? 10)%N then ascii_of_N (48 + n) else ascii_of_N (87 + n).

Fixpoint hex (bs : list Byte.byte) : string :=
  match bs with
  | [] => ""
  | b :: bs' =>
      let n := Byte.to_N b in
      String (hexdigit (n / 16)%N) (String (hexdigit (n mod 16)%N) (hex bs'))
  end.

(** ** Configuration and the outside world *)

(** [config/env]: the values the handlers read; the three durations are
    the integers [parseInt(_, 10)] gives for the configured strings, in
    seconds. *)
Record Env := {
  jwtSecret : string;
  accessTokenExpiresIn : Z;
  refreshTokenExpiresIn : Z;
  RESET_PASSWORD_EXPIRES_IN : Z
}.

(** [googleClient.verifyIdToken] followed by [ticket.getPayload()]: the
    call throws, or yields no payload, or a payload with its [email]
    property. *)
Inductive ticket :=
| Rejected
| NoPayload
| Payload (payload_email : js string).

(** What one request draws from outside. *)
Record World := {
  Date_now : millis;
  Math_random : double;
  entropy : nat -> Byte.byte;
  argon2_salt : N;
  sendMail_ok : bool;
  verifyIdToken : string -> ticket
}.

(** [crypto.randomBytes(n)]. *)
Definition randomBytes (w : World) (n : nat) : list Byte.byte :=
  map (entropy w) (seq 0 n).

(** ** Responses *)

#[warnings="-register-all"]
Inductive json :=
| JString (s : string)
| JBool (b : bool)
| JToken (t : token)
| JUuid (u : uuid)
| JErrors (properties : list string)
| JObject (fields : list (string * json)).

Record Response := { status : Z; body : json }.

Definition reply (code : Z) (fields : list (string * json)) : Response :=
  {| status := code; body := JObject fields |}.

(** [res.json(_)] without [res.status(_)]. *)
Definition ok (fields : list (string * json)) : Response := reply 200 fields.

(** Modelled from the spec: [middleware/errorHandler], to which
    [next(err)] hands an error, is not among the sources; section 7 has
    all uncaught errors funnel to a generic handler returning 500.  Only
    the status is given there. *)
Definition errorHandler : Response :=
  reply 500 [("error", JString "Internal server error")].

(** The property [name] of a response body. *)
Definition field (name : string) (r : Response) : option json :=
  match body r with
  | JObject fields =>
      option_map snd (find (fun f => String.eqb (fst f) name) fields)
  | _ => None
  end.

(** ** Validation (class-validator) *)

Definition text (x : js string) : string :=
  match x with
  | val s => s
  | _ => ""
  end.

(** [a !== b] is [negb (same_string a b)]. *)
Definition same_string (a : js string) (b : string) : bool :=
  match a with
  | val s => String.eqb s b
  | _ => false
  end.

Definition same_token (a : js token) (b : token) : bool :=
  match a with
  | val t => token_eqb t b
  | _ => false
  end.

(** [d < new Date()]: [null] converts to 0, [undefined] to NaN. *)
Definition earlier (d : js millis) (t : millis) : bool :=
  match d with
  | val m => m <? t
  | null => 0 <? t
  | undefined => false
  end.

Definition IsNotEmpty (x : js string) : bool := negb (falsy_string x).

Definition MinLength (n : nat) (x : js string) : bool :=
  match x with
  | val s => Nat.leb n (String.length s)
  | _ => false
  end.

(** The properties whose constraints fail. *)
Definition violations (checks : list (string * bool)) : list string :=
  map fst (filter (fun c => negb (snd c)) checks).

Definition nonempty {A : Type} (l : list A) : bool :=
  match l with
  | [] => false
  | _ :: _ => true
  end.

(** The identifier of an entity a handler holds; such an entity was read
    from the table or has been saved, and carries one. *)
Definition uid (u : User) : uuid :=
  match id u with
  | val i => i
  | _ => 0%N
  end.

Inductive header :=
| Raw (s : string)
| Bearer (t : token).

Section Handlers.

Variable env : Env.

(** class-validator's [isEmail] on a string. *)
Variable isEmail : string -> bool.

Definition IsEmail (x : js string) : bool :=
  match x with
  | val s => isEmail s
  | _ => false
  end.

Definition validate_RegisterDTO (e p : js string) : list string :=
  violations [("email", IsEmail e); ("password", IsNotEmpty p && MinLength 6 p)].

Definition validate_LoginDTO (e p : js string) : list string :=
  violations [("email", IsEmail e); ("password", IsNotEmpty p)].

Definition validate_VerifyOtpDTO (e o : js string) : list string :=
  violations [("email", IsEmail e); ("otp", IsNotEmpty o && MinLength 6 o)].

Definition validate_ResendOtpDTO (e : js string) : list string :=
  violations [("email", IsEmail e)].

Definition generateOtp (w : World) : string :=
  toString (floor (fadd (of_int 100000) (fmul (Math_random w) (of_int 900000)))).

Definition generateTokens (w : World) (userId : uuid) : token * token :=
  let now := Date_now w / 1000 in
  let accessTokenExp := now + accessTokenExpiresIn env in
  let refreshTokenExp := now + refreshTokenExpiresIn env in
  (sign userId accessTokenExp (jwtSecret env) (Date_now w),
   sign userId refreshTokenExp (jwtSecret env) (Date_now w)).

(** [POST /register]. A failure of the mail transport is logged and
    does not fail the registration. *)
Definition register (w : World) (body_email body_password : js string) (db : DB)
  : DB * Response :=
  let errors := validate_RegisterDTO body_email body_password in
  if nonempty errors then (db, reply 400 [("errors", JErrors errors)])
  else
    match findOneBy (by_email (text body_email)) db with
    | Some _ => (db, reply 400 [("error", JString "Email already registered")])
    | None =>
        let hashed := argon2_hash (text body_password) (argon2_salt w) in
        let otp := generateOtp w in
        let otpExpires := Date_now w + 10 * 60 * 1000 in
        let user := create (text body_email) hashed (val otp) (val otpExpires) (val false) in
        match save user db with
        | None => (db, errorHandler)
        | Some (db', user) =>
            (db', reply 201
               [("message",
                 JString "Registration successful. Please check your email for verification code.");
                ("email", JString (email user));
                ("requiresVerification", JBool true)])
        end
    end.

(** [POST /login]. *)
Definition login (w : World) (body_email body_password : js string) (db : DB)
  : DB * Response :=
  let errors := validate_LoginDTO body_email body_password in
  if nonempty errors then (db, reply 400 [("errors", JErrors errors)])
  else
    let invalid := (db, reply 400 [("error", JString "Invalid credentials")]) in
    match findOneBy (by_email (text body_email)) db with
    | None => invalid
    | Some user =>
        if negb (argon2_verify (password user) (text body_password)) then invalid
        else if falsy_bool (isEmailVerified user) then
          (db, reply 400
             [("error", JString "Email not verified");
              ("message", JString "Please verify your email before logging in.");
              ("requiresVerification", JBool true);
              ("email", JString (email user))])
        else
          let '(accessToken, newRefreshToken) := generateTokens w (uid user) in
          let user := set_refreshToken (val newRefreshToken) user in
          match save user db with
          | None => (db, errorHandler)
          | Some (db', _) =>
              (db', ok [("message", JString "Logged in");
                        ("user", JObject [("id", JUuid (uid user));
                                          ("email", JString (email user))]);
                        ("accessToken", JToken accessToken);
                        ("refreshToken", JToken newRefreshToken)])
          end
    end.

(** [POST /verify-otp]. *)
Definition verify_otp (w : World) (body_email body_otp : js string) (db : DB)
  : DB * Response :=
  let errors := validate_VerifyOtpDTO body_email body_otp in
  if nonempty errors then (db, reply 400 [("errors", JErrors errors)])
  else
    match findOneBy (by_email (text body_email)) db with
    | None => (db, reply 404 [("error", JString "User not found")])
    | Some user =>
        if falsy_string (emailVerificationOtp user)
           || negb (same_string (emailVerificationOtp user) (text body_otp))
           || falsy_object (emailVerificationExpires user)
           || earlier (emailVerificationExpires user) (Date_now w)
        then (db, reply 400 [("error", JString "Invalid or expired OTP")])
        else
          let user := set_isEmailVerified (val true) user in
          let user := set_emailVerificationOtp undefined user in
          let user := set_emailVerificationExpires undefined user in
          match save user db with
          | None => (db, errorHandler)
          | Some (db', _) =>
              (db', ok [("message", JString "Email verified successfully");
                        ("verified", JBool true)])
          end
    end.

(** [POST /resend-otp]. The row is saved before the mail is sent. *)
Definition resend_otp (w : World) (body_email : js string) (db : DB)
  : DB * Response :=
  let errors := validate_ResendOtpDTO body_email in
  if nonempty errors then (db, reply 400 [("errors", JErrors errors)])
  else
    match findOneBy (by_email (text body_email)) db with
    | None => (db, reply 404 [("error", JString "User not found")])
    | Some user =>
        if negb (falsy_bool (isEmailVerified user))
        then (db, reply 400 [("error", JString "Email is already verified")])
        else
          let otp := generateOtp w in
          let otpExpires := Date_now w + 10 * 60 * 1000 in
          let user := set_emailVerificationOtp (val otp) user in
          let user := set_emailVerificationExpires (val otpExpires) user in
          match save user db with
          | None => (db, errorHandler)
          | Some (db', _) =>
              if sendMail_ok w
              then (db', ok [("message", JString "OTP resent successfully");
                             ("email", JString (email user))])
              else (db', reply 500 [("error", JString "Failed to send OTP email")])
          end
    end.

(** [POST /refresh]. Whatever is thrown inside is answered with 401. *)
Definition refresh (w : World) (body_refreshToken : js token) (db : DB)
  : DB * Response :=
  if falsy_token body_refreshToken
  then (db, reply 401 [("error", JString "Refresh token required")])
  else
    let invalid := (db, reply 401 [("error", JString "Invalid refresh token")]) in
    match body_refreshToken with
    | val presented =>
        match verify presented (jwtSecret env) (Date_now w) with
        | None => invalid
        | Some payload =>
            match findOneBy (by_id (sub payload)) db with
            | None => invalid
            | Some user =>
                if negb (same_token (refreshToken user) presented) then invalid
                else
                  let '(accessToken, newRefreshToken) := generateTokens w (uid user) in
                  let user := set_refreshToken (val newRefreshToken) user in
                  match save user db with
                  | None => invalid
                  | Some (db', _) =>
                      (db', ok [("message", JString "Tokens refreshed");
                                ("accessToken", JToken accessToken);
                                ("refreshToken", JToken newRefreshToken)])
                  end
            end
        end
    | _ => invalid
    end.

(** [POST /logout]. *)
Definition logout (w : World) (body_refreshToken : js token) (db : DB)
  : DB * Response :=
  let db' :=
    if falsy_token body_refreshToken then db
    else
      match body_refreshToken with
      | val presented =>
          match verify presented (jwtSecret env) (Date_now w) with
          | None => db
          | Some payload =>
              match findOneBy (by_id (sub payload)) db with
              | None => db
              | Some user =>
                  let user := set_refreshToken undefined user in
                  match save user db with
                  | None => db
                  | Some (db', _) => db'
                  end
              end
          end
      | _ => db
      end in
  (db', ok [("message", JString "Logged out")]).

(** [POST /google]. *)
Definition google (w : World) (body_token : js string) (db : DB)
  : DB * Response :=
  if falsy_string body_token
  then (db, reply 400 [("error", JString "Token is required")])
  else
    match verifyIdToken w (text body_token) with
    | Rejected => (db, errorHandler)
    | NoPayload => (db, reply 400 [("error", JString "Invalid Google token")])
    | Payload payload_email =>
        if falsy_string payload_email
        then (db, reply 400 [("error", JString "Invalid Google token")])
        else
          let found :=
            match findOneBy (by_email (text payload_email)) db with
            | None =>
                let tempPassword := hex (randomBytes w 16) in
                let user := create (text payload_email)
                              (argon2_hash tempPassword (argon2_salt w))
                              undefined undefined undefined in
                save user db
            | Some user => Some (db, user)
            end in
          match found with
          | None => (db, errorHandler)
          | Some (db1, user) =>
              let '(accessToken, newRefreshToken) := generateTokens w (uid user) in
              let user := set_refreshToken (val newRefreshToken) user in
              match save user db1 with
              | None => (db1, errorHandler)
              | Some (db2, _) =>
                  (db2, ok [("message", JString "Signed in with Google");
                            ("user", JObject [("id", JUuid (uid user));
                                              ("email", JString (email user))]);
                            ("accessToken", JToken accessToken);
                            ("refreshToken", JToken newRefreshToken)])
              end
          end
    end.

(** [POST /forgot-password]. The row is saved before the mail is sent,
    and a failure of the mail transport reaches [next(err)]. *)
Definition forgot_password (w : World) (body_email : js string) (db : DB)
  : DB * Response :=
  if falsy_string body_email
  then (db, reply 400 [("error", JString "Email is required")])
  else
    let neutral :=
      ok [("message", JString "If that email is registered, a reset link has been sent.")] in
    match findOneBy (by_email (text body_email)) db with
    | Some user =>
        let token := hex (randomBytes w 32) in
        let user := set_resetPasswordToken (val token) user in
        let user := set_resetPasswordExpires
                      (val (Date_now w + RESET_PASSWORD_EXPIRES_IN env * 1000)) user in
        match save user db with
        | None => (db, errorHandler)
        | Some (db', _) =>
            if sendMail_ok w then (db', neutral) else (db', errorHandler)
        end
    | None => (db, neutral)
    end.

(** [POST /reset-password]. *)
Definition reset_password (w : World) (body_token body_newPassword : js string)
  (db : DB) : DB * Response :=
  if falsy_string body_token || falsy_string body_newPassword
  then (db, reply 400 [("error", JString "Token and new password are required")])
  else
    let invalid := (db, reply 400 [("error", JString "Invalid or expired token")]) in
    match findOneBy (by_resetPasswordToken (text body_token)) db with
    | None => invalid
    | Some user =>
        if falsy_object (resetPasswordExpires user)
           || earlier (resetPasswordExpires user) (Date_now w)
        then invalid
        else
          let user := set_password
                        (argon2_hash (text body_newPassword) (argon2_salt w)) user in
          let user := set_resetPasswordToken undefined user in
          let user := set_resetPasswordExpires undefined user in
          match save user db with
          | None => (db, errorHandler)
          | Some (db', _) => (db', ok [("message", JString "Password has been reset")])
          end
    end.

(** [middleware/auth.ts]: a response, or [next()] with [req.user]. *)
Definition authenticate (w : World) (authorization : option header) (db : DB)
  : Response + User :=
  let required := inl (reply 401 [("error", JString "Authorization header required")]) in
  let invalid := inl (reply 401 [("error", JString "Invalid token")]) in
  let bearer (t : token) :=
    match verify t (jwtSecret env) (Date_now w) with
    | None => invalid
    | Some payload =>
        match findOneBy (by_id (sub payload)) db with
        | None => inl (reply 401 [("error", JString "User not found")])
        | Some user => inr user
        end
    end in
  match authorization with
  | None => required
  | Some (Raw s) =>
      if negb (String.prefix "Bearer " s) then required
      else bearer (Opaque (String.substring 7 (String.length s - 7) s))
  | Some (Bearer t) => bearer t
  end.

(** [GET /me], behind [authenticate]. *)
Definition me (w : World) (authorization : option header) (db : DB) : Response :=
  match authenticate w authorization db with
  | inl r => r
  | inr u => ok [("id", JUuid (uid u)); ("email", JString (email u))]
  end.

(** ** Requests and runs *)

Inductive Request :=
| Register (body_email body_password : js string)
| Login (body_email body_password : js string)
| VerifyOtp (body_email body_otp : js string)
| ResendOtp (body_email : js string)
| Refresh (body_refreshToken : js token)
| Logout (body_refreshToken : js token)
| Google (body_token : js string)
| ForgotPassword (body_email : js string)
| ResetPassword (body_token body_newPassword : js string)
| Me (authorization : option header).

Definition handle (w : World) (rq : Request) (db : DB) : DB * Response :=
  match rq with
  | Register e p => register w e p db
  | Login e p => login w e p db
  | VerifyOtp e o => verify_otp w e o db
  | ResendOtp e => resend_otp w e db
  | Refresh t => refresh w t db
  | Logout t => logout w t db
  | Google t => google w t db
  | ForgotPassword e => forgot_password w e db
  | ResetPassword t p => reset_password w t p db
  | Me h => (db, me w h db)
  end.

(** One request: the table is updated and the response recorded, the
    latest first. *)
Definition step (st : DB * list Response) (e : World * Request)
  : DB * list Response :=
  let '(db', r) := handle (fst e) (snd e) (fst st) in (db', r :: snd st).

(** The table and the responses after a sequence of requests received
    by a server that starts on an empty table. *)
Definition run (trace : list (World * Request)) : DB * list Response :=
  fold_left step trace ([], []).

End Handlers.

(** ** Columns of a row, for stating what a request leaves alone *)

Inductive column :=
| c_id | c_email | c_password | c_refreshToken
| c_resetPasswordToken | c_resetPasswordExpires
| c_emailVerificationOtp | c_emailVerificationExpires
| c_isEmailVerified.

Definition all_columns : list column :=
  [c_id; c_email; c_password; c_refreshToken;
   c_resetPasswordToken; c_resetPasswordExpires;
   c_emailVerificationOtp; c_emailVerificationExpires;
   c_isEmailVerified].

Definition option_eqb {A : Type} (eqb : A -> A -> bool) (a b : option A) : bool :=
  match a, b with
  | Some x, Some y => eqb x y
  | None, None => true
  | _, _ => false
  end.

Definition pwhash_eqb (a b : pwhash) : bool :=
  N.eqb (salt a) (salt b) && String.eqb (plain a) (plain b).

(** Whether two rows hold the same value in a column. *)
Definition agree (c : column) (a b : Row) : bool :=
  match c with
  | c_id => N.eqb (col_id a) (col_id b)
  | c_email => String.eqb (col_email a) (col_email b)
  | c_password => pwhash_eqb (col_password a) (col_password b)
  | c_refreshToken => option_eqb token_eqb (col_refreshToken a) (col_refreshToken b)
  | c_resetPasswordToken =>
      option_eqb String.eqb (col_resetPasswordToken a) (col_resetPasswordToken b)
  | c_resetPasswordExpires =>
      option_eqb Z.eqb (col_resetPasswordExpires a) (col_resetPasswordExpires b)
  | c_emailVerificationOtp =>
      option_eqb String.eqb (col_emailVerificationOtp a) (col_emailVerificationOtp b)
  | c_emailVerificationExpires =>
      option_eqb Z.eqb (col_emailVerificationExpires a) (col_emailVerificationExpires b)
  | c_isEmailVerified => Bool.eqb (col_isEmailVerified a) (col_isEmailVerified b)
  end.

(** The columns in which two versions of a row differ. *)
Definition changed (a b : Row) : list column :=
  filter (fun c => negb (agree c a b)) all_columns.

Definition is_some {A : Type} (o : option A) : bool :=
  match o with
  | Some _ => true
  | None => false
  end.



(** Rows carry the identifiers the table handed out: the n-th row
    inserted has identifier n (the primary key is unique and never
    reassigned). *)
Definition wf (db : DB) : Prop :=
  map col_id db = map N.of_nat (seq 0 (List.length db)).

(** Row-level assignments, for stating what a request stores. *)
Definition store_refreshToken (v : option token) (r : Row) : Row :=
  {| col_id := col_id r; col_email := col_email r; col_password := col_password r;
     col_refreshToken := v;
     col_resetPasswordToken := col_resetPasswordToken r;
     col_resetPasswordExpires := col_resetPasswordExpires r;
     col_emailVerificationOtp := col_emailVerificationOtp r;
     col_emailVerificationExpires := col_emailVerificationExpires r;
     col_isEmailVerified := col_isEmailVerified r |}.

Definition store_otp (otp : option string) (expires : option millis) (r : Row) : Row :=
  {| col_id := col_id r; col_email := col_email r; col_password := col_password r;
     col_refreshToken := col_refreshToken r;
     col_resetPasswordToken := col_resetPasswordToken r;
     col_resetPasswordExpires := col_resetPasswordExpires r;
     col_emailVerificationOtp := otp;
     col_emailVerificationExpires := expires;
     col_isEmailVerified := col_isEmailVerified r |}.

Definition store_isEmailVerified (v : bool) (r : Row) : Row :=
  {| col_id := col_id r; col_email := col_email r; col_password := col_password r;
     col_refreshToken := col_refreshToken r;
     col_resetPasswordToken := col_resetPasswordToken r;
     col_resetPasswordExpires := col_resetPasswordExpires r;
     col_emailVerificationOtp := col_emailVerificationOtp r;
     col_emailVerificationExpires := col_emailVerificationExpires r;
     col_isEmailVerified := v |}.

Definition store_password (v : pwhash) (r : Row) : Row :=
  {| col_id := col_id r; col_email := col_email r; col_password := v;
     col_refreshToken := col_refreshToken r;
     col_resetPasswordToken := col_resetPasswordToken r;
     col_resetPasswordExpires := col_resetPasswordExpires r;
     col_emailVerificationOtp := col_emailVerificationOtp r;
     col_emailVerificationExpires := col_emailVerificationExpires r;
     col_isEmailVerified := col_isEmailVerified r |}.

Definition store_reset (tok : option string) (expires : option millis) (r : Row) : Row :=
  {| col_id := col_id r; col_email := col_email r; col_password := col_password r;
     col_refreshToken := col_refreshToken r;
     col_resetPasswordToken := tok;
     col_resetPasswordExpires := expires;
     col_emailVerificationOtp := col_emailVerificationOtp r;
     col_emailVerificationExpires := col_emailVerificationExpires r;
     col_isEmailVerified := col_isEmailVerified r |}.

(** The table with [f] applied to the row of account [i]. *)
Definition amend (i : uuid) (f : Row -> Row) (db : DB) : DB :=
  map (fun r => if by_id i r then f r else r) db.

(** A reference configuration ([.env.example]) and worlds for worked
    examples. *)
Definition example_env : Env :=
  {| jwtSecret := "your_jwt_secret";
     accessTokenExpiresIn := 900;
     refreshTokenExpiresIn := 2592000;
     RESET_PASSWORD_EXPIRES_IN := 3600 |}.

(** A stand-in for [isEmail] in worked examples: an [@] occurs. *)
Definition example_isEmail (s : string) : bool :=
  match String.index 0 "@" s with
  | Some _ => true
  | None => false
  end.

(** A world at a given clock reading, with the mail transport up or
    down; [Math.random()] returns one half, Google vouches for the
    identity token ["google-id-token"] of [alice@example.com]. *)
Definition example_world (clock : millis) (mail : bool) : World :=
  {| Date_now := clock;
     Math_random := {| numer := 2 ^ 52; scale := 53 |};
     entropy := fun n => Byte.xa7;
     argon2_salt := 1%N;
     sendMail_ok := mail;
     verifyIdToken := fun s =>
       if String.eqb s "google-id-token" then Payload (val "alice@example.com")
       else Rejected |}.

(** * The to-do routes

    [backend/src/routes/todos.ts], mounted behind [authenticate].  What
    these routes take from libraries is gathered in a [TodoLib]: the
    values of a Date column with [new Date(string)] and the order the
    database sorts them in, [sanitize-html], and class-validator's
    [isDateString]. *)

Record TodoLib := {
  Date : Type;
  new_Date : string -> Date;
  date_leb : Date -> Date -> bool;
  sanitizeHtml : string -> string;
  isDateString : string -> bool
}.

(** [entities/Todo.entity], as a row of its table; [createdAt] and
    [updatedAt] are kept by the persistence layer, and the relation
    [user] is the column [userId]. *)
Record Todo (L : TodoLib) := {
  todo_id : uuid;
  todo_name : string;
  todo_shortDescription : string;
  todo_dateTime : Date L;
  todo_isDone : bool;
  todo_deletedAt : option millis;
  todo_userId : uuid
}.
Arguments todo_id {L} t.
Arguments todo_name {L} t.
Arguments todo_shortDescription {L} t.
Arguments todo_dateTime {L} t.
Arguments todo_isDone {L} t.
Arguments todo_deletedAt {L} t.
Arguments todo_userId {L} t.

(** The [:id] of a path: a string that is no UUID, or the UUID of an
    identifier ([isUUID] tells them apart). *)
Inductive path_id :=
| NotUuid (s : string)
| Uuid (i : uuid).

(** What the to-do routes answer with: validation errors, an error
    message, a todo (with the entity its [user] property holds, when it
    holds one), a list of todos, or nothing. *)
Inductive TodoBody (L : TodoLib) :=
| TErrors (properties : list string)
| TError (message : string)
| TTodo (t : Todo L) (user : option User)
| TTodos (l : list (Todo L))
| TEmpty.
Arguments TErrors {L} properties.
Arguments TError {L} message.
Arguments TTodo {L} t user.
Arguments TTodos {L} l.
Arguments TEmpty {L}.

Section TodoRoutes.

Variable L : TodoLib.

Definition Todos := list (Todo L).

Definition MaxLength (n : nat) (x : js string) : bool :=
  match x with
  | val s => Nat.leb (String.length s) n
  | _ => false
  end.

Definition IsDateString (x : js string) : bool :=
  match x with
  | val s => isDateString L s
  | _ => false
  end.

Definition validate_CreateTodoDTO (n d t : js string) : list string :=
  violations [("name", IsNotEmpty n && MaxLength 100 n);
              ("shortDescription", IsNotEmpty d && MaxLength 500 d);
              ("dateTime", IsNotEmpty t && IsDateString t)].

(** Rows that are not soft-deleted: the only ones [findOneBy] and the
    query builder see. *)
Definition live (t : Todo L) : bool := negb (is_some (todo_deletedAt t)).

Definition owned_by (u : uuid) (t : Todo L) : bool := N.eqb (todo_userId t) u.

(** [todoRepo.findOneBy({ id, userId })]. *)
Definition find_todo (i u : uuid) (todos : Todos) : option (Todo L) :=
  find (fun t => live t && N.eqb (todo_id t) i && owned_by u t) todos.

(** [todoRepo.save(todo)] on a todo read from the table, and
    [softRemove]: the row of its identifier is rewritten. *)
Definition rewrite_todo (i : uuid) (f : Todo L -> Todo L) (todos : Todos) : Todos :=
  map (fun t => if N.eqb (todo_id t) i then f t else t) todos.

(** [POST /todos]. *)
Definition create_todo (user : User) (body_name body_shortDescription
  body_dateTime : js string) (todos : Todos) : Todos * (Z * TodoBody L) :=
  let errors := validate_CreateTodoDTO body_name body_shortDescription body_dateTime in
  if nonempty errors then (todos, (400, TErrors errors))
  else
    let todo :=
      {| todo_id := N.of_nat (List.length todos);
         todo_name := sanitizeHtml L (text body_name);
         todo_shortDescription := sanitizeHtml L (text body_shortDescription);
         todo_dateTime := new_Date L (text body_dateTime);
         todo_isDone := false;
         todo_deletedAt := None;
         todo_userId := uid user |} in
    (todos ++ [todo], (201, TTodo todo (Some user))).

(** [ORDER BY todo.dateTime ASC]: an insertion sort by the database's
    order on dates. *)
Fixpoint insert_by_date (t : Todo L) (l : list (Todo L)) : list (Todo L) :=
  match l with
  | [] => [t]
  | t' :: l' =>
      if date_leb L (todo_dateTime t) (todo_dateTime t') then t :: l
      else t' :: insert_by_date t l'
  end.

Fixpoint order_by_date (l : list (Todo L)) : list (Todo L) :=
  match l with
  | [] => []
  | t :: l' => insert_by_date t (order_by_date l')
  end.

(** The order on todos that [ORDER BY todo.dateTime ASC] asks for. *)
Definition by_date (a b : Todo L) : Prop :=
  date_leb L (todo_dateTime a) (todo_dateTime b) = true.

(** The rows [GET /todos] selects. *)
Definition selected (u : uuid) (query_status : js string) (t : Todo L) : bool :=
  live t && owned_by u t &&
  (if same_string query_status "COMPLETED" then todo_isDone t
   else if same_string query_status "UPCOMING" then negb (todo_isDone t)
   else true).

(** [GET /todos]. *)
Definition list_todos (user : User) (query_status : js string) (todos : Todos)
  : Todos * (Z * TodoBody L) :=
  (todos, (200, TTodos (order_by_date (filter (selected (uid user) query_status) todos)))).

(** [PUT /todos/:id]. *)
Definition update_todo (user : User) (id_param : path_id)
  (body_name body_shortDescription body_dateTime : js string) (body_isDone : js bool)
  (todos : Todos) : Todos * (Z * TodoBody L) :=
  match id_param with
  | NotUuid _ => (todos, (400, TError "Invalid ID"))
  | Uuid i =>
      match find_todo i (uid user) todos with
      | None => (todos, (404, TError "Todo not found"))
      | Some todo =>
          let todo :=
            {| todo_id := todo_id todo;
               todo_name := if falsy_string body_name then todo_name todo
                            else sanitizeHtml L (text body_name);
               todo_shortDescription :=
                 if falsy_string body_shortDescription then todo_shortDescription todo
                 else sanitizeHtml L (text body_shortDescription);
               todo_dateTime := if falsy_string body_dateTime then todo_dateTime todo
                                else new_Date L (text body_dateTime);
               todo_isDone := match body_isDone with
                              | val b => b
                              | _ => todo_isDone todo
                              end;
               todo_deletedAt := todo_deletedAt todo;
               todo_userId := todo_userId todo |} in
          (rewrite_todo i (fun _ => todo) todos, (200, TTodo todo None))
      end
  end.

(** [DELETE /todos/:id]. *)
Definition delete_todo (w : World) (user : User) (id_param : path_id) (todos : Todos)
  : Todos * (Z * TodoBody L) :=
  match id_param with
  | NotUuid _ => (todos, (400, TError "Invalid ID"))
  | Uuid i =>
      match find_todo i (uid user) todos with
      | None => (todos, (404, TError "Todo not found"))
      | Some _ =>
          (rewrite_todo i
             (fun t => {| todo_id := todo_id t;
                          todo_name := todo_name t;
                          todo_shortDescription := todo_shortDescription t;
                          todo_dateTime := todo_dateTime t;
                          todo_isDone := todo_isDone t;
                          todo_deletedAt := Some (Date_now w);
                          todo_userId := todo_userId t |}) todos,
           (204, TEmpty))
      end
  end.

(** Requests to the to-do routes. *)
Inductive TodoRequest :=
| CreateTodo (body_name body_shortDescription body_dateTime : js string)
| ListTodos (query_status : js string)
| UpdateTodo (id_param : path_id)
    (body_name body_shortDescription body_dateTime : js string) (body_isDone : js bool)
| DeleteTodo (id_param : path_id).

Definition todo_route (w : World) (user : User) (rq : TodoRequest) (todos : Todos)
  : Todos * (Z * TodoBody L) :=
  match rq with
  | CreateTodo n d t => create_todo user n d t todos
  | ListTodos s => list_todos user s todos
  | UpdateTodo i n d t b => update_todo user i n d t b todos
  | DeleteTodo i => delete_todo w user i todos
  end.

(** [app.use('/api', authenticate, todosRouter)]: the middleware's
    answer, or the route's. *)
Definition api_todos (env : Env) (w : World) (authorization : option header)
  (rq : TodoRequest) (db : DB) (todos : Todos)
  : Todos * (Response + Z * TodoBody L) :=
  match authenticate env w authorization db with
  | inl r => (todos, inl r)
  | inr user =>
      let '(todos', answer) := todo_route w user rq todos in (todos', inr answer)
  end.

(** Rows carry the identifiers the table handed out. *)
Definition todos_wf (todos : Todos) : Prop :=
  map todo_id todos = map N.of_nat (seq 0 (List.length todos)).

End TodoRoutes.

Arguments live {L} t.
Arguments owned_by {L} u t.
Arguments selected {L} u query_status t.
Arguments by_date {L} a b.

(** * Vocabulary of the properties *)

(** ** Decimal strings *)

(** A character between [0] and [9]. *)
Definition is_digit (c : ascii) : bool :=
  Nat.leb 48 (nat_of_ascii c) && Nat.leb (nat_of_ascii c) 57.

(** Every character of a string is a decimal digit. *)
Fixpoint numeric (s : string) : bool :=
  match s with
  | EmptyString => true
  | String c s' => is_digit c && numeric s'
  end.

(** ** Refresh tokens, stored and issued *)

(** A presented refresh token is acceptable when it verifies under the
    secret and is the token stored on the account it names. *)
Definition acceptable (env : Env) (w : World) (x : js token) (db : DB)
  (t : token) (c : claims) (row : Row) : Prop :=
  x = val t /\
  verify t (jwtSecret env) (Date_now w) = Some c /\
  find (by_id (sub c)) db = Some row /\
  col_refreshToken row = Some t.

(** The refresh token stored for account [i]. *)
Definition stored (db : DB) (i : uuid) : option token :=
  match find (by_id i) db with
  | Some r => col_refreshToken r
  | None => None
  end.

(** What one request does to the stored refresh tokens: either its
    response carries no refresh token and no stored token changes, or it
    carries the token just generated for one account and that token is
    stored on that account, no other account's token changing. *)
Definition token_effect (env : Env) (w : World) (db : DB) (res : DB * Response)
  : Prop :=
  (field "refreshToken" (snd res) = None /\
   forall i, stored (fst res) i = stored db i)
  \/
  (exists j,
      field "refreshToken" (snd res) = Some (JToken (snd (generateTokens env w j))) /\
      forall i, stored (fst res) i
                = if N.eqb i j then Some (snd (generateTokens env w j))
                  else stored db i).

(** The refresh token a response issues for account [i]. *)
Definition issued_to (i : uuid) (r : Response) : option token :=
  match field "refreshToken" r with
  | Some (JToken (Signed k c)) =>
      if N.eqb (sub c) i then Some (Signed k c) else None
  | _ => None
  end.

(** The refresh token most recently issued for account [i], in a list
    of responses that has the latest first. *)
Fixpoint latest_issued (i : uuid) (rs : list Response) : option token :=
  match rs with
  | [] => None
  | r :: rs' =>
      match issued_to i r with
      | Some t => Some t
      | None => latest_issued i rs'
      end
  end.

(** ** Sign-in with Google *)

(** The row Google sign-in provisions for an unknown email, once the
    refresh token is stored on it. *)
Definition provisioned (w : World) (i : uuid) (e : string) (t : token) : Row :=
  {| col_id := i;
     col_email := e;
     col_password := argon2_hash (hex (randomBytes w 16)) (argon2_salt w);
     col_refreshToken := Some t;
     col_resetPasswordToken := None;
     col_resetPasswordExpires := None;
     col_emailVerificationOtp := None;
     col_emailVerificationExpires := None;
     col_isEmailVerified := false |}.

(** The response of a successful Google sign-in for account [i]. *)
Definition signed_in (env : Env) (w : World) (i : uuid) (e : string) : Response :=
  ok [("message", JString "Signed in with Google");
      ("user", JObject [("id", JUuid i); ("email", JString e)]);
      ("accessToken", JToken (fst (generateTokens env w i)));
      ("refreshToken", JToken (snd (generateTokens env w i)))].

(** ** What a request may write *)

(** The columns a request may write on an existing account. *)
Definition touches (rq : Request) : list column :=
  match rq with
  | Register _ _ => []
  | Login _ _ => [c_refreshToken]
  | VerifyOtp _ _ =>
      [c_isEmailVerified; c_emailVerificationOtp; c_emailVerificationExpires]
  | ResendOtp _ => [c_emailVerificationOtp; c_emailVerificationExpires]
  | Refresh _ => [c_refreshToken]
  | Logout _ => [c_refreshToken]
  | Google _ => [c_refreshToken]
  | ForgotPassword _ => [c_resetPasswordToken; c_resetPasswordExpires]
  | ResetPassword _ _ =>
      [c_password; c_resetPasswordToken; c_resetPasswordExpires]
  | Me _ => []
  end.

(** The requests that may create an account. *)
Definition creates (rq : Request) : bool :=
  match rq with
  | Register _ _ | Google _ => true
  | _ => false
  end.

(** How a request may change the table: the row of one account is
    rewritten in the given columns, and at most one row is appended
    under a fresh identifier. *)
Definition shape (cols : list column) (may_add : bool) (db db' : DB) : Prop :=
  exists i f extra,
    db' = amend i f db ++ extra /\
    (forall r, col_id (f r) = col_id r) /\
    (forall r, incl (changed r (f r)) cols) /\
    (extra = [] \/
     may_add = true /\ exists row, extra = [row] /\ col_id row = fresh_id db).

(** ** The mail transport *)

(** The same draw from outside, with the mail transport up or down. *)
Definition mail_set (b : bool) (w : World) : World :=
  {| Date_now := Date_now w;
     Math_random := Math_random w;
     entropy := entropy w;
     argon2_salt := argon2_salt w;
     sendMail_ok := b;
     verifyIdToken := verifyIdToken w |}.

(** ** Worked states: Alice's account *)

(** Alice has registered at clock 1000 (her OTP is 550000), ... *)
Definition db_registered : DB := Eval vm_compute in
  fst (register example_isEmail (example_world 1000 true)
         (val "alice@example.com") (val "correct horse") []).

(** ... has verified her email at clock 2000, ... *)
Definition db_verified : DB := Eval vm_compute in
  fst (verify_otp example_isEmail (example_world 2000 true)
         (val "alice@example.com") (val "550000") db_registered).

(** ... and has logged in at clock 5000. *)
Definition db_logged_in : DB := Eval vm_compute in
  fst (login example_env example_isEmail (example_world 5000 true)
         (val "alice@example.com") (val "correct horse") db_verified).

(** The refresh token that login issued. *)
Definition alice_token : token :=
  Signed "your_jwt_secret" {| sub := 0%N; exp := 2592005; iat := 5 |}.

(** The reset token that forgot-password mails to Alice at clock 6000:
    the hex writing of 32 bytes [a7]. *)
Definition alice_reset_token : string := Eval vm_compute in
  hex (randomBytes (example_world 6000 true) 32).

(** Alice has asked for a password reset at clock 6000, ... *)
Definition db_forgot : DB := Eval vm_compute in
  fst (forgot_password example_env (example_world 6000 true)
         (val "alice@example.com") db_verified).

(** ... and has used the reset token at clock 7000. *)
Definition db_reset : DB := Eval vm_compute in
  fst (reset_password (example_world 7000 true)
         (val alice_reset_token) (val "first new password") db_forgot).

(** Alice's row, by the refresh token it holds and by whether her
    email is verified, before any password reset. *)
Definition alice_row (t : option token) (verified : bool) : Row :=
  {| col_id := 0%N;
     col_email := "alice@example.com";
     col_password := {| salt := 1; plain := "correct horse" |};
     col_refreshToken := t;
     col_resetPasswordToken := None;
     col_resetPasswordExpires := None;
     col_emailVerificationOtp := Some "550000";
     col_emailVerificationExpires := Some 601000;
     col_isEmailVerified := verified |}.

(** Alice, as the middleware reads her after her login. *)
Definition alice : User := Eval vm_compute in load (alice_row (Some alice_token) true).

(** The requests that brought Alice's account to [db_verified], and
    her login. *)
Definition alice_onboarding : list (World * Request) :=
  [(example_world 1000 true,
    Register (val "alice@example.com") (val "correct horse"));
   (example_world 2000 true,
    VerifyOtp (val "alice@example.com") (val "550000"))].

Definition alice_login : World * Request :=
  (example_world 5000 true,
   Login (val "alice@example.com") (val "correct horse")).

(** ** Worked states: Alice's todos *)

(** An instance of the libraries: a date is kept as its ISO-8601 text
    in UTC, which the order on strings sorts by time; the sanitizer
    leaves text without markup as it is; the date strings are the texts
    of 20 characters. *)
Definition example_lib : TodoLib :=
  {| Date := string;
     new_Date := fun s => s;
     date_leb := String.leb;
     sanitizeHtml := fun s => s;
     isDateString := fun s => Nat.eqb (String.length s) 20 |}.

Definition alice_todo : Todo example_lib :=
  {| todo_id := 0%N;
     todo_name := "Write the report";
     todo_shortDescription := "Quarterly figures";
     todo_dateTime := new_Date example_lib "2026-03-01T09:00:00Z";
     todo_isDone := false;
     todo_deletedAt := None;
     todo_userId := 0%N |}.

Definition bob_todo : Todo example_lib :=
  {| todo_id := 1%N;
     todo_name := "Book the venue";
     todo_shortDescription := "Team offsite";
     todo_dateTime := new_Date example_lib "2026-02-01T09:00:00Z";
     todo_isDone := true;
     todo_deletedAt := None;
     todo_userId := 1%N |}.

Definition example_todos : Todos example_lib := [alice_todo; bob_todo].

(** * Properties *)

(** ** Comparisons decide equality *)

Lemma claims_eqb_eq (a b : claims) : claims_eqb a b = true <-> a = b.
Proof.
  unfold claims_eqb. destruct a as [s e i], b as [s' e' i']; simpl.
  rewrite !andb_true_iff, N.eqb_eq, !Z.eqb_eq.
  split.
  - intros [[-> ->] ->]. reflexivity.
  - intros H. inversion H. auto.
Qed.

Lemma token_eqb_eq (a b : token) : token_eqb a b = true <-> a = b.
Proof.
  destruct a as [x | k c], b as [y | k' c']; simpl.
  - rewrite String.eqb_eq. split; [intros -> | intros H; inversion H]; reflexivity.
  - split; discriminate.
  - split; discriminate.
  - rewrite andb_true_iff, String.eqb_eq, claims_eqb_eq.
    split; [intros [-> ->] | intros H; inversion H]; auto.
Qed.

Lemma token_eqb_refl (a : token) : token_eqb a a = true.
Proof. apply token_eqb_eq. reflexivity. Qed.

Lemma pwhash_eqb_refl (a : pwhash) : pwhash_eqb a a = true.
Proof.
  unfold pwhash_eqb. rewrite N.eqb_refl, String.eqb_refl. reflexivity.
Qed.

Lemma same_token_hydrate (c : option token) (t : token) :
  same_token (hydrate c) t = true <-> c = Some t.
Proof.
  destruct c as [t' |]; simpl.
  - rewrite token_eqb_eq. split; [intros -> | intros H; inversion H]; reflexivity.
  - split; discriminate.
Qed.

(** ** The table *)

Lemma write_hydrate {A : Type} (c : option A) : write c (hydrate c) = c.
Proof. destruct c; reflexivity. Qed.

Lemma wf_nth (db : DB) (n : nat) (r : Row) :
  wf db -> nth_error db n = Some r -> col_id r = N.of_nat n.
Proof.
  intros Hwf Hn.
  assert (Hlt : (n < List.length db)%nat).
  { apply nth_error_Some. rewrite Hn. discriminate. }
  assert (H : nth_error (map col_id db) n = Some (col_id r)).
  { rewrite nth_error_map, Hn. reflexivity. }
  rewrite Hwf, nth_error_map in H.
  rewrite nth_error_seq in H.
  destruct (Nat.ltb_spec n (List.length db)) as [_ | Hge]; [| lia].
  simpl in H. inversion H. reflexivity.
Qed.

(** The primary key names one row. *)
Lemma wf_unique (db : DB) (r r' : Row) :
  wf db -> In r db -> In r' db -> col_id r = col_id r' -> r = r'.
Proof.
  intros Hwf Hr Hr' Hid.
  apply In_nth_error in Hr. destruct Hr as [n Hn].
  apply In_nth_error in Hr'. destruct Hr' as [n' Hn'].
  pose proof (wf_nth db n r Hwf Hn) as E.
  pose proof (wf_nth db n' r' Hwf Hn') as E'.
  assert (n = n') by lia. subst n'.
  rewrite Hn in Hn'. inversion Hn'. reflexivity.
Qed.

Lemma wf_nil : wf [].
Proof. reflexivity. Qed.

Lemma wf_insert (db : DB) (r : Row) :
  wf db -> col_id r = fresh_id db -> wf (db ++ [r]).
Proof.
  unfold wf, fresh_id. intros Hwf Hid.
  rewrite map_app, length_app, Hwf. simpl.
  rewrite Nat.add_1_r, seq_S, map_app. simpl. rewrite Hid. reflexivity.
Qed.

Lemma wf_amend (i : uuid) (f : Row -> Row) (db : DB) :
  (forall r, col_id (f r) = col_id r) -> wf db -> wf (amend i f db).
Proof.
  unfold wf, amend. intros Hf Hwf.
  rewrite map_map, length_map, <- Hwf.
  apply map_ext. intros r. destruct (by_id i r); auto.
Qed.

Lemma amend_ext (i : uuid) (f g : Row -> Row) (db : DB) :
  (forall r, In r db -> col_id r = i -> f r = g r) ->
  amend i f db = amend i g db.
Proof.
  intros H. unfold amend. apply map_ext_in. intros r Hin.
  unfold by_id. destruct (N.eqb_spec (col_id r) i); auto.
Qed.

Lemma amend_id (i : uuid) (f : Row -> Row) (db : DB) :
  (forall r, In r db -> col_id r = i -> f r = r) -> amend i f db = db.
Proof.
  intros H. unfold amend. rewrite <- (map_id db) at 2.
  apply map_ext_in. intros r Hin.
  unfold by_id. destruct (N.eqb_spec (col_id r) i); auto.
Qed.

Lemma find_by_id_In (i : uuid) (db : DB) (r : Row) :
  find (by_id i) db = Some r -> In r db /\ col_id r = i.
Proof.
  intros H. apply find_some in H. destruct H as [Hin Hb].
  split; [exact Hin | apply N.eqb_eq; exact Hb].
Qed.

(** Looking an account up by its key after its row was rewritten. *)
Lemma find_by_id_amend (i j : uuid) (f : Row -> Row) (db : DB) :
  (forall r, col_id (f r) = col_id r) ->
  find (by_id j) (amend i f db)
  = option_map (fun r => if by_id i r then f r else r) (find (by_id j) db).
Proof.
  intros Hf. unfold amend. induction db as [| r db IH]; simpl; [reflexivity |].
  assert (E : by_id j (if by_id i r then f r else r) = by_id j r).
  { unfold by_id. destruct (N.eqb (col_id r) i); [rewrite Hf |]; reflexivity. }
  rewrite E. destruct (by_id j r); [reflexivity | exact IH].
Qed.

(** A row found by any criterion is the row its key finds. *)
Lemma find_key (crit : Row -> bool) (db : DB) (r : Row) :
  wf db -> find crit db = Some r -> find (by_id (col_id r)) db = Some r.
Proof.
  intros Hwf H. apply find_some in H. destruct H as [Hin _].
  destruct (find (by_id (col_id r)) db) as [r' |] eqn:E.
  - apply find_by_id_In in E. destruct E as [Hin' Hid].
    f_equal. apply (wf_unique db); auto.
  - exfalso. apply (find_none _ _ E) in Hin.
    unfold by_id in Hin. rewrite N.eqb_refl in Hin. discriminate.
Qed.

(** Saving an entity that carries a key rewrites the row of that key. *)
Lemma save_keyed (u : User) (i : uuid) (db : DB) :
  id u = val i -> save u db = Some (amend i (fun r => update r u) db, u).
Proof. intros H. unfold save. rewrite H. reflexivity. Qed.

(** What the handlers' assignments store, on the row the entity was
    read from. *)
Lemma update_set_refreshToken (r : Row) (v : js token) :
  update r (set_refreshToken v (load r))
  = store_refreshToken (write (col_refreshToken r) v) r.
Proof.
  destruct r; unfold update, store_refreshToken; simpl.
  rewrite !write_hydrate. reflexivity.
Qed.

(** Saving the entity read from a row, with a new [refreshToken]. *)
Lemma save_refreshToken (db : DB) (r : Row) (v : js token) :
  wf db -> In r db ->
  save (set_refreshToken v (load r)) db
  = Some (amend (col_id r) (store_refreshToken (write (col_refreshToken r) v)) db,
          set_refreshToken v (load r)).
Proof.
  intros Hwf Hin. rewrite (save_keyed _ (col_id r)) by reflexivity.
  f_equal. f_equal. apply amend_ext. intros r' Hin' Hid.
  assert (r' = r) by (apply (wf_unique db); auto). subst r'.
  apply update_set_refreshToken.
Qed.

(** ** Rounding and the one-time code *)

Lemma round53_small (p : Z) : p < 2 ^ 53 -> round53 p = p.
Proof.
  intros H. unfold round53.
  destruct (Z.leb_spec (Z.log2 p - 52) 0) as [_ | Hk]; [reflexivity |].
  exfalso. destruct (Z.le_gt_cases p 0) as [Hp | Hp].
  - rewrite Z.log2_nonpos in Hk by exact Hp. lia.
  - assert (Z.log2 p < 53) by (apply Z.log2_lt_pow2; lia). lia.
Qed.

(** Above 53 bits: the quotient by the unit in the last place is kept or
    bumped by one, and bumped only from the midpoint on. *)
Lemma round53_large (p : Z) :
  0 < Z.log2 p - 52 ->
  exists k q r,
    0 < k /\ p = q * 2 ^ k + r /\ 0 <= r < 2 ^ k /\
    2 ^ 52 <= q < 2 ^ 53 /\
    (round53 p = q * 2 ^ k \/
     (round53 p = (q + 1) * 2 ^ k /\ 2 ^ (k - 1) <= r)).
Proof.
  intros Hk. unfold round53.
  destruct (Z.leb_spec (Z.log2 p - 52) 0) as [Hle | _]; [lia |].
  assert (Hp : 0 < p).
  { destruct (Z.le_gt_cases p 0) as [Hp | Hp]; [| exact Hp].
    rewrite Z.log2_nonpos in Hk by exact Hp. lia. }
  set (k := Z.log2 p - 52) in *.
  pose proof (Z.log2_spec p Hp) as [Hlo Hhi].
  assert (E : Z.log2 p = 52 + k) by (unfold k; lia).
  rewrite E in Hlo. replace (Z.succ (Z.log2 p)) with (53 + k) in Hhi by lia.
  rewrite Z.pow_add_r in Hlo, Hhi by lia.
  assert (HP : 0 < 2 ^ k) by (apply Z.pow_pos_nonneg; lia).
  pose proof (Z.div_mod p (2 ^ k) ltac:(lia)) as Hdm.
  pose proof (Z.mod_pos_bound p (2 ^ k) HP) as Hr.
  exists k, (p / 2 ^ k), (p mod 2 ^ k).
  split; [exact Hk |]. split; [lia |]. split; [exact Hr |].
  split; [nia |].
  destruct (Z.ltb_spec (p mod 2 ^ k) (2 ^ (k - 1))); [left; reflexivity |].
  destruct (Z.ltb_spec (2 ^ (k - 1)) (p mod 2 ^ k)); [right; split; [reflexivity | lia] |].
  destruct (Z.even (p / 2 ^ k)); [left; reflexivity | right; split; [reflexivity | lia]].
Qed.

Lemma pow2_split (j k : Z) : 0 <= k <= j -> 2 ^ j = 2 ^ (j - k) * 2 ^ k /\ 0 < 2 ^ (j - k).
Proof.
  intros H. split.
  - rewrite <- Z.pow_add_r by lia. f_equal. lia.
  - apply Z.pow_pos_nonneg; lia.
Qed.

(** Rounding does not cross a representable number. *)
Lemma round53_le (p c j : Z) :
  0 <= c < 2 ^ 53 -> 0 <= j -> p <= c * 2 ^ j -> round53 p <= c * 2 ^ j.
Proof.
  intros Hc Hj Hle.
  destruct (Z.le_gt_cases (Z.log2 p - 52) 0) as [Hk | Hk].
  { unfold round53. destruct (Z.leb_spec (Z.log2 p - 52) 0); [exact Hle | lia]. }
  destruct (round53_large p Hk) as (k & q & r & Hk0 & Hp & Hr & Hq & Hround).
  assert (HP : 0 < 2 ^ k) by (apply Z.pow_pos_nonneg; lia).
  assert (Hjk : k <= j).
  { destruct (Z.le_gt_cases k j) as [| Hlt]; [assumption |]. exfalso.
    destruct (pow2_split (k - 1) j ltac:(lia)) as [E Hpos].
    destruct (pow2_split k (k - 1) ltac:(lia)) as [E' _].
    replace (k - (k - 1)) with 1 in E' by lia. change (2 ^ 1) with 2 in E'.
    assert (0 < 2 ^ j) by (apply Z.pow_pos_nonneg; lia).
    nia. }
  destruct (pow2_split j k ltac:(lia)) as [E Hpos]. rewrite E in *.
  set (P := 2 ^ k) in *. set (J := 2 ^ (j - k)) in *.
  destruct Hround as [-> | [-> Hhalf]].
  - nia.
  - assert (0 < 2 ^ (k - 1)) by (apply Z.pow_pos_nonneg; lia).
    assert (q * P < c * J * P) by nia.
    assert (q < c * J) by nia. nia.
Qed.

Lemma round53_ge (p c j : Z) :
  0 <= c < 2 ^ 53 -> 0 <= j -> c * 2 ^ j <= p -> c * 2 ^ j <= round53 p.
Proof.
  intros Hc Hj Hle.
  destruct (Z.le_gt_cases (Z.log2 p - 52) 0) as [Hk | Hk].
  { unfold round53. destruct (Z.leb_spec (Z.log2 p - 52) 0); [exact Hle | lia]. }
  destruct (round53_large p Hk) as (k & q & r & Hk0 & Hp & Hr & Hq & Hround).
  assert (HP : 0 < 2 ^ k) by (apply Z.pow_pos_nonneg; lia).
  assert (Hq' : c * 2 ^ j <= q * 2 ^ k).
  { destruct (Z.le_gt_cases k j) as [Hkj | Hlt].
    - destruct (pow2_split j k ltac:(lia)) as [E Hpos]. rewrite E in *.
      set (P := 2 ^ k) in *. set (J := 2 ^ (j - k)) in *.
      assert (c * J < q + 1) by nia. nia.
    - destruct (pow2_split k j ltac:(lia)) as [E Hpos]. rewrite E.
      assert (0 < 2 ^ j) by (apply Z.pow_pos_nonneg; lia).
      assert (2 <= 2 ^ (k - j)).
      { replace (k - j) with (1 + (k - j - 1)) by lia.
        rewrite Z.pow_add_r by lia.
        assert (0 < 2 ^ (k - j - 1)) by (apply Z.pow_pos_nonneg; lia). lia. }
      set (P := 2 ^ j) in *. set (J := 2 ^ (k - j)) in *.
      assert (2 ^ 53 <= q * J) by nia.
      assert (c * P <= 2 ^ 53 * P) by nia.
      assert (2 ^ 53 * P <= q * J * P) by nia. lia. }
  destruct Hround as [-> | [-> _]]; nia.
Qed.

(** The product [r * 900000] for [r] just below one rounds below
    900000. *)
Lemma round53_product (m s : Z) :
  53 <= s -> 0 <= m < 2 ^ 53 -> m < 2 ^ s ->
  0 <= round53 (m * 900000) <= (900000 * 2 ^ 33 - 1) * 2 ^ (s - 33).
Proof.
  intros Hs Hm Hms. split.
  { change 0 with (0 * 2 ^ 0). apply round53_ge; simpl; lia. }
  destruct (pow2_split s 53 ltac:(lia)) as [Es HT].
  destruct (pow2_split (s - 33) (s - 53) ltac:(lia)) as [EK _].
  replace (s - 33 - (s - 53)) with 20 in EK by lia.
  set (T := 2 ^ (s - 53)) in *.
  assert (Hm' : m <= 2 ^ 53 * T - T).
  { destruct (Z.eq_dec s 53) as [-> | Hne].
    - change (2 ^ (53 - 53)) with 1 in T. subst T. lia.
    - assert (2 <= T).
      { subst T. replace (s - 53) with (1 + (s - 54)) by lia.
        rewrite Z.pow_add_r by lia.
        assert (0 < 2 ^ (s - 54)) by (apply Z.pow_pos_nonneg; lia). lia. }
      nia. }
  destruct (Z.le_gt_cases (m * 900000) ((900000 * 2 ^ 33 - 1) * 2 ^ (s - 33)))
    as [Hle | Hgt].
  { apply round53_le; [lia | lia | exact Hle]. }
  rewrite EK in *.
  assert (Hlog : Z.log2 (m * 900000) = s + 19).
  { apply Z.log2_unique; [lia |].
    replace (Z.succ (s + 19)) with (20 + s) by lia.
    replace (s + 19) with (19 + s) by lia.
    rewrite !Z.pow_add_r by lia. rewrite Es. split; nia. }
  unfold round53. rewrite Hlog.
  replace (s + 19 - 52) with (s - 33) by lia.
  destruct (Z.leb_spec (s - 33) 0) as [| _]; [lia |].
  destruct (pow2_split (s - 33 - 1) (s - 53) ltac:(lia)) as [EH _].
  replace (s - 33 - 1 - (s - 53)) with 19 in EH by lia.
  rewrite EK, EH. fold T.
  assert (Hq : m * 900000 / (2 ^ 20 * T) = 900000 * 2 ^ 33 - 1).
  { symmetry. apply (Z.div_unique_pos _ _ _ (m * 900000 - (900000 * 2 ^ 33 - 1) * (2 ^ 20 * T))); nia. }
  assert (Hr : (m * 900000) mod (2 ^ 20 * T) < 2 ^ 19 * T).
  { rewrite Z.mod_eq by lia. rewrite Hq. nia. }
  destruct (Z.ltb_spec ((m * 900000) mod (2 ^ 20 * T)) (2 ^ 19 * T)); [| lia].
  rewrite Hq. lia.
Qed.

(** [Math.floor(100000 + Math.random() * 900000)] lies between 100000
    and 999999. *)
Lemma otp_range (r : double) :
  unit_interval r ->
  100000 <= floor (fadd (of_int 100000) (fmul r (of_int 900000))) <= 999999.
Proof.
  intros [Hm [Hs _]]. unfold floor, fadd, fmul, of_int; cbn [numer scale].
  rewrite Z.add_0_r.
  assert (Hmax : Z.max 0 (scale r) = scale r) by lia. rewrite !Hmax.
  rewrite Z.sub_0_r, Z.sub_diag, Z.pow_0_r, Z.mul_1_r.
  set (s := scale r) in *. set (m := numer r) in *.
  assert (HS : 0 < 2 ^ s) by (apply Z.pow_pos_nonneg; lia).
  assert (Hms : m < 2 ^ s).
  { assert (2 ^ 53 <= 2 ^ s) by (apply Z.pow_le_mono_r; lia). lia. }
  pose proof (round53_product m s Hs Hm Hms) as [Hlo Hhi].
  destruct (pow2_split s (s - 33) ltac:(lia)) as [E _].
  replace (s - (s - 33)) with 33 in E by lia.
  assert (HK : 0 < 2 ^ (s - 33)) by (apply Z.pow_pos_nonneg; lia).
  split.
  - apply Z.div_le_lower_bound; [exact HS |].
    rewrite Z.mul_comm. apply round53_ge; lia.
  - assert (H : round53 (100000 * 2 ^ s + round53 (m * 900000))
                <= (1000000 * 2 ^ 33 - 1) * 2 ^ (s - 33)).
    { apply round53_le; [lia | lia |]. rewrite E. nia. }
    assert (round53 (100000 * 2 ^ s + round53 (m * 900000)) / 2 ^ s < 1000000);
      [| lia].
    apply Z.div_lt_upper_bound; [exact HS |]. rewrite E in *. nia.
Qed.

(** *** Decimal digits *)

Lemma is_digit_digit (d : Z) : 0 <= d <= 9 -> is_digit (digit d) = true.
Proof.
  intros H.
  assert (C : d = 0 \/ d = 1 \/ d = 2 \/ d = 3 \/ d = 4 \/
              d = 5 \/ d = 6 \/ d = 7 \/ d = 8 \/ d = 9) by lia.
  repeat (destruct C as [-> | C]; [reflexivity |]). subst d. reflexivity.
Qed.

Lemma digits_S (fuel : nat) (n : Z) (acc : string) :
  digits (S fuel) n acc
  = if n / 10 =? 0 then String (digit (n mod 10)) acc
    else digits fuel (n / 10) (String (digit (n mod 10)) acc).
Proof. reflexivity. Qed.

(** A number between 100000 and 999999 prints as its six decimal
    digits. *)
Lemma toString_six (n : Z) :
  100000 <= n <= 999999 ->
  toString n
  = String (digit (n / 100000 mod 10)) (String (digit (n / 10000 mod 10))
      (String (digit (n / 1000 mod 10)) (String (digit (n / 100 mod 10))
         (String (digit (n / 10 mod 10)) (String (digit (n mod 10)) ""))))).
Proof.
  intros H. unfold toString.
  destruct (Z.ltb_spec n 0) as [| _]; [lia |].
  assert (Hlog : 16 <= Z.log2 n).
  { change 16 with (Z.log2 (2 ^ 16)). apply Z.log2_le_mono. simpl. lia. }
  assert (Hfuel : exists f, S (Z.to_nat (Z.log2 n)) = (6 + f)%nat).
  { exists (Z.to_nat (Z.log2 n) - 5)%nat. lia. }
  destruct Hfuel as [f ->].
  assert (E1 : n / 10 / 10 = n / 100) by (rewrite Z.div_div by lia; reflexivity).
  assert (E2 : n / 100 / 10 = n / 1000) by (rewrite Z.div_div by lia; reflexivity).
  assert (E3 : n / 1000 / 10 = n / 10000) by (rewrite Z.div_div by lia; reflexivity).
  assert (E4 : n / 10000 / 10 = n / 100000) by (rewrite Z.div_div by lia; reflexivity).
  assert (E5 : n / 100000 / 10 = 0).
  { rewrite Z.div_div by lia. apply Z.div_small. lia. }
  assert (N1 : n / 10 <> 0) by (Z.div_mod_to_equations; lia).
  assert (N2 : n / 100 <> 0) by (Z.div_mod_to_equations; lia).
  assert (N3 : n / 1000 <> 0) by (Z.div_mod_to_equations; lia).
  assert (N4 : n / 10000 <> 0) by (Z.div_mod_to_equations; lia).
  assert (N5 : n / 100000 <> 0) by (Z.div_mod_to_equations; lia).
  change (6 + f)%nat with (S (S (S (S (S (S f)))))).
  rewrite digits_S. destruct (Z.eqb_spec (n / 10) 0); [contradiction |].
  rewrite digits_S, E1. destruct (Z.eqb_spec (n / 100) 0); [contradiction |].
  rewrite digits_S, E2. destruct (Z.eqb_spec (n / 1000) 0); [contradiction |].
  rewrite digits_S, E3. destruct (Z.eqb_spec (n / 10000) 0); [contradiction |].
  rewrite digits_S, E4. destruct (Z.eqb_spec (n / 100000) 0); [contradiction |].
  rewrite digits_S, E5. reflexivity.
Qed.

Lemma toString_six_digits (n : Z) :
  100000 <= n <= 999999 ->
  String.length (toString n) = 6%nat /\ numeric (toString n) = true.
Proof.
  intros H. rewrite (toString_six n H). split; [reflexivity |].
  cbn [numeric].
  rewrite !is_digit_digit
    by (match goal with |- _ <= ?a mod 10 <= _ =>
          pose proof (Z.mod_pos_bound a 10 ltac:(lia)) end; lia).
  reflexivity.
Qed.

(** ** Refresh *)

(** The two outcomes of a refresh request. *)
Lemma refresh_cases (env : Env) (w : World) (x : js token) (db : DB) :
  wf db ->
  (exists t c row,
      acceptable env w x db t c row /\
      refresh env w x db
      = (amend (sub c) (store_refreshToken (Some (snd (generateTokens env w (sub c))))) db,
         ok [("message", JString "Tokens refreshed");
             ("accessToken", JToken (fst (generateTokens env w (sub c))));
             ("refreshToken", JToken (snd (generateTokens env w (sub c))))]))
  \/
  ((forall t c row, ~ acceptable env w x db t c row) /\
   exists msg, refresh env w x db = (db, reply 401 [("error", JString msg)])).
Proof.
  intros Hwf. unfold refresh.
  destruct (falsy_token x) eqn:Hfalsy.
  { right. split; [| eexists; reflexivity].
    intros t c row (-> & Hv & _). simpl in Hfalsy.
    destruct t as [s | k c']; [discriminate Hv | discriminate Hfalsy]. }
  destruct x as [| | presented]; try discriminate Hfalsy.
  destruct (verify presented (jwtSecret env) (Date_now w)) as [payload |] eqn:Hv.
  2:{ right. split; [| eexists; reflexivity].
      intros t c row (E & Hv' & _). inversion E; subst t. congruence. }
  unfold findOneBy.
  destruct (find (by_id (sub payload)) db) as [row0 |] eqn:Hfind; simpl.
  2:{ right. split; [| eexists; reflexivity].
      intros t c row (E & Hv' & Hf & _). inversion E; subst t.
      rewrite Hv in Hv'. inversion Hv'; subst c. congruence. }
  destruct (same_token (hydrate (col_refreshToken row0)) presented) eqn:Hsame; simpl.
  2:{ right. split; [| eexists; reflexivity].
      intros t c row (E & Hv' & Hf & Hs). inversion E; subst t.
      rewrite Hv in Hv'. inversion Hv'; subst c.
      rewrite Hfind in Hf. inversion Hf; subst row.
      apply same_token_hydrate in Hs. congruence. }
  left. exists presented, payload, row0.
  apply same_token_hydrate in Hsame.
  destruct (find_by_id_In _ _ _ Hfind) as [Hin Hid].
  split; [repeat split; assumption |].
  change (uid (load row0)) with (col_id row0). simpl. rewrite !Hid.
  f_equal. apply map_ext_in. intros r Hr.
  unfold by_id. destruct (N.eqb_spec (col_id r) (sub payload)) as [E |]; [| reflexivity].
  assert (r = row0) by (apply (wf_unique db); auto; congruence). subst r.
  apply update_set_refreshToken.
Qed.


(** The token Alice's row holds after her login. *)
Example db_logged_in_token :
  map col_refreshToken db_logged_in = [Some alice_token].
Proof. reflexivity. Qed.

(** ** Login *)

Section Login.

Variable env : Env.
Variable isEmail : string -> bool.

(** A login request that passes validation. *)
Lemma validate_LoginDTO_ok (e p : string) :
  isEmail e = true -> p <> "" ->
  validate_LoginDTO isEmail (val e) (val p) = [].
Proof.
  intros He Hp. unfold validate_LoginDTO, violations, IsNotEmpty. simpl.
  rewrite He. destruct (String.eqb_spec p ""); [contradiction | reflexivity].
Qed.

(** The answer to a correct login on an unverified account. *)
Lemma login_requires_verification (w : World) (e p : string) (db : DB) (row : Row) :
  isEmail e = true -> p <> "" ->
  find (by_email e) db = Some row ->
  argon2_verify (col_password row) p = true ->
  col_isEmailVerified row = false ->
  login env isEmail w (val e) (val p) db
  = (db, reply 400
           [("error", JString "Email not verified");
            ("message", JString "Please verify your email before logging in.");
            ("requiresVerification", JBool true);
            ("email", JString e)]).
Proof.
  intros He Hp Hfind Hpw Hver.
  unfold login. rewrite (validate_LoginDTO_ok e p He Hp). simpl.
  unfold findOneBy. rewrite Hfind. simpl. rewrite Hpw, Hver. simpl.
  apply find_some in Hfind. destruct Hfind as [_ Hb].
  unfold by_email in Hb. apply String.eqb_eq in Hb. rewrite Hb. reflexivity.
Qed.

(** C9. A login whose email and password are correct but whose account
    is not verified is answered 400 with requiresVerification true and
    without tokens, and the table is unchanged; and whenever login
    answers 200 or hands out a token, the account it found is
    verified. *)
Theorem login_unverified (w : World) :
  (forall (e p : string) (db : DB) (row : Row),
     isEmail e = true -> p <> "" ->
     find (by_email e) db = Some row ->
     argon2_verify (col_password row) p = true ->
     col_isEmailVerified row = false ->
     login env isEmail w (val e) (val p) db
     = (db, reply 400
              [("error", JString "Email not verified");
               ("message", JString "Please verify your email before logging in.");
               ("requiresVerification", JBool true);
               ("email", JString e)]) /\
     field "accessToken" (snd (login env isEmail w (val e) (val p) db)) = None /\
     field "refreshToken" (snd (login env isEmail w (val e) (val p) db)) = None) /\
  (forall (e p : js string) (db : DB),
     status (snd (login env isEmail w e p db)) = 200 \/
     field "accessToken" (snd (login env isEmail w e p db)) <> None \/
     field "refreshToken" (snd (login env isEmail w e p db)) <> None ->
     exists row,
       find (by_email (text e)) db = Some row /\
       argon2_verify (col_password row) (text p) = true /\
       col_isEmailVerified row = true).
Proof.
  split.
  - intros e p db row He Hp Hfind Hpw Hver.
    rewrite (login_requires_verification w e p db row He Hp Hfind Hpw Hver).
    repeat split; reflexivity.
  - intros e p db. unfold login.
    destruct (nonempty (validate_LoginDTO isEmail e p)).
    { simpl. intros [H | [H | H]]; [discriminate | |]; exfalso; apply H; reflexivity. }
    unfold findOneBy.
    destruct (find (by_email (text e)) db) as [row |] eqn:Hfind; simpl.
    2:{ intros [H | [H | H]]; [discriminate | |]; exfalso; apply H; reflexivity. }
    destruct (argon2_verify (col_password row) (text p)) eqn:Hpw; simpl.
    2:{ intros [H | [H | H]]; [discriminate | |]; exfalso; apply H; reflexivity. }
    destruct (col_isEmailVerified row) eqn:Hver; simpl.
    2:{ intros [H | [H | H]]; [discriminate | |]; exfalso; apply H; reflexivity. }
    intros _. exists row. repeat split; assumption.
Qed.

(** What a login with an unknown email or a wrong password gets. *)
Lemma login_invalid_credentials (w : World) (e p : string) (db : DB) :
  isEmail e = true -> p <> "" ->
  (find (by_email e) db = None \/
   exists row, find (by_email e) db = Some row /\
               argon2_verify (col_password row) p = false) ->
  login env isEmail w (val e) (val p) db
  = (db, reply 400 [("error", JString "Invalid credentials")]).
Proof.
  intros He Hp H. unfold login.
  rewrite (validate_LoginDTO_ok e p He Hp). simpl. unfold findOneBy.
  destruct H as [Hnone | (row & Hfind & Hpw)].
  - rewrite Hnone. reflexivity.
  - rewrite Hfind. simpl. rewrite Hpw. reflexivity.
Qed.

End Login.

(** ** The bearer-token middleware *)

(** A request passes [authenticate] only with a bearer token that
    verifies and names an account; every other request is answered
    401. *)
Lemma authenticate_cases (env : Env) (w : World) (h : option header) (db : DB) :
  (exists t c row,
      h = Some (Bearer t) /\
      verify t (jwtSecret env) (Date_now w) = Some c /\
      find (by_id (sub c)) db = Some row /\
      authenticate env w h db = inr (load row))
  \/
  (exists msg, authenticate env w h db = inl (reply 401 [("error", JString msg)])).
Proof.
  unfold authenticate. destruct h as [[s | t] |].
  - right. destruct (String.prefix "Bearer " s); simpl; eexists; reflexivity.
  - destruct (verify t (jwtSecret env) (Date_now w)) as [c |] eqn:Hv.
    + unfold findOneBy.
      destruct (find (by_id (sub c)) db) as [row |] eqn:Hf; simpl.
      * left. exists t, c, row. auto.
      * right. eexists; reflexivity.
    + right. eexists; reflexivity.
  - right. eexists; reflexivity.
Qed.

(** ** Authentication failures *)

(** C7, as the claim has it, fails on login: an unknown email is
    answered 400. *)
Lemma login_unknown_email_not_401 :
  find (by_email "nobody@example.com") db_verified = None /\
  status (snd (login example_env example_isEmail (example_world 3000 true)
                 (val "nobody@example.com") (val "guess") db_verified)) = 400 /\
  status (snd (login example_env example_isEmail (example_world 3000 true)
                 (val "nobody@example.com") (val "guess") db_verified)) <> 401.
Proof.
  split; [| split]; vm_compute; [reflexivity | reflexivity | discriminate].
Qed.

(** C7, amended. A login of valid shape with an unknown email or a wrong
    password is answered 400 "Invalid credentials"; a request to a
    protected endpoint whose bearer token is missing, malformed, does
    not verify or names no account is answered 401; a refresh request
    whose token is missing, does not verify or is not the stored one is
    answered 401. *)
Theorem authentication_failures (env : Env) (isEmail : string -> bool)
  (w : World) (db : DB) :
  wf db ->
  (forall e p : string,
     isEmail e = true -> p <> "" ->
     (find (by_email e) db = None \/
      exists row, find (by_email e) db = Some row /\
                  argon2_verify (col_password row) p = false) ->
     login env isEmail w (val e) (val p) db
     = (db, reply 400 [("error", JString "Invalid credentials")])) /\
  (forall h : option header,
     (forall t c row,
        ~ (h = Some (Bearer t) /\
           verify t (jwtSecret env) (Date_now w) = Some c /\
           find (by_id (sub c)) db = Some row)) ->
     (exists r, authenticate env w h db = inl r /\ status r = 401) /\
     status (me env w h db) = 401) /\
  (forall x : js token,
     (forall t c row, ~ acceptable env w x db t c row) ->
     status (snd (refresh env w x db)) = 401 /\ fst (refresh env w x db) = db).
Proof.
  intros Hwf. split; [| split].
  - intros e p He Hp H. apply login_invalid_credentials; assumption.
  - intros h Hbad. unfold me.
    destruct (authenticate_cases env w h db)
      as [(t & c & row & Hh & Hv & Hf & _) | (msg & ->)].
    + exfalso. apply (Hbad t c row). auto.
    + split; [eexists; split; reflexivity | reflexivity].
  - intros x Hbad.
    destruct (refresh_cases env w x db Hwf)
      as [(t & c & row & Hacc & _) | (_ & msg & ->)].
    + exfalso. exact (Hbad t c row Hacc).
    + split; reflexivity.
Qed.

(** ** Forgotten passwords *)

(** While the mail transport accepts the message, the answer to a
    forgot-password request does not depend on the email. *)
Lemma forgot_password_neutral (env : Env) (w : World) (e e' : js string) (db : DB) :
  sendMail_ok w = true ->
  falsy_string e = false -> falsy_string e' = false ->
  snd (forgot_password env w e db) = snd (forgot_password env w e' db) /\
  snd (forgot_password env w e db)
  = ok [("message", JString "If that email is registered, a reset link has been sent.")].
Proof.
  intros Hmail He He'.
  assert (H : forall x, falsy_string x = false ->
            snd (forgot_password env w x db)
            = ok [("message",
                   JString "If that email is registered, a reset link has been sent.")]).
  { intros x Hx. unfold forgot_password. rewrite Hx. unfold findOneBy.
    destruct (find (by_email (text x)) db) as [row |]; simpl; [| reflexivity].
    rewrite Hmail. reflexivity. }
  rewrite (H e He), (H e' He'). split; reflexivity.
Qed.

(** C6. With the mail transport down, a forgot-password request for
    Alice's registered email is answered 500 by the error handler and
    one for an unknown email is answered 200 with the neutral message:
    the two responses differ. *)
Theorem forgot_password_mail_down :
  let w := example_world 9000 false in
  find (by_email "alice@example.com") db_verified <> None /\
  find (by_email "nobody@example.com") db_verified = None /\
  snd (forgot_password example_env w (val "alice@example.com") db_verified)
  = errorHandler /\
  snd (forgot_password example_env w (val "nobody@example.com") db_verified)
  = ok [("message", JString "If that email is registered, a reset link has been sent.")] /\
  status (snd (forgot_password example_env w (val "alice@example.com") db_verified))
  <> status (snd (forgot_password example_env w (val "nobody@example.com") db_verified)).
Proof.
  cbv zeta. repeat split; vm_compute; try reflexivity; discriminate.
Qed.

(** ** Saving what a handler read *)

(** Saving an entity read from [row] rewrites that row and no other. *)
Lemma save_loaded (db : DB) (row : Row) (u : User) (f : Row -> Row) :
  wf db -> In row db -> update row u = f row -> id u = val (col_id row) ->
  save u db = Some (amend (col_id row) f db, u).
Proof.
  intros Hwf Hin Hupd Hid. rewrite (save_keyed u (col_id row) db Hid).
  f_equal. f_equal. apply amend_ext. intros r' Hin' Hid'.
  assert (r' = row) by (apply (wf_unique db); auto). subst r'. exact Hupd.
Qed.

(** Looking a row up after the row of account [i] was rewritten, by a
    criterion the rewriting does not affect. *)
Lemma find_amend (crit : Row -> bool) (i : uuid) (f : Row -> Row) (db : DB) :
  (forall r, crit (f r) = crit r) ->
  find crit (amend i f db)
  = option_map (fun r => if by_id i r then f r else r) (find crit db).
Proof.
  intros Hf. unfold amend. induction db as [| r db IH]; simpl; [reflexivity |].
  assert (E : crit (if by_id i r then f r else r) = crit r).
  { destruct (by_id i r); [apply Hf | reflexivity]. }
  rewrite E. destruct (crit r); [reflexivity | exact IH].
Qed.

Lemma find_amend_self (crit : Row -> bool) (f : Row -> Row) (db : DB) (row : Row) :
  (forall r, crit (f r) = crit r) ->
  find crit db = Some row ->
  find crit (amend (col_id row) f db) = Some (f row).
Proof.
  intros Hf Hfind. rewrite find_amend by exact Hf. rewrite Hfind. simpl.
  unfold by_id. rewrite N.eqb_refl. reflexivity.
Qed.

(** ** One-time codes *)

Section Otp.

Variable isEmail : string -> bool.

(** The code is the decimal writing of a number between 100000 and
    999999: six characters, all digits. *)
Lemma generateOtp_six_digits (w : World) :
  unit_interval (Math_random w) ->
  exists n, 100000 <= n <= 999999 /\
            generateOtp w = toString n /\
            String.length (generateOtp w) = 6%nat /\
            numeric (generateOtp w) = true.
Proof.
  intros Hr. pose proof (otp_range (Math_random w) Hr) as Hn.
  exists (floor (fadd (of_int 100000) (fmul (Math_random w) (of_int 900000)))).
  split; [exact Hn |]. split; [reflexivity |].
  unfold generateOtp. apply toString_six_digits. exact Hn.
Qed.

(** A successful registration appends one row, which holds the code
    and its expiry. *)
Lemma register_stores_otp (w : World) (e p : js string) (db : DB) :
  status (snd (register isEmail w e p db)) = 201 ->
  exists row,
    fst (register isEmail w e p db) = db ++ [row] /\
    row = inserted (fresh_id db)
            (create (text e) (argon2_hash (text p) (argon2_salt w))
               (val (generateOtp w)) (val (Date_now w + 10 * 60 * 1000)) (val false)).
Proof.
  unfold register.
  destruct (nonempty (validate_RegisterDTO isEmail e p)); [discriminate |].
  destruct (findOneBy (by_email (text e)) db) as [u |] eqn:Hfind; [discriminate |].
  unfold save, create; cbn [id email].
  unfold findOneBy in Hfind.
  destruct (find (by_email (text e)) db) as [r |] eqn:Hf; [discriminate |].
  assert (Hex : existsb (by_email (text e)) db = false).
  { destruct (existsb (by_email (text e)) db) eqn:Hex; [| reflexivity].
    apply existsb_exists in Hex. destruct Hex as (r & Hin & Hb).
    pose proof (find_none _ _ Hf r Hin). congruence. }
  rewrite Hex. intros _. eexists. split; reflexivity.
Qed.



End Otp.

(** ** Sign-in with Google *)

Lemma hex_length (bs : list Byte.byte) :
  String.length (hex bs) = (2 * List.length bs)%nat.
Proof.
  induction bs as [| b bs IH]; [reflexivity |].
  cbn [hex String.length List.length]. rewrite IH. lia.
Qed.

Lemma randomBytes_length (w : World) (n : nat) : List.length (randomBytes w n) = n.
Proof. unfold randomBytes. rewrite length_map, length_seq. reflexivity. Qed.

(** The identifier handed to a new row is not in use. *)
Lemma wf_fresh (db : DB) (r : Row) : wf db -> In r db -> by_id (fresh_id db) r = false.
Proof.
  intros Hwf Hin. apply In_nth_error in Hin. destruct Hin as [n Hn].
  pose proof (wf_nth db n r Hwf Hn) as E.
  assert (n < List.length db)%nat by (apply nth_error_Some; congruence).
  unfold by_id, fresh_id. apply N.eqb_neq. lia.
Qed.

Lemma google_existing (env : Env) (w : World) (tok : js string) (e : string)
  (db : DB) (row : Row) :
  wf db -> falsy_string tok = false ->
  verifyIdToken w (text tok) = Payload (val e) -> e <> "" ->
  find (by_email e) db = Some row ->
  google env w tok db
  = (amend (col_id row)
       (store_refreshToken (Some (snd (generateTokens env w (col_id row))))) db,
     signed_in env w (col_id row) e).
Proof.
  intros Hwf Htok Hv He Hfind. unfold google. rewrite Htok, Hv.
  cbn [falsy_string text]. destruct (String.eqb_spec e ""); [contradiction |].
  unfold findOneBy. rewrite Hfind. cbn [option_map].
  pose proof (find_some _ _ Hfind) as [Hin Hb].
  unfold by_email in Hb. apply String.eqb_eq in Hb.
  change (uid (load row)) with (col_id row).
  unfold generateTokens at 1.
  rewrite (save_refreshToken db row _ Hwf Hin).
  unfold signed_in. cbn [email load uid id set_refreshToken write].
  rewrite Hb. reflexivity.
Qed.

Lemma google_new (env : Env) (w : World) (tok : js string) (e : string) (db : DB) :
  wf db -> falsy_string tok = false ->
  verifyIdToken w (text tok) = Payload (val e) -> e <> "" ->
  find (by_email e) db = None ->
  google env w tok db
  = (db ++ [provisioned w (fresh_id db) e (snd (generateTokens env w (fresh_id db)))],
     signed_in env w (fresh_id db) e).
Proof.
  intros Hwf Htok Hv He Hfind. unfold google. rewrite Htok, Hv.
  cbn [falsy_string text]. destruct (String.eqb_spec e ""); [contradiction |].
  unfold findOneBy. rewrite Hfind. cbn [option_map].
  assert (Hex : existsb (by_email e) db = false).
  { destruct (existsb (by_email e) db) eqn:Hex; [| reflexivity].
    apply existsb_exists in Hex. destruct Hex as (r & Hin & Hb).
    pose proof (find_none _ _ Hfind r Hin). congruence. }
  unfold save at 1. cbn [id email create]. rewrite Hex.
  unfold generateTokens at 1.
  cbn [uid id with_id set_refreshToken].
  unfold save. cbn [id set_refreshToken with_id].
  unfold signed_in. cbn [email fst snd generateTokens]. f_equal.
  rewrite map_app. f_equal.
  - rewrite <- (map_id db) at 2. apply map_ext_in. intros r Hin.
    rewrite (wf_fresh db r Hwf Hin). reflexivity.
  - cbn [map]. unfold by_id at 1. cbn [col_id inserted]. rewrite N.eqb_refl.
    reflexivity.
Qed.

(** C10. Google sign-in does not look at the email-verified flag: with
    a provider token that Google vouches for, it answers 200 with a new
    token pair and stores the new refresh token, whatever
    isEmailVerified holds and without changing it; an account it
    provisions has isEmailVerified false and, as password, the hash of
    the hex writing (32 characters) of 16 random bytes.  So an account
    that password login turns away as unverified is handed tokens here
    and stays unverified. *)
Theorem google_ignores_verification (env : Env) (isEmail : string -> bool)
  (w : World) (tok : js string) (e : string) (db : DB) :
  wf db -> falsy_string tok = false ->
  verifyIdToken w (text tok) = Payload (val e) -> e <> "" ->
  let result := google env w tok db in
  (forall row, find (by_email e) db = Some row ->
     let issued := generateTokens env w (col_id row) in
     status (snd result) = 200 /\
     field "accessToken" (snd result) = Some (JToken (fst issued)) /\
     field "refreshToken" (snd result) = Some (JToken (snd issued)) /\
     fst result = amend (col_id row) (store_refreshToken (Some (snd issued))) db /\
     find (by_email e) (fst result) = Some (store_refreshToken (Some (snd issued)) row)) /\
  (find (by_email e) db = None ->
     let issued := generateTokens env w (fresh_id db) in
     status (snd result) = 200 /\
     field "accessToken" (snd result) = Some (JToken (fst issued)) /\
     field "refreshToken" (snd result) = Some (JToken (snd issued)) /\
     fst result = db ++ [provisioned w (fresh_id db) e (snd issued)] /\
     col_isEmailVerified (provisioned w (fresh_id db) e (snd issued)) = false /\
     col_password (provisioned w (fresh_id db) e (snd issued))
     = argon2_hash (hex (randomBytes w 16)) (argon2_salt w) /\
     List.length (randomBytes w 16) = 16%nat /\
     String.length (hex (randomBytes w 16)) = 32%nat) /\
  (forall row p,
     find (by_email e) db = Some row ->
     col_isEmailVerified row = false ->
     isEmail e = true -> p <> "" ->
     argon2_verify (col_password row) p = true ->
     status (snd (login env isEmail w (val e) (val p) db)) = 400 /\
     field "refreshToken" (snd (login env isEmail w (val e) (val p) db)) = None /\
     status (snd result) = 200 /\
     field "refreshToken" (snd result)
     = Some (JToken (snd (generateTokens env w (col_id row)))) /\
     exists row',
       find (by_email e) (fst result) = Some row' /\
       col_isEmailVerified row' = false /\
       col_refreshToken row' = Some (snd (generateTokens env w (col_id row)))).
Proof.
  intros Hwf Htok Hv He result. subst result. split; [| split].
  - intros row Hfind issued. subst issued.
    rewrite (google_existing env w tok e db row Hwf Htok Hv He Hfind).
    cbn [fst snd]. repeat split.
    apply find_amend_self; [reflexivity | exact Hfind].
  - intros Hfind issued. subst issued.
    rewrite (google_new env w tok e db Hwf Htok Hv He Hfind).
    cbn [fst snd]. repeat split.
  - intros row p Hfind Hunv Hmail Hp Hpw.
    pose proof (login_requires_verification env isEmail w e p db row
                  Hmail Hp Hfind Hpw Hunv) as E.
    rewrite (google_existing env w tok e db row Hwf Htok Hv He Hfind).
    cbn [fst snd]. rewrite E. cbn [snd]. repeat split.
    eexists. split; [apply find_amend_self; [reflexivity | exact Hfind] |].
    split; [exact Hunv | reflexivity].
Qed.

(** ** What each request leaves alone *)

Lemma option_eqb_refl {A : Type} (eqb : A -> A -> bool) (o : option A) :
  (forall a, eqb a a = true) -> option_eqb eqb o o = true.
Proof. intros H. destruct o; simpl; auto. Qed.

Lemma agree_refl (c : column) (r : Row) : agree c r r = true.
Proof.
  destruct c; cbn [agree];
    auto using N.eqb_refl, String.eqb_refl, pwhash_eqb_refl, Z.eqb_refl,
               Bool.eqb_reflx, option_eqb_refl, token_eqb_refl.
Qed.

Lemma changed_incl (a b : Row) (cols : list column) :
  (forall c, In c cols \/ agree c a b = true) -> incl (changed a b) cols.
Proof.
  intros H c Hc. unfold changed in Hc. apply filter_In in Hc.
  destruct Hc as [_ Hc]. destruct (H c) as [Hin | Hag]; [exact Hin |].
  rewrite Hag in Hc. discriminate.
Qed.

Lemma changed_same (r : Row) (cols : list column) : incl (changed r r) cols.
Proof. apply changed_incl. intros c. right. apply agree_refl. Qed.

Lemma shape_same (cols : list column) (may_add : bool) (db : DB) :
  shape cols may_add db db.
Proof.
  exists 0%N, (fun r => r), []. rewrite app_nil_r.
  split; [symmetry; apply amend_id; reflexivity |].
  split; [reflexivity |]. split; [intros r; apply changed_same | left; reflexivity].
Qed.

Lemma shape_amend (cols : list column) (may_add : bool) (db : DB)
  (i : uuid) (f : Row -> Row) :
  (forall r, col_id (f r) = col_id r) ->
  (forall r c, In c cols \/ agree c r (f r) = true) ->
  shape cols may_add db (amend i f db).
Proof.
  intros Hid Hcols. exists i, f, []. rewrite app_nil_r.
  split; [reflexivity |]. split; [exact Hid |].
  split; [intros r; apply changed_incl; apply Hcols | left; reflexivity].
Qed.

Lemma shape_add (cols : list column) (db : DB) (row : Row) :
  col_id row = fresh_id db -> shape cols true db (db ++ [row]).
Proof.
  intros Hid. exists 0%N, (fun r => r), [row].
  split; [f_equal; symmetry; apply amend_id; reflexivity |].
  split; [reflexivity |]. split; [intros r; apply changed_same |].
  right. split; [reflexivity |]. exists row. split; [reflexivity | exact Hid].
Qed.

Lemma shape_wf (cols : list column) (may_add : bool) (db db' : DB) :
  wf db -> shape cols may_add db db' -> wf db'.
Proof.
  intros Hwf (i & f & extra & -> & Hid & _ & Hextra).
  pose proof (wf_amend i f db Hid Hwf) as Hwf'.
  destruct Hextra as [-> | (_ & row & -> & Hrow)].
  - rewrite app_nil_r. exact Hwf'.
  - apply wf_insert; [exact Hwf' |].
    rewrite Hrow. unfold fresh_id, amend. rewrite length_map. reflexivity.
Qed.

(** Columns that an assignment to the row does not name agree. *)
Ltac untouched :=
  let c := fresh "c" in
  intros ? c; destruct c;
  try (left; simpl; tauto);
  right; cbn [agree store_refreshToken store_otp store_isEmailVerified
              store_password store_reset
              col_id col_email col_password col_refreshToken
              col_resetPasswordToken col_resetPasswordExpires
              col_emailVerificationOtp col_emailVerificationExpires
              col_isEmailVerified];
  auto using N.eqb_refl, String.eqb_refl, pwhash_eqb_refl, Z.eqb_refl,
             Bool.eqb_reflx, option_eqb_refl, token_eqb_refl.

(** What the entity assignments of each handler store, on the row the
    entity was read from. *)
Lemma update_verified (r : Row) :
  update r (set_emailVerificationExpires undefined
              (set_emailVerificationOtp undefined
                 (set_isEmailVerified (val true) (load r))))
  = store_isEmailVerified true r.
Proof.
  destruct r; unfold update, store_isEmailVerified; simpl.
  rewrite !write_hydrate. reflexivity.
Qed.

Lemma update_logged_out (r : Row) :
  update r (set_refreshToken undefined (load r)) = r.
Proof.
  destruct r; unfold update; simpl. rewrite !write_hydrate. reflexivity.
Qed.

Lemma update_password_reset (r : Row) (h : pwhash) :
  update r (set_resetPasswordExpires undefined
              (set_resetPasswordToken undefined (set_password h (load r))))
  = store_password h r.
Proof.
  destruct r; unfold update, store_password; simpl.
  rewrite !write_hydrate. reflexivity.
Qed.

Lemma update_reset_requested (r : Row) (t : string) (x : millis) :
  update r (set_resetPasswordExpires (val x)
              (set_resetPasswordToken (val t) (load r)))
  = store_reset (Some t) (Some x) r.
Proof.
  destruct r; unfold update, store_reset; simpl.
  rewrite !write_hydrate. reflexivity.
Qed.

Lemma update_otp (r : Row) (o : string) (x : millis) :
  update r (set_emailVerificationExpires (val x)
              (set_emailVerificationOtp (val o) (load r)))
  = store_otp (Some o) (Some x) r.
Proof.
  destruct r; unfold update, store_otp; simpl.
  rewrite !write_hydrate. reflexivity.
Qed.

Section Results.

Variable env : Env.
Variable isEmail : string -> bool.

(** A login either leaves the table alone or stores the refresh token
    it issues on the account found. *)
Lemma login_result (w : World) (e p : js string) (db : DB) :
  wf db ->
  (status (snd (login env isEmail w e p db)) <> 200 /\
   fst (login env isEmail w e p db) = db)
  \/
  (exists row,
      find (by_email (text e)) db = Some row /\
      login env isEmail w e p db
      = (amend (col_id row)
           (store_refreshToken (Some (snd (generateTokens env w (col_id row))))) db,
         ok [("message", JString "Logged in");
             ("user", JObject [("id", JUuid (col_id row));
                               ("email", JString (col_email row))]);
             ("accessToken", JToken (fst (generateTokens env w (col_id row))));
             ("refreshToken", JToken (snd (generateTokens env w (col_id row))))])).
Proof.
  intros Hwf. unfold login.
  destruct (nonempty (validate_LoginDTO isEmail e p)).
  { left. split; [discriminate | reflexivity]. }
  unfold findOneBy.
  destruct (find (by_email (text e)) db) as [row |] eqn:Hfind; cbn [option_map].
  2:{ left. split; [discriminate | reflexivity]. }
  destruct (negb (argon2_verify (password (load row)) (text p))).
  { left. split; [discriminate | reflexivity]. }
  destruct (falsy_bool (isEmailVerified (load row))).
  { left. split; [discriminate | reflexivity]. }
  right. exists row. split; [reflexivity |].
  pose proof (find_some _ _ Hfind) as [Hin _].
  change (uid (load row)) with (col_id row).
  unfold generateTokens at 1.
  rewrite (save_refreshToken db row _ Hwf Hin). reflexivity.
Qed.

(** A successful verification sets the flag; the assignments of
    [undefined] to the code and its expiry are skipped by [save], and the
    row keeps both. *)
Lemma verify_otp_result (w : World) (e o : js string) (db : DB) :
  wf db ->
  (status (snd (verify_otp isEmail w e o db)) <> 200 /\
   fst (verify_otp isEmail w e o db) = db)
  \/
  (exists row,
      find (by_email (text e)) db = Some row /\
      col_emailVerificationOtp row = Some (text o) /\
      (exists x, col_emailVerificationExpires row = Some x /\ Date_now w <= x) /\
      verify_otp isEmail w e o db
      = (amend (col_id row) (store_isEmailVerified true) db,
         ok [("message", JString "Email verified successfully");
             ("verified", JBool true)])).
Proof.
  intros Hwf. unfold verify_otp.
  destruct (nonempty (validate_VerifyOtpDTO isEmail e o)).
  { left. split; [discriminate | reflexivity]. }
  unfold findOneBy.
  destruct (find (by_email (text e)) db) as [row |] eqn:Hfind; cbn [option_map].
  2:{ left. split; [discriminate | reflexivity]. }
  destruct (falsy_string (emailVerificationOtp (load row))
            || negb (same_string (emailVerificationOtp (load row)) (text o))
            || falsy_object (emailVerificationExpires (load row))
            || earlier (emailVerificationExpires (load row)) (Date_now w)) eqn:Hbad.
  { left. split; [discriminate | reflexivity]. }
  right. exists row. split; [reflexivity |].
  pose proof (find_some _ _ Hfind) as [Hin _].
  apply orb_false_iff in Hbad. destruct Hbad as [Hbad Hearly].
  apply orb_false_iff in Hbad. destruct Hbad as [Hbad Hobj].
  apply orb_false_iff in Hbad. destruct Hbad as [_ Hsame].
  apply negb_false_iff in Hsame.
  cbn [load emailVerificationOtp emailVerificationExpires] in Hsame, Hobj, Hearly.
  split.
  { destruct (col_emailVerificationOtp row) as [s |]; [| discriminate Hsame].
    simpl in Hsame. apply String.eqb_eq in Hsame. congruence. }
  split.
  { destruct (col_emailVerificationExpires row) as [x |]; [| discriminate Hobj].
    exists x. split; [reflexivity |]. simpl in Hearly.
    apply Z.ltb_ge in Hearly. exact Hearly. }
  rewrite (save_loaded db row _ (store_isEmailVerified true) Hwf Hin
             (update_verified row) eq_refl).
  reflexivity.
Qed.

(** Logout answers 200 and stores nothing: the assignment of
    [undefined] to [refreshToken] is skipped by [save]. *)
Lemma logout_result (w : World) (x : js token) (db : DB) :
  wf db ->
  logout env w x db = (db, ok [("message", JString "Logged out")]).
Proof.
  intros Hwf. unfold logout. f_equal.
  destruct (falsy_token x); [reflexivity |].
  destruct x as [| | presented]; try reflexivity.
  destruct (verify presented (jwtSecret env) (Date_now w)) as [c |]; [| reflexivity].
  unfold findOneBy.
  destruct (find (by_id (sub c)) db) as [row |] eqn:Hfind; [| reflexivity].
  cbn [option_map].
  pose proof (find_some _ _ Hfind) as [Hin _].
  rewrite (save_loaded db row _ (fun r => r) Hwf Hin (update_logged_out row) eq_refl).
  apply amend_id. reflexivity.
Qed.

(** A successful reset stores the new password hash; the assignments of
    [undefined] to the reset token and its expiry are skipped by [save],
    and the row keeps both. *)
Lemma reset_password_result (w : World) (tok pw : js string) (db : DB) :
  wf db ->
  (status (snd (reset_password w tok pw db)) <> 200 /\
   fst (reset_password w tok pw db) = db)
  \/
  (exists row,
      find (by_resetPasswordToken (text tok)) db = Some row /\
      (exists x, col_resetPasswordExpires row = Some x /\ Date_now w <= x) /\
      reset_password w tok pw db
      = (amend (col_id row)
           (store_password (argon2_hash (text pw) (argon2_salt w))) db,
         ok [("message", JString "Password has been reset")])).
Proof.
  intros Hwf. unfold reset_password.
  destruct (falsy_string tok || falsy_string pw).
  { left. split; [discriminate | reflexivity]. }
  unfold findOneBy.
  destruct (find (by_resetPasswordToken (text tok)) db) as [row |] eqn:Hfind;
    cbn [option_map].
  2:{ left. split; [discriminate | reflexivity]. }
  destruct (falsy_object (resetPasswordExpires (load row))
            || earlier (resetPasswordExpires (load row)) (Date_now w)) eqn:Hbad.
  { left. split; [discriminate | reflexivity]. }
  right. exists row. split; [reflexivity |].
  pose proof (find_some _ _ Hfind) as [Hin _].
  apply orb_false_iff in Hbad. destruct Hbad as [Hobj Hearly].
  cbn [load resetPasswordExpires] in Hobj, Hearly.
  split.
  { destruct (col_resetPasswordExpires row) as [x |]; [| discriminate Hobj].
    exists x. split; [reflexivity |]. simpl in Hearly.
    apply Z.ltb_ge in Hearly. exact Hearly. }
  rewrite (save_loaded db row _
             (store_password (argon2_hash (text pw) (argon2_salt w)))
             Hwf Hin (update_password_reset row _) eq_refl).
  reflexivity.
Qed.

End Results.

Lemma falsy_string_false (x : js string) :
  falsy_string x = false -> exists s, x = val s /\ s <> "".
Proof.
  destruct x as [| | s]; try discriminate. simpl. intros H.
  exists s. split; [reflexivity |]. intros ->. discriminate.
Qed.

(** Every request rewrites at most the row of one account, in the
    columns [touches] lists, and only registration and Google sign-in
    may append a row. *)
Lemma handle_shape (env : Env) (isEmail : string -> bool) (w : World)
  (rq : Request) (db : DB) :
  wf db ->
  shape (touches rq) (creates rq) db (fst (handle env isEmail w rq db)).
Proof.
  intros Hwf. destruct rq as [e p | e p | e o | e | x | x | tok | e | tok p | h];
    cbn [handle touches creates].
  - (* register *)
    unfold register.
    destruct (nonempty (validate_RegisterDTO isEmail e p)); [apply shape_same |].
    destruct (findOneBy (by_email (text e)) db); [apply shape_same |].
    unfold save, create; cbn [id email].
    destruct (existsb (by_email (text e)) db); [apply shape_same |].
    cbn [fst]. apply shape_add. reflexivity.
  - (* login *)
    destruct (login_result env isEmail w e p db Hwf) as [[_ ->] | (row & _ & ->)];
      [apply shape_same |].
    cbn [fst]. apply shape_amend; [reflexivity | untouched].
  - (* verify-otp *)
    destruct (verify_otp_result isEmail w e o db Hwf) as [[_ ->] | (row & _ & _ & _ & ->)];
      [apply shape_same |].
    cbn [fst]. apply shape_amend; [reflexivity | untouched].
  - (* resend-otp *)
    unfold resend_otp.
    destruct (nonempty (validate_ResendOtpDTO isEmail e)); [apply shape_same |].
    unfold findOneBy.
    destruct (find (by_email (text e)) db) as [row |] eqn:Hfind; cbn [option_map];
      [| apply shape_same].
    destruct (negb (falsy_bool (isEmailVerified (load row)))); [apply shape_same |].
    pose proof (find_some _ _ Hfind) as [Hin _].
    rewrite (save_loaded db row _ _ Hwf Hin (update_otp row _ _) eq_refl).
    assert (S : shape [c_emailVerificationOtp; c_emailVerificationExpires] false db
                  (amend (col_id row)
                     (store_otp (Some (generateOtp w))
                        (Some (Date_now w + 10 * 60 * 1000))) db)).
    { apply shape_amend; [reflexivity | untouched]. }
    destruct (sendMail_ok w); exact S.
  - (* refresh *)
    destruct (refresh_cases env w x db Hwf) as [(t & c & row & _ & ->) | (_ & msg & ->)];
      [| apply shape_same].
    cbn [fst]. apply shape_amend; [reflexivity | untouched].
  - (* logout *)
    rewrite (logout_result env w x db Hwf). apply shape_same.
  - (* google *)
    destruct (falsy_string tok) eqn:Htok.
    { unfold google. rewrite Htok. apply shape_same. }
    destruct (verifyIdToken w (text tok)) as [| | pe] eqn:Hv;
      try (unfold google; rewrite Htok, Hv; apply shape_same).
    destruct (falsy_string pe) eqn:Hpe.
    { unfold google. rewrite Htok, Hv, Hpe. apply shape_same. }
    destruct (falsy_string_false pe Hpe) as (e & -> & He).
    destruct (find (by_email e) db) as [row |] eqn:Hfind.
    + rewrite (google_existing env w tok e db row Hwf Htok Hv He Hfind).
      cbn [fst]. apply shape_amend; [reflexivity | untouched].
    + rewrite (google_new env w tok e db Hwf Htok Hv He Hfind).
      cbn [fst]. apply shape_add. reflexivity.
  - (* forgot-password *)
    unfold forgot_password.
    destruct (falsy_string e); [apply shape_same |].
    unfold findOneBy.
    destruct (find (by_email (text e)) db) as [row |] eqn:Hfind; cbn [option_map];
      [| apply shape_same].
    pose proof (find_some _ _ Hfind) as [Hin _].
    rewrite (save_loaded db row _ _ Hwf Hin (update_reset_requested row _ _) eq_refl).
    assert (S : shape [c_resetPasswordToken; c_resetPasswordExpires] false db
                  (amend (col_id row)
                     (store_reset (Some (hex (randomBytes w 32)))
                        (Some (Date_now w + RESET_PASSWORD_EXPIRES_IN env * 1000))) db)).
    { apply shape_amend; [reflexivity | untouched]. }
    destruct (sendMail_ok w); exact S.
  - (* reset-password *)
    destruct (reset_password_result w tok p db Hwf) as [[_ ->] | (row & _ & _ & ->)];
      [apply shape_same |].
    cbn [fst]. apply shape_amend; [reflexivity | untouched].
  - (* me *)
    apply shape_same.
Qed.

(** The table of a running server is well formed. *)
Lemma handle_wf (env : Env) (isEmail : string -> bool) (w : World)
  (rq : Request) (db : DB) :
  wf db -> wf (fst (handle env isEmail w rq db)).
Proof.
  intros Hwf. exact (shape_wf _ _ _ _ Hwf (handle_shape env isEmail w rq db Hwf)).
Qed.

Lemma step_wf (env : Env) (isEmail : string -> bool)
  (trace : list (World * Request)) (st : DB * list Response) :
  wf (fst st) -> wf (fst (fold_left (step env isEmail) trace st)).
Proof.
  revert st. induction trace as [| [w rq] trace IH]; intros st Hwf; [exact Hwf |].
  cbn [fold_left]. apply IH. unfold step. cbn [fst snd].
  pose proof (handle_wf env isEmail w rq (fst st) Hwf) as H.
  destruct (handle env isEmail w rq (fst st)). exact H.
Qed.

Lemma run_wf (env : Env) (isEmail : string -> bool) (trace : list (World * Request)) :
  wf (fst (run env isEmail trace)).
Proof. apply step_wf. exact wf_nil. Qed.

(** ** Fields changed by the round trip *)



(** ** Reuse of one-time codes, reset tokens and refresh tokens *)

(** A code that verified once verifies again while it has not expired. *)
Lemma verify_otp_replay (isEmail : string -> bool) (w w' : World)
  (e o : js string) (db : DB) (row : Row) (x : millis) :
  wf db ->
  status (snd (verify_otp isEmail w e o db)) = 200 ->
  find (by_email (text e)) db = Some row ->
  col_emailVerificationExpires row = Some x ->
  Date_now w' <= x ->
  status (snd (verify_otp isEmail w' e o (fst (verify_otp isEmail w e o db)))) = 200.
Proof.
  intros Hwf Hok Hfind Hexp Hclock.
  destruct (verify_otp_result isEmail w e o db Hwf)
    as [[Hno _] | (row' & Hfind' & Hotp & _ & E)]; [contradiction |].
  rewrite Hfind in Hfind'. inversion Hfind'; subst row'. clear Hfind'.
  rewrite E. cbn [fst].
  assert (Hfound : find (by_email (text e))
                     (amend (col_id row) (store_isEmailVerified true) db)
                   = Some (store_isEmailVerified true row)).
  { apply find_amend_self; [reflexivity | exact Hfind]. }
  unfold verify_otp in Hok |- *.
  destruct (nonempty (validate_VerifyOtpDTO isEmail e o)); [discriminate Hok |].
  unfold findOneBy in Hok |- *. rewrite Hfound. rewrite Hfind in Hok.
  cbn [option_map] in Hok |- *.
  cbn [load emailVerificationOtp emailVerificationExpires store_isEmailVerified
       col_emailVerificationOtp col_emailVerificationExpires] in Hok |- *.
  rewrite Hotp, Hexp in Hok |- *.
  cbn [hydrate falsy_string same_string falsy_object earlier] in Hok |- *.
  rewrite String.eqb_refl in Hok |- *.
  destruct (String.eqb (text o) ""); [discriminate Hok |].
  destruct (Z.ltb_spec x (Date_now w')) as [Hlt | _]; [lia |].
  cbn [negb orb].
  rewrite (save_keyed _ (col_id row)) by reflexivity. reflexivity.
Qed.

(** C4. Alice's code 550000 is accepted at clock 2000 and accepted
    again at clock 3000, the row still holding it; her reset token is
    accepted at clock 7000 and again at clock 8000, where it sets yet
    another password.  Past expiry both are turned away. *)
Theorem otp_and_reset_token_accepted_twice :
  status (snd (verify_otp example_isEmail (example_world 2000 true)
                 (val "alice@example.com") (val "550000") db_registered)) = 200 /\
  map col_emailVerificationOtp db_verified = [Some "550000"] /\
  status (snd (verify_otp example_isEmail (example_world 3000 true)
                 (val "alice@example.com") (val "550000") db_verified)) = 200 /\
  status (snd (verify_otp example_isEmail (example_world 601001 true)
                 (val "alice@example.com") (val "550000") db_verified)) = 400 /\
  status (snd (reset_password (example_world 7000 true)
                 (val alice_reset_token) (val "first new password") db_forgot)) = 200 /\
  map col_resetPasswordToken db_reset = [Some alice_reset_token] /\
  status (snd (reset_password (example_world 8000 true)
                 (val alice_reset_token) (val "second new password") db_reset)) = 200 /\
  map (fun r => plain (col_password r))
    (fst (reset_password (example_world 8000 true)
            (val alice_reset_token) (val "second new password") db_reset))
  = ["second new password"] /\
  status (snd (reset_password (example_world 3606001 true)
                 (val alice_reset_token) (val "third new password") db_reset)) = 400.
Proof. repeat split; vm_compute; reflexivity. Qed.

(** C3. Alice logs out at clock 6000 with the refresh token that login
    issued: the answer is 200, the row still holds the token, and a
    refresh with it at clock 7000 succeeds. *)
Theorem logout_keeps_refreshToken :
  let after := logout example_env (example_world 6000 true) (val alice_token)
                 db_logged_in in
  map col_refreshToken db_logged_in = [Some alice_token] /\
  status (snd after) = 200 /\
  map col_refreshToken (fst after) = [Some alice_token] /\
  status (snd (refresh example_env (example_world 7000 true) (val alice_token)
                 (fst after))) = 200.
Proof. cbv zeta. repeat split; vm_compute; reflexivity. Qed.

(** C2. Alice's token was issued at clock 5000.  A refresh at clock
    5400 succeeds and issues a refresh token equal to the one
    presented, both carrying the second 5; presenting the old token
    again at clock 5800 succeeds once more. *)
Theorem refresh_reuse_same_second :
  let first := refresh example_env (example_world 5400 true) (val alice_token)
                 db_logged_in in
  status (snd first) = 200 /\
  field "refreshToken" (snd first) = Some (JToken alice_token) /\
  map col_refreshToken (fst first) = [Some alice_token] /\
  status (snd (refresh example_env (example_world 5800 true) (val alice_token)
                 (fst first))) = 200.
Proof. cbv zeta. repeat split; vm_compute; reflexivity. Qed.

(** ** Stored and issued refresh tokens *)

Lemma stored_amend (db : DB) (i j : uuid) (f : Row -> Row) :
  (forall r, col_id (f r) = col_id r) ->
  stored (amend j f db) i
  = match find (by_id i) db with
    | Some r => col_refreshToken (if by_id j r then f r else r)
    | None => None
    end.
Proof.
  intros Hf. unfold stored. rewrite (find_by_id_amend j i f db Hf).
  destruct (find (by_id i) db); reflexivity.
Qed.

(** Rewriting columns other than [refreshToken] stores no token. *)
Lemma stored_amend_other (db : DB) (i j : uuid) (f : Row -> Row) :
  (forall r, col_id (f r) = col_id r) ->
  (forall r, col_refreshToken (f r) = col_refreshToken r) ->
  stored (amend j f db) i = stored db i.
Proof.
  intros Hid Hf. rewrite stored_amend by exact Hid. unfold stored.
  destruct (find (by_id i) db) as [r |]; [| reflexivity].
  destruct (by_id j r); [apply Hf | reflexivity].
Qed.

Lemma stored_amend_token (db : DB) (i j : uuid) (v : option token) (row : Row) :
  find (by_id j) db = Some row ->
  stored (amend j (store_refreshToken v) db) i
  = if N.eqb i j then v else stored db i.
Proof.
  intros Hfind. rewrite stored_amend by reflexivity. unfold stored.
  destruct (N.eqb_spec i j) as [-> | Hne].
  - rewrite Hfind. destruct (find_by_id_In _ _ _ Hfind) as [_ Hid].
    unfold by_id. rewrite Hid, N.eqb_refl. reflexivity.
  - destruct (find (by_id i) db) as [r |] eqn:Hf; [| reflexivity].
    destruct (find_by_id_In _ _ _ Hf) as [_ Hid].
    unfold by_id. rewrite Hid.
    destruct (N.eqb_spec i j); [contradiction | reflexivity].
Qed.

Lemma find_fresh (db : DB) : wf db -> find (by_id (fresh_id db)) db = None.
Proof.
  intros Hwf. destruct (find (by_id (fresh_id db)) db) as [r |] eqn:Hf; [| reflexivity].
  apply find_some in Hf. destruct Hf as [Hin Hb].
  rewrite (wf_fresh db r Hwf Hin) in Hb. discriminate.
Qed.

Lemma find_append {A : Type} (p : A -> bool) (l l' : list A) :
  find p (l ++ l') = match find p l with
                     | Some x => Some x
                     | None => find p l'
                     end.
Proof.
  induction l as [| a l IH]; [reflexivity |].
  cbn [app find]. destruct (p a); [reflexivity | exact IH].
Qed.

Lemma stored_insert (db : DB) (row : Row) (i : uuid) :
  wf db -> col_id row = fresh_id db ->
  stored (db ++ [row]) i
  = if N.eqb i (fresh_id db) then col_refreshToken row else stored db i.
Proof.
  intros Hwf Hid. unfold stored. rewrite find_append.
  destruct (N.eqb_spec i (fresh_id db)) as [-> | Hne].
  - rewrite (find_fresh db Hwf). cbn [find]. unfold by_id at 1.
    rewrite Hid, N.eqb_refl. reflexivity.
  - destruct (find (by_id i) db) as [r |]; [reflexivity |].
    cbn [find]. unfold by_id. rewrite Hid.
    destruct (N.eqb_spec (fresh_id db) i); [congruence | reflexivity].
Qed.

Lemma token_effect_none (env : Env) (w : World) (db : DB) (r : Response) :
  field "refreshToken" r = None -> token_effect env w db (db, r).
Proof. intros H. left. split; [exact H | reflexivity]. Qed.

Lemma token_effect_other (env : Env) (w : World) (db : DB) (r : Response)
  (j : uuid) (f : Row -> Row) :
  field "refreshToken" r = None ->
  (forall x, col_id (f x) = col_id x) ->
  (forall x, col_refreshToken (f x) = col_refreshToken x) ->
  token_effect env w db (amend j f db, r).
Proof.
  intros H Hid Hf. left. split; [exact H |].
  intros i. apply stored_amend_other; assumption.
Qed.

Lemma token_effect_issue (env : Env) (w : World) (db : DB) (r : Response)
  (row : Row) :
  In row db -> wf db ->
  field "refreshToken" r
  = Some (JToken (snd (generateTokens env w (col_id row)))) ->
  token_effect env w db
    (amend (col_id row)
       (store_refreshToken (Some (snd (generateTokens env w (col_id row))))) db, r).
Proof.
  intros Hin Hwf H. right. exists (col_id row). split; [exact H |].
  intros i. cbn [fst]. apply (stored_amend_token db i (col_id row) _ row).
  destruct (find (by_id (col_id row)) db) as [r' |] eqn:Hf.
  - apply find_by_id_In in Hf. destruct Hf as [Hin' Hid].
    f_equal. apply (wf_unique db); auto.
  - exfalso. pose proof (find_none _ _ Hf row Hin) as Hb.
    unfold by_id in Hb. rewrite N.eqb_refl in Hb. discriminate.
Qed.

(** The handlers that never answer with a refresh token. *)
Ltac no_token :=
  repeat match goal with
         | |- context [match ?x with _ => _ end] => destruct x
         end;
  reflexivity.

Lemma verify_otp_no_token (isEmail : string -> bool) (w : World)
  (e o : js string) (db : DB) :
  field "refreshToken" (snd (verify_otp isEmail w e o db)) = None.
Proof. unfold verify_otp. no_token. Qed.

Lemma reset_password_no_token (w : World) (t p : js string) (db : DB) :
  field "refreshToken" (snd (reset_password w t p db)) = None.
Proof. unfold reset_password. no_token. Qed.

Lemma login_failure_no_token (env : Env) (isEmail : string -> bool) (w : World)
  (e p : js string) (db : DB) :
  status (snd (login env isEmail w e p db)) <> 200 ->
  field "refreshToken" (snd (login env isEmail w e p db)) = None.
Proof.
  unfold login.
  repeat match goal with
         | |- context [match ?x with _ => _ end] => destruct x
         end;
  cbn [snd]; intros H; try reflexivity; exfalso; apply H; reflexivity.
Qed.

Lemma me_no_token (env : Env) (w : World) (h : option header) (db : DB) :
  field "refreshToken" (me env w h db) = None.
Proof.
  unfold me.
  destruct (authenticate_cases env w h db)
    as [(t & c & row & _ & _ & _ & ->) | (msg & ->)]; reflexivity.
Qed.

Lemma handle_token_effect (env : Env) (isEmail : string -> bool) (w : World)
  (rq : Request) (db : DB) :
  wf db -> token_effect env w db (handle env isEmail w rq db).
Proof.
  intros Hwf. destruct rq as [e p | e p | e o | e | x | x | tok | e | tok p | h];
    cbn [handle].
  - (* register *)
    unfold register.
    destruct (nonempty (validate_RegisterDTO isEmail e p));
      [apply token_effect_none; reflexivity |].
    destruct (findOneBy (by_email (text e)) db);
      [apply token_effect_none; reflexivity |].
    unfold save, create; cbn [id email].
    destruct (existsb (by_email (text e)) db);
      [apply token_effect_none; reflexivity |].
    left. split; [reflexivity |]. intros i. cbn [fst].
    rewrite stored_insert by (auto; reflexivity).
    destruct (N.eqb_spec i (fresh_id db)) as [-> | _]; [| reflexivity].
    unfold stored. rewrite (find_fresh db Hwf). reflexivity.
  - (* login *)
    destruct (login_result env isEmail w e p db Hwf) as [[Hno E] | (row & Hfind & E)].
    + pose proof (login_failure_no_token env isEmail w e p db Hno) as Hnone.
      destruct (login env isEmail w e p db) as [db' r]. cbn [fst snd] in *.
      subst db'. apply token_effect_none. exact Hnone.
    + rewrite E. apply token_effect_issue; [| exact Hwf | reflexivity].
      apply find_some in Hfind. tauto.
  - (* verify-otp *)
    pose proof (verify_otp_no_token isEmail w e o db) as Hnone.
    destruct (verify_otp_result isEmail w e o db Hwf)
      as [[_ E] | (row & _ & _ & _ & E)].
    + destruct (verify_otp isEmail w e o db) as [db' r]. cbn [fst snd] in *.
      subst db'. apply token_effect_none. exact Hnone.
    + rewrite E in Hnone |- *. apply token_effect_other; [exact Hnone | |]; reflexivity.
  - (* resend-otp *)
    unfold resend_otp.
    destruct (nonempty (validate_ResendOtpDTO isEmail e));
      [apply token_effect_none; reflexivity |].
    unfold findOneBy.
    destruct (find (by_email (text e)) db) as [row |] eqn:Hfind; cbn [option_map];
      [| apply token_effect_none; reflexivity].
    destruct (negb (falsy_bool (isEmailVerified (load row))));
      [apply token_effect_none; reflexivity |].
    pose proof (find_some _ _ Hfind) as [Hin _].
    rewrite (save_loaded db row _ _ Hwf Hin (update_otp row _ _) eq_refl).
    destruct (sendMail_ok w); apply token_effect_other; reflexivity.
  - (* refresh *)
    destruct (refresh_cases env w x db Hwf)
      as [(t & c & row & (_ & _ & Hfind & _) & ->) | (_ & msg & ->)];
      [| apply token_effect_none; reflexivity].
    destruct (find_by_id_In _ _ _ Hfind) as [Hin <-].
    apply token_effect_issue; [exact Hin | exact Hwf | reflexivity].
  - (* logout *)
    rewrite (logout_result env w x db Hwf). apply token_effect_none. reflexivity.
  - (* google *)
    destruct (falsy_string tok) eqn:Htok.
    { unfold google. rewrite Htok. apply token_effect_none. reflexivity. }
    destruct (verifyIdToken w (text tok)) as [| | pe] eqn:Hv;
      try (unfold google; rewrite Htok, Hv; apply token_effect_none; reflexivity).
    destruct (falsy_string pe) eqn:Hpe.
    { unfold google. rewrite Htok, Hv, Hpe. apply token_effect_none. reflexivity. }
    destruct (falsy_string_false pe Hpe) as (e & -> & He).
    destruct (find (by_email e) db) as [row |] eqn:Hfind.
    + rewrite (google_existing env w tok e db row Hwf Htok Hv He Hfind).
      apply token_effect_issue; [| exact Hwf | reflexivity].
      apply find_some in Hfind. tauto.
    + rewrite (google_new env w tok e db Hwf Htok Hv He Hfind).
      right. exists (fresh_id db). split; [reflexivity |].
      intros i. cbn [fst]. rewrite stored_insert by (auto; reflexivity).
      reflexivity.
  - (* forgot-password *)
    unfold forgot_password.
    destruct (falsy_string e); [apply token_effect_none; reflexivity |].
    unfold findOneBy.
    destruct (find (by_email (text e)) db) as [row |] eqn:Hfind; cbn [option_map];
      [| apply token_effect_none; reflexivity].
    pose proof (find_some _ _ Hfind) as [Hin _].
    rewrite (save_loaded db row _ _ Hwf Hin (update_reset_requested row _ _) eq_refl).
    destruct (sendMail_ok w); apply token_effect_other; reflexivity.
  - (* reset-password *)
    pose proof (reset_password_no_token w tok p db) as Hnone.
    destruct (reset_password_result w tok p db Hwf) as [[_ E] | (row & _ & _ & E)].
    + destruct (reset_password w tok p db) as [db' r]. cbn [fst snd] in *.
      subst db'. apply token_effect_none. exact Hnone.
    + rewrite E in Hnone |- *. apply token_effect_other; [exact Hnone | |]; reflexivity.
  - (* me *)
    apply token_effect_none. apply me_no_token.
Qed.

Section Sessions.

Variable env : Env.
Variable isEmail : string -> bool.

Lemma latest_issued_step (w : World) (rq : Request) (db : DB) (rs : list Response) :
  wf db ->
  (forall i t, stored db i = Some t -> latest_issued i rs = Some t) ->
  forall i t,
    stored (fst (handle env isEmail w rq db)) i = Some t ->
    latest_issued i (snd (handle env isEmail w rq db) :: rs) = Some t.
Proof.
  intros Hwf Hinv i t.
  destruct (handle_token_effect env isEmail w rq db Hwf)
    as [[Hnone Hsame] | (j & Hfield & Hstored)].
  - rewrite Hsame. intros H. cbn [latest_issued]. unfold issued_to.
    rewrite Hnone. apply Hinv. exact H.
  - rewrite Hstored. cbn [latest_issued]. unfold issued_to. rewrite Hfield.
    cbn [generateTokens snd sign sub]. rewrite (N.eqb_sym j i).
    destruct (N.eqb i j); [intros H; exact H | apply Hinv].
Qed.

(** On a running server, the refresh token stored on an account, if
    present, is the one most recently issued for that account. *)
Lemma stored_is_latest_issued (trace : list (World * Request)) (i : uuid) (t : token) :
  stored (fst (run env isEmail trace)) i = Some t ->
  latest_issued i (snd (run env isEmail trace)) = Some t.
Proof.
  unfold run.
  assert (G : forall st,
             wf (fst st) ->
             (forall i t, stored (fst st) i = Some t ->
                          latest_issued i (snd st) = Some t) ->
             forall i t,
               stored (fst (fold_left (step env isEmail) trace st)) i = Some t ->
               latest_issued i (snd (fold_left (step env isEmail) trace st)) = Some t).
  { induction trace as [| [w rq] trace IH]; intros st Hwf Hinv; [exact Hinv |].
    cbn [fold_left]. apply IH.
    - unfold step. cbn [fst snd].
      pose proof (handle_wf env isEmail w rq (fst st) Hwf) as H.
      destruct (handle env isEmail w rq (fst st)). exact H.
    - unfold step. cbn [fst snd].
      pose proof (latest_issued_step w rq (fst st) (snd st) Hwf Hinv) as H.
      destruct (handle env isEmail w rq (fst st)). exact H. }
  apply G; [exact wf_nil |]. intros j t' H. discriminate H.
Qed.

(** The token an account holds after a request is the one it held or
    one signed during that request. *)
Lemma stored_after (w : World) (rq : Request) (db : DB) (i : uuid) (t : token) :
  wf db ->
  stored (fst (handle env isEmail w rq db)) i = Some t ->
  stored db i = Some t \/
  exists x, t = Signed (jwtSecret env) {| sub := i; exp := x; iat := Date_now w / 1000 |}.
Proof.
  intros Hwf.
  destruct (handle_token_effect env isEmail w rq db Hwf)
    as [[_ Hsame] | (j & _ & Hstored)].
  - rewrite Hsame. auto.
  - rewrite Hstored. destruct (N.eqb_spec i j) as [-> | _]; [| auto].
    intros H. inversion H. right. eexists. reflexivity.
Qed.

(** Once a refresh has replaced a token in a later clock second than
    the one the token was issued in, no request that follows, the clock
    not running backwards, brings the token back: every refresh that
    presents it is answered 401. *)
Lemma rotated_token_stays_rejected (db : DB) (w : World) (x : js token)
  (t : token) (c : claims) (row : Row) (trace : list (World * Request))
  (w' : World) :
  wf db ->
  acceptable env w x db t c row ->
  iat c < Date_now w / 1000 ->
  Forall (fun e => Date_now w <= Date_now (fst e)) trace ->
  let db1 := fst (refresh env w x db) in
  let db2 := fst (fold_left (step env isEmail) trace (db1, [])) in
  status (snd (refresh env w' (val t) db2)) = 401 /\
  fst (refresh env w' (val t) db2) = db2.
Proof.
  intros Hwf Hacc Hlater Hclock db1 db2.
  assert (Ht : exists k, t = Signed k c).
  { destruct Hacc as (_ & Hv & _). destruct t as [s | k c']; [discriminate Hv |].
    simpl in Hv. destruct (_ && _); [| discriminate Hv].
    inversion Hv. eexists. reflexivity. }
  destruct Ht as [k ->].
  assert (H1 : wf db1 /\ stored db1 (sub c) <> Some (Signed k c)).
  { subst db1.
    destruct (refresh_cases env w x db Hwf)
      as [(t' & c' & row' & Hacc' & ->) | (Hnone & _)].
    2:{ exfalso. exact (Hnone _ _ _ Hacc). }
    destruct Hacc as (E & Hv & Hf & Hs), Hacc' as (E' & Hv' & Hf' & Hs').
    rewrite E in E'. inversion E'; subst t'.
    rewrite Hv in Hv'. inversion Hv'; subst c'. cbn [fst]. split.
    - apply wf_amend; [reflexivity | exact Hwf].
    - rewrite (stored_amend_token db (sub c) (sub c) _ row Hf), N.eqb_refl.
      cbn [generateTokens snd sign]. intros H. inversion H as [[Hk Hc]].
      rewrite <- Hc in Hlater. cbn [iat] in Hlater. lia. }
  assert (H2 : wf db2 /\ stored db2 (sub c) <> Some (Signed k c)).
  { subst db2. clearbody db1. clear Hacc Hwf.
    set (st := (db1, @nil Response)).
    assert (Hst : wf (fst st) /\ stored (fst st) (sub c) <> Some (Signed k c))
      by exact H1.
    clearbody st. clear H1. revert st Hst.
    induction trace as [| [w1 rq] trace IH]; intros st Hst; [exact Hst |].
    inversion Hclock as [| ? ? Hw1 Hrest]; subst. cbn [fst] in Hw1.
    cbn [fold_left]. apply (IH Hrest).
    destruct Hst as [Hwf Hst]. unfold step. cbn [fst snd].
    pose proof (handle_wf env isEmail w1 rq (fst st) Hwf) as Hwf'.
    pose proof (stored_after w1 rq (fst st) (sub c) (Signed k c) Hwf) as Hafter.
    destruct (handle env isEmail w1 rq (fst st)) as [db' r]. cbn [fst] in *.
    split; [exact Hwf' |]. intros H.
    destruct (Hafter H) as [Hold | (y & Hnew)]; [exact (Hst Hold) |].
    inversion Hnew as [[Hk Hc]].
    assert (Date_now w / 1000 <= Date_now w1 / 1000)
      by (apply Z.div_le_mono; lia).
    rewrite Hc in Hlater. cbn [iat] in Hlater. lia. }
  destruct H2 as [Hwf2 Hstored2].
  destruct (refresh_cases env w' (val (Signed k c)) db2 Hwf2)
    as [(t' & c' & row' & (E & Hv & Hf & Hs) & _) | (_ & msg & ->)].
  - exfalso. inversion E; subst t'.
    simpl in Hv. destruct (_ && _); [| discriminate Hv]. inversion Hv; subst c'.
    apply Hstored2. unfold stored. rewrite Hf. exact Hs.
  - split; reflexivity.
Qed.

End Sessions.

(** ** The theorems at work on Alice's account *)

Lemma example_random_unit_interval (clock : millis) (mail : bool) :
  unit_interval (Math_random (example_world clock mail)).
Proof. unfold unit_interval. cbn [Math_random example_world numer scale]. lia. Defined.


(** A refresh without a token, on Alice's table, is answered 401. *)
Lemma authentication_failures_witness :
  wf db_logged_in /\
  status (snd (refresh example_env (example_world 6000 true) undefined
                 db_logged_in)) = 401.
Proof.
  assert (Hwf : wf db_logged_in) by reflexivity.
  split; [exact Hwf |].
  destruct (authentication_failures example_env example_isEmail
              (example_world 6000 true) db_logged_in Hwf) as (_ & _ & H).
  apply H. intros t c row (E & _). discriminate E.
Defined.


(** Before she verifies her email, Alice's correct login is answered
    400. *)
Lemma login_unverified_witness :
  status (snd (login example_env example_isEmail (example_world 1500 true)
                 (val "alice@example.com") (val "correct horse") db_registered))
  = 400.
Proof.
  destruct (login_unverified example_env example_isEmail (example_world 1500 true))
    as [H _].
  destruct (H "alice@example.com" "correct horse" db_registered
              {| col_id := 0%N; col_email := "alice@example.com";
                 col_password := {| salt := 1; plain := "correct horse" |};
                 col_refreshToken := None;
                 col_resetPasswordToken := None;
                 col_resetPasswordExpires := None;
                 col_emailVerificationOtp := Some "550000";
                 col_emailVerificationExpires := Some 601000;
                 col_isEmailVerified := false |}
              eq_refl ltac:(discriminate) eq_refl eq_refl eq_refl) as [E _].
  rewrite E. reflexivity.
Defined.

(** Before she verifies her email, Alice signs in with Google and is
    handed tokens. *)
Lemma google_ignores_verification_witness :
  wf db_registered /\
  map col_isEmailVerified db_registered = [false] /\
  status (snd (google example_env (example_world 1500 true)
                 (val "google-id-token") db_registered)) = 200.
Proof.
  assert (Hwf : wf db_registered) by reflexivity.
  split; [exact Hwf |]. split; [reflexivity |].
  pose proof (google_ignores_verification example_env example_isEmail
                (example_world 1500 true) (val "google-id-token")
                "alice@example.com" db_registered
                Hwf eq_refl eq_refl ltac:(discriminate)) as H.
  cbv zeta in H. destruct H as [H _].
  destruct (H _ eq_refl) as [E _]. exact E.
Defined.


(** * Further properties of the handlers *)

(** ** Client errors *)

Lemma register_error_keeps_table (isEmail : string -> bool) (w : World)
  (e p : js string) (db : DB) :
  status (snd (register isEmail w e p db)) <> 201 ->
  fst (register isEmail w e p db) = db.
Proof.
  unfold register.
  destruct (nonempty (validate_RegisterDTO isEmail e p)); [reflexivity |].
  destruct (findOneBy (by_email (text e)) db); [reflexivity |].
  destruct (save _ db) as [[db' u] |]; [| reflexivity].
  cbn [fst snd status reply]. intros H. exfalso. apply H. reflexivity.
Qed.

(** X1. A request answered with a client error (a status from 400 to
    499) has changed nothing in the table. *)
Theorem client_error_keeps_table (env : Env) (isEmail : string -> bool)
  (w : World) (rq : Request) (db : DB) :
  wf db ->
  400 <= status (snd (handle env isEmail w rq db)) < 500 ->
  fst (handle env isEmail w rq db) = db.
Proof.
  intros Hwf. destruct rq as [e p | e p | e o | e | x | x | tok | e | tok p | h];
    cbn [handle].
  - intros H. apply register_error_keeps_table. lia.
  - destruct (login_result env isEmail w e p db Hwf) as [[_ E] | (row & _ & E)];
      [intros _; exact E |].
    rewrite E. cbn [snd status ok reply]. lia.
  - destruct (verify_otp_result isEmail w e o db Hwf)
      as [[_ E] | (row & _ & _ & _ & E)]; [intros _; exact E |].
    rewrite E. cbn [snd status ok reply]. lia.
  - unfold resend_otp.
    destruct (nonempty (validate_ResendOtpDTO isEmail e)); [reflexivity |].
    destruct (findOneBy (by_email (text e)) db) as [u |]; [| reflexivity].
    destruct (negb (falsy_bool (isEmailVerified u))); [reflexivity |].
    destruct (save _ db) as [[db' u'] |]; [| reflexivity].
    destruct (sendMail_ok w); cbn [snd status ok reply]; lia.
  - destruct (refresh_cases env w x db Hwf)
      as [(t & c & row & _ & E) | (_ & msg & E)]; rewrite E.
    + cbn [snd status ok reply]. lia.
    + reflexivity.
  - rewrite (logout_result env w x db Hwf). reflexivity.
  - destruct (falsy_string tok) eqn:Htok.
    { unfold google. rewrite Htok. reflexivity. }
    destruct (verifyIdToken w (text tok)) as [| | pe] eqn:Hv;
      try (unfold google; rewrite Htok, Hv; reflexivity).
    destruct (falsy_string pe) eqn:Hpe.
    { unfold google. rewrite Htok, Hv, Hpe. reflexivity. }
    destruct (falsy_string_false pe Hpe) as (e & -> & He).
    destruct (find (by_email e) db) as [row |] eqn:Hfind.
    + rewrite (google_existing env w tok e db row Hwf Htok Hv He Hfind).
      cbn [snd status signed_in ok reply]. lia.
    + rewrite (google_new env w tok e db Hwf Htok Hv He Hfind).
      cbn [snd status signed_in ok reply]. lia.
  - unfold forgot_password.
    destruct (falsy_string e); [reflexivity |].
    destruct (findOneBy (by_email (text e)) db) as [u |]; [| reflexivity].
    destruct (save _ db) as [[db' u'] |]; [| reflexivity].
    destruct (sendMail_ok w); cbn [snd status ok reply errorHandler]; lia.
  - destruct (reset_password_result w tok p db Hwf)
      as [[_ E] | (row & _ & _ & E)]; [intros _; exact E |].
    rewrite E. cbn [snd status ok reply]. lia.
  - reflexivity.
Qed.

(** ** Emails *)

Lemma all_columns_complete (c : column) : In c all_columns.
Proof. destruct c; simpl; tauto. Qed.

Lemma unchanged_agree (c : column) (a b : Row) (cols : list column) :
  incl (changed a b) cols -> ~ In c cols -> agree c a b = true.
Proof.
  intros Hincl Hnot. destruct (agree c a b) eqn:E; [reflexivity |].
  exfalso. apply Hnot, Hincl. unfold changed. apply filter_In.
  split; [apply all_columns_complete | rewrite E; reflexivity].
Qed.

Lemma email_not_touched (rq : Request) : ~ In c_email (touches rq).
Proof.
  destruct rq; simpl; intros H;
    repeat (destruct H as [H | H]; [discriminate H |]); exact H.
Qed.

(** A request that creates no account keeps the list of emails. *)
Lemma handle_emails_kept (env : Env) (isEmail : string -> bool) (w : World)
  (rq : Request) (db : DB) :
  wf db -> creates rq = false ->
  map col_email (fst (handle env isEmail w rq db)) = map col_email db.
Proof.
  intros Hwf Hno.
  destruct (handle_shape env isEmail w rq db Hwf)
    as (i & f & extra & -> & _ & Hcols & Hextra).
  destruct Hextra as [-> | (Hadd & _)]; [| congruence].
  rewrite app_nil_r. unfold amend. rewrite map_map. apply map_ext.
  intros r. destruct (by_id i r); [| reflexivity].
  symmetry. apply String.eqb_eq.
  exact (unchanged_agree c_email r (f r) _ (Hcols r) (email_not_touched rq)).
Qed.

(** A request keeps the emails of the accounts there are, and an account
    it adds has an email that no account had. *)
Lemma handle_emails (env : Env) (isEmail : string -> bool) (w : World)
  (rq : Request) (db : DB) :
  wf db ->
  map col_email (fst (handle env isEmail w rq db)) = map col_email db \/
  exists e, find (by_email e) db = None /\
            map col_email (fst (handle env isEmail w rq db)) = map col_email db ++ [e].
Proof.
  intros Hwf.
  destruct rq as [e p | e p | e o | e | x | x | tok | e | tok p | h];
    try (left; apply handle_emails_kept; [exact Hwf | reflexivity]).
  - (* register *)
    cbn [handle]. unfold register.
    destruct (nonempty (validate_RegisterDTO isEmail e p)); [left; reflexivity |].
    unfold findOneBy.
    destruct (find (by_email (text e)) db) eqn:Hf; [left; reflexivity |].
    cbn [option_map]. unfold save, create; cbn [id email].
    destruct (existsb (by_email (text e)) db); [left; reflexivity |].
    right. exists (text e). split; [exact Hf |].
    cbn [fst]. rewrite map_app. reflexivity.
  - (* google *)
    cbn [handle].
    destruct (falsy_string tok) eqn:Htok.
    { unfold google. rewrite Htok. left. reflexivity. }
    destruct (verifyIdToken w (text tok)) as [| | pe] eqn:Hv;
      try (unfold google; rewrite Htok, Hv; left; reflexivity).
    destruct (falsy_string pe) eqn:Hpe.
    { unfold google. rewrite Htok, Hv, Hpe. left. reflexivity. }
    destruct (falsy_string_false pe Hpe) as (e & -> & He).
    destruct (find (by_email e) db) as [row |] eqn:Hf.
    + rewrite (google_existing env w tok e db row Hwf Htok Hv He Hf).
      left. cbn [fst]. unfold amend. rewrite map_map. apply map_ext.
      intros r. destruct (by_id (col_id row) r); reflexivity.
    + rewrite (google_new env w tok e db Hwf Htok Hv He Hf).
      right. exists e. split; [exact Hf |]. cbn [fst]. rewrite map_app. reflexivity.
Qed.

(** X2. On a running server no two accounts have the same email. *)
Theorem emails_are_unique (env : Env) (isEmail : string -> bool)
  (trace : list (World * Request)) :
  NoDup (map col_email (fst (run env isEmail trace))).
Proof.
  unfold run.
  assert (G : forall st,
             wf (fst st) -> NoDup (map col_email (fst st)) ->
             NoDup (map col_email (fst (fold_left (step env isEmail) trace st)))).
  { induction trace as [| [w rq] trace IH]; intros st Hwf Hnd; [exact Hnd |].
    cbn [fold_left]. apply IH.
    - unfold step. cbn [fst snd].
      pose proof (handle_wf env isEmail w rq (fst st) Hwf) as H.
      destruct (handle env isEmail w rq (fst st)). exact H.
    - unfold step. cbn [fst snd].
      pose proof (handle_emails env isEmail w rq (fst st) Hwf) as H.
      destruct (handle env isEmail w rq (fst st)) as [db' r]. cbn [fst] in *.
      destruct H as [-> | (e & Hnone & ->)]; [exact Hnd |].
      apply NoDup_app; [exact Hnd | repeat constructor; intros [] | ].
      intros x Hin [<- | []].
      apply in_map_iff in Hin. destruct Hin as (r0 & Hr & Hin).
      pose proof (find_none _ _ Hnone r0 Hin) as Hb.
      unfold by_email in Hb. rewrite Hr, String.eqb_refl in Hb. discriminate. }
  apply G; [exact wf_nil | constructor].
Qed.

(** ** Accounts over time *)

Lemma id_not_touched (rq : Request) : ~ In c_id (touches rq).
Proof.
  destruct rq; simpl; intros H;
    repeat (destruct H as [H | H]; [discriminate H |]); exact H.
Qed.

(** What a request keeps of an account there is: its place in the
    table, its identifier, its email, and its verification. *)
Lemma handle_keeps (env : Env) (isEmail : string -> bool) (w : World)
  (rq : Request) (db : DB) (n : nat) (row : Row) :
  wf db -> nth_error db n = Some row ->
  exists row',
    nth_error (fst (handle env isEmail w rq db)) n = Some row' /\
    col_id row' = col_id row /\
    col_email row' = col_email row /\
    (col_isEmailVerified row = true -> col_isEmailVerified row' = true).
Proof.
  intros Hwf Hn.
  assert (Hamend : forall i f,
             nth_error (amend i f db) n = Some (if by_id i row then f row else row)).
  { intros i f. unfold amend. rewrite nth_error_map, Hn. reflexivity. }
  destruct (handle_shape env isEmail w rq db Hwf)
    as (i & f & extra & E & Hid & Hcols & _).
  assert (Hrow' : nth_error (fst (handle env isEmail w rq db)) n
                  = Some (if by_id i row then f row else row)).
  { rewrite E. rewrite nth_error_app1; [apply Hamend |].
    unfold amend. rewrite length_map. apply nth_error_Some. congruence. }
  eexists. split; [exact Hrow' |].
  destruct (by_id i row) eqn:Hi; [| repeat split; auto].
  split; [apply Hid |]. split.
  { apply String.eqb_eq. rewrite String.eqb_sym.
    exact (unchanged_agree c_email row (f row) _ (Hcols row) (email_not_touched rq)). }
  intros Hver.
  assert (Hother : ~ In c_isEmailVerified (touches rq) ->
                   col_isEmailVerified (f row) = true).
  { intros Hnot.
    pose proof (unchanged_agree c_isEmailVerified row (f row) _ (Hcols row) Hnot) as H.
    cbn [agree] in H. apply Bool.eqb_prop in H. congruence. }
  destruct rq as [e p | e p | e o | e | x | x | tok | e | tok p | h];
    try (apply Hother; simpl; intros H;
         repeat (destruct H as [H | H]; [discriminate H |]); exact H).
  (* verify-otp *)
  cbn [handle] in Hrow'.
  destruct (verify_otp_result isEmail w e o db Hwf)
    as [[_ E'] | (found & _ & _ & _ & E')]; rewrite E' in Hrow'.
  - rewrite Hn in Hrow'. inversion Hrow' as [H]. congruence.
  - cbn [fst] in Hrow'. rewrite Hamend in Hrow'. inversion Hrow' as [H].
    destruct (by_id (col_id found) row);
      first [reflexivity | assumption | congruence | rewrite <- H; reflexivity].
Qed.

(** X3. On a running server an account keeps its place in the table,
    its identifier and its email, and once its email is verified it
    stays verified, whatever requests follow. *)
Theorem verified_stays_verified (env : Env) (isEmail : string -> bool)
  (before after : list (World * Request)) (n : nat) (row : Row) :
  nth_error (fst (run env isEmail before)) n = Some row ->
  exists row',
    nth_error (fst (run env isEmail (before ++ after))) n = Some row' /\
    col_id row' = col_id row /\
    col_email row' = col_email row /\
    (col_isEmailVerified row = true -> col_isEmailVerified row' = true).
Proof.
  unfold run. rewrite fold_left_app.
  pose proof (run_wf env isEmail before) as Hwf. unfold run in Hwf.
  generalize dependent (fold_left (step env isEmail) before ([], [])).
  intros st Hwf. revert st Hwf row.
  induction after as [| [w rq] after IH]; intros st Hwf row Hn.
  - exists row. cbn [fold_left]. auto.
  - cbn [fold_left].
    destruct (handle_keeps env isEmail w rq (fst st) n row Hwf Hn)
      as (row1 & Hn1 & Hid1 & Hmail1 & Hver1).
    pose proof (handle_wf env isEmail w rq (fst st) Hwf) as Hwf1.
    assert (E : fst (step env isEmail st (w, rq))
                = fst (handle env isEmail w rq (fst st))).
    { unfold step. cbn [fst snd].
      destruct (handle env isEmail w rq (fst st)). reflexivity. }
    rewrite <- E in Hn1, Hwf1.
    destruct (IH _ Hwf1 row1 Hn1) as (row' & Hn' & Hid' & Hmail' & Hver').
    exists row'. split; [exact Hn' |].
    split; [congruence |]. split; [congruence |]. auto.
Qed.

(** ** From login to a protected endpoint *)

(** The middleware on a token of the shape [generateTokens] signs, for
    an account of the table. *)
Lemma me_with_signed_token (env : Env) (w' : World) (db : DB) (row : Row)
  (x i : Z) :
  find (by_id (col_id row)) db = Some row ->
  me env w' (Some (Bearer (Signed (jwtSecret env)
                             {| sub := col_id row; exp := x; iat := i |}))) db
  = if Date_now w' / 1000 <? x
    then ok [("id", JUuid (col_id row)); ("email", JString (col_email row))]
    else reply 401 [("error", JString "Invalid token")].
Proof.
  intros Hfind. unfold me, authenticate, verify. rewrite String.eqb_refl.
  cbn [exp andb sub]. destruct (Date_now w' / 1000 <? x); [| reflexivity].
  unfold findOneBy. cbn [sub]. rewrite Hfind. reflexivity.
Qed.

(** X4. After a successful login, [GET /me] with the access token as
    bearer answers 200 with the identifier and email of the account
    while the clock, in seconds, is below the second of the login plus
    the access-token lifetime, and 401 from then on; the refresh token
    of the same response is accepted as a bearer in the same way, for
    the refresh-token lifetime. *)
Theorem login_then_me (env : Env) (isEmail : string -> bool) (w w' : World)
  (e p : js string) (db : DB) :
  wf db ->
  status (snd (login env isEmail w e p db)) = 200 ->
  exists row access refreshing,
    find (by_email (text e)) db = Some row /\
    field "accessToken" (snd (login env isEmail w e p db)) = Some (JToken access) /\
    field "refreshToken" (snd (login env isEmail w e p db)) = Some (JToken refreshing) /\
    me env w' (Some (Bearer access)) (fst (login env isEmail w e p db))
    = (if Date_now w' / 1000 <? Date_now w / 1000 + accessTokenExpiresIn env
       then ok [("id", JUuid (col_id row)); ("email", JString (col_email row))]
       else reply 401 [("error", JString "Invalid token")]) /\
    me env w' (Some (Bearer refreshing)) (fst (login env isEmail w e p db))
    = (if Date_now w' / 1000 <? Date_now w / 1000 + refreshTokenExpiresIn env
       then ok [("id", JUuid (col_id row)); ("email", JString (col_email row))]
       else reply 401 [("error", JString "Invalid token")]).
Proof.
  intros Hwf Hok.
  destruct (login_result env isEmail w e p db Hwf) as [[Hno _] | (row & Hfind & E)];
    [contradiction |].
  rewrite E. cbn [fst snd].
  exists row. eexists. eexists. split; [exact Hfind |].
  split; [reflexivity |]. split; [reflexivity |].
  pose proof (find_key _ db row Hwf Hfind) as Hkey.
  assert (Hkey' : find (by_id (col_id row))
                    (amend (col_id row)
                       (store_refreshToken
                          (Some (snd (generateTokens env w (col_id row))))) db)
                  = Some (store_refreshToken
                            (Some (snd (generateTokens env w (col_id row)))) row)).
  { apply find_amend_self; [reflexivity | exact Hkey]. }
  set (row' := store_refreshToken
                 (Some (snd (generateTokens env w (col_id row)))) row) in *.
  change (col_id row) with (col_id row') in Hkey' |- *.
  change (col_email row) with (col_email row').
  cbn [generateTokens fst snd sign].
  split; apply me_with_signed_token; exact Hkey'.
Qed.

(** ** From registration to the first login *)

Section Onboarding.

Variable env : Env.
Variable isEmail : string -> bool.

Lemma validate_RegisterDTO_ok (e p : js string) :
  nonempty (validate_RegisterDTO isEmail e p) = false ->
  exists s q, e = val s /\ p = val q /\ isEmail s = true /\ q <> "".
Proof.
  unfold validate_RegisterDTO, violations.
  destruct e as [| | s]; [discriminate | discriminate |].
  cbn [filter snd negb map fst IsEmail].
  destruct (isEmail s) eqn:Hs; cbn [negb map fst nonempty]; [| discriminate].
  destruct p as [| | q]; [discriminate | discriminate |].
  cbn [IsNotEmpty falsy_string].
  destruct (String.eqb_spec q "") as [-> | Hq]; [discriminate |].
  intros _. exists s, q. auto.
Qed.

(** What a request that registered an account looked like, and the
    table it left. *)
Lemma register_success (w : World) (e p : js string) (db : DB) :
  status (snd (register isEmail w e p db)) = 201 ->
  exists s q,
    e = val s /\ p = val q /\ isEmail s = true /\ q <> "" /\
    find (by_email s) db = None /\
    fst (register isEmail w e p db)
    = db ++ [inserted (fresh_id db)
               (create s (argon2_hash q (argon2_salt w))
                  (val (generateOtp w)) (val (Date_now w + 10 * 60 * 1000))
                  (val false))].
Proof.
  intros Hok.
  destruct (register_stores_otp isEmail w e p db Hok) as (row & Hdb & ->).
  assert (H : nonempty (validate_RegisterDTO isEmail e p) = false /\
              find (by_email (text e)) db = None).
  { unfold register in Hok.
    destruct (nonempty (validate_RegisterDTO isEmail e p)); [discriminate Hok |].
    unfold findOneBy in Hok.
    destruct (find (by_email (text e)) db); [discriminate Hok | auto]. }
  destruct H as [Hv Hf].
  destruct (validate_RegisterDTO_ok e p Hv) as (s & q & -> & -> & Hs & Hq).
  exists s, q. rewrite Hdb. repeat split; auto.
Qed.

(** X5. After a registration answered 201 the account is found by its
    email, holds a hash that verifies the password given and no other,
    and is not verified; a further registration with that email is
    answered 400 and changes nothing. *)
Theorem register_then_register (w w2 : World) (e p p2 : js string) (db : DB) :
  status (snd (register isEmail w e p db)) = 201 ->
  let db1 := fst (register isEmail w e p db) in
  (exists row,
      find (by_email (text e)) db1 = Some row /\
      col_id row = fresh_id db /\
      col_isEmailVerified row = false /\
      forall q, argon2_verify (col_password row) q = true <-> q = text p) /\
  status (snd (register isEmail w2 e p2 db1)) = 400 /\
  fst (register isEmail w2 e p2 db1) = db1.
Proof.
  intros Hok db1. subst db1.
  destruct (register_success w e p db Hok) as (s & q & -> & -> & Hs & Hq & Hnone & ->).
  cbn [text].
  assert (Hfound : find (by_email s)
                     (db ++ [inserted (fresh_id db)
                               (create s (argon2_hash q (argon2_salt w))
                                  (val (generateOtp w))
                                  (val (Date_now w + 10 * 60 * 1000)) (val false))])
                   = Some (inserted (fresh_id db)
                             (create s (argon2_hash q (argon2_salt w))
                                (val (generateOtp w))
                                (val (Date_now w + 10 * 60 * 1000)) (val false)))).
  { rewrite find_append, Hnone. cbn [find]. unfold by_email at 1.
    cbn [col_email inserted create email]. rewrite String.eqb_refl. reflexivity. }
  split.
  - eexists. split; [exact Hfound |]. split; [reflexivity |].
    split; [reflexivity |].
    intros q'. unfold argon2_verify. cbn [col_password inserted create password
                                          argon2_hash plain].
    rewrite String.eqb_eq. split; congruence.
  - unfold register.
    destruct (nonempty (validate_RegisterDTO isEmail (val s) p2));
      [split; reflexivity |].
    unfold findOneBy. cbn [text]. rewrite Hfound. split; reflexivity.
Qed.

Lemma validate_VerifyOtpDTO_ok (s o : string) :
  isEmail s = true -> o <> "" -> (6 <= String.length o)%nat ->
  validate_VerifyOtpDTO isEmail (val s) (val o) = [].
Proof.
  intros Hs Ho Hlen. unfold validate_VerifyOtpDTO, violations, IsNotEmpty.
  cbn [IsEmail falsy_string MinLength]. rewrite Hs.
  destruct (String.eqb_spec o ""); [contradiction |].
  destruct (Nat.leb_spec 6 (String.length o)); [reflexivity | lia].
Qed.

(** X6. Registration, verification and login compose: after a
    registration answered 201, a verify-otp with the code drawn at
    registration, no later than 10 minutes after it, is answered 200,
    and a login with the registered email and password is then answered
    200 with a token pair, the refresh token being stored on the
    account. *)
Theorem register_verify_login (w w2 w3 : World) (e p : js string) (db : DB) :
  wf db ->
  unit_interval (Math_random w) ->
  status (snd (register isEmail w e p db)) = 201 ->
  Date_now w2 <= Date_now w + 600000 ->
  let db1 := fst (register isEmail w e p db) in
  let db2 := fst (verify_otp isEmail w2 e (val (generateOtp w)) db1) in
  let answer := login env isEmail w3 e p db2 in
  status (snd (verify_otp isEmail w2 e (val (generateOtp w)) db1)) = 200 /\
  status (snd answer) = 200 /\
  field "accessToken" (snd answer)
  = Some (JToken (fst (generateTokens env w3 (fresh_id db)))) /\
  field "refreshToken" (snd answer)
  = Some (JToken (snd (generateTokens env w3 (fresh_id db)))) /\
  stored (fst answer) (fresh_id db)
  = Some (snd (generateTokens env w3 (fresh_id db))).
Proof.
  intros Hwf Hrnd Hok Hclock db1 db2 answer. subst answer db2 db1.
  destruct (register_success w e p db Hok) as (s & q & -> & -> & Hs & Hq & Hnone & E).
  rewrite E. clear E.
  set (row := inserted (fresh_id db)
                (create s (argon2_hash q (argon2_salt w))
                   (val (generateOtp w)) (val (Date_now w + 10 * 60 * 1000))
                   (val false))).
  assert (Hwf1 : wf (db ++ [row])) by (apply wf_insert; [exact Hwf | reflexivity]).
  assert (Hfound : find (by_email s) (db ++ [row]) = Some row).
  { rewrite find_append, Hnone. cbn [find]. unfold by_email at 1.
    cbn [col_email row inserted create email]. rewrite String.eqb_refl. reflexivity. }
  destruct (generateOtp_six_digits w Hrnd) as (n & _ & _ & Hlen & _).
  assert (Hotp : generateOtp w <> "").
  { intros H. rewrite H in Hlen. discriminate Hlen. }
  (* the verification *)
  assert (Hverify : verify_otp isEmail w2 (val s) (val (generateOtp w)) (db ++ [row])
                    = (amend (col_id row) (store_isEmailVerified true) (db ++ [row]),
                       ok [("message", JString "Email verified successfully");
                           ("verified", JBool true)])).
  { destruct (verify_otp_result isEmail w2 (val s) (val (generateOtp w))
                (db ++ [row]) Hwf1) as [[Hno _] | (row' & Hf' & _ & _ & E)].
    - exfalso. apply Hno. unfold verify_otp.
      rewrite (validate_VerifyOtpDTO_ok s (generateOtp w) Hs Hotp)
        by (rewrite Hlen; lia).
      cbn [nonempty]. unfold findOneBy. cbn [text]. rewrite Hfound. cbn [option_map].
      cbn [load emailVerificationOtp emailVerificationExpires row inserted create
           col_emailVerificationOtp col_emailVerificationExpires write hydrate
           falsy_string same_string falsy_object earlier].
      rewrite String.eqb_refl.
      destruct (String.eqb_spec (generateOtp w) ""); [contradiction |].
      destruct (Z.ltb_spec (Date_now w + 10 * 60 * 1000) (Date_now w2)); [lia |].
      cbn [negb orb].
      rewrite (save_keyed _ (fresh_id db)) by reflexivity. reflexivity.
    - cbn [text] in Hf'. rewrite Hfound in Hf'. inversion Hf'; subst row'.
      exact E. }
  rewrite Hverify. cbn [fst snd]. split; [reflexivity |].
  (* the login *)
  set (db2 := amend (col_id row) (store_isEmailVerified true) (db ++ [row])).
  assert (Hwf2 : wf db2) by (apply wf_amend; [reflexivity | exact Hwf1]).
  assert (Hfound2 : find (by_email s) db2 = Some (store_isEmailVerified true row)).
  { apply find_amend_self; [reflexivity | exact Hfound]. }
  destruct (login_result env isEmail w3 (val s) (val q) db2 Hwf2)
    as [[Hno _] | (row' & Hf' & E)].
  - exfalso. apply Hno. unfold login.
    rewrite (validate_LoginDTO_ok isEmail s q Hs Hq). cbn [nonempty].
    unfold findOneBy. cbn [text]. rewrite Hfound2. cbn [option_map].
    cbn [load password isEmailVerified store_isEmailVerified col_password
         col_isEmailVerified row inserted create argon2_verify argon2_hash plain
         falsy_bool negb].
    unfold argon2_verify, argon2_hash. cbn [plain].
    rewrite String.eqb_refl. cbn [negb].
    change (uid (load (store_isEmailVerified true row))) with (fresh_id db).
    unfold generateTokens at 1.
    rewrite (save_keyed _ (fresh_id db)) by reflexivity. reflexivity.
  - cbn [text] in Hf'. rewrite Hfound2 in Hf'. inversion Hf'; subst row'.
    rewrite E. cbn [fst snd col_id store_isEmailVerified row inserted].
    split; [reflexivity |]. split; [reflexivity |]. split; [reflexivity |].
    rewrite (stored_amend_token db2 _ (fresh_id db) _ (store_isEmailVerified true row)).
    + rewrite N.eqb_refl. reflexivity.
    + exact (find_key _ db2 _ Hwf2 Hfound2).
Qed.

End Onboarding.

(** ** The one-time code *)

Section Codes.

Variable isEmail : string -> bool.

(** X7. A verify-otp of valid shape is answered 404 when no account
    has the email; 200, leaving the account verified, when the account
    holds the submitted code and the clock has not passed the stored
    expiry (the expiry instant itself is still accepted); and 400
    otherwise, with the table unchanged. *)
Theorem verify_otp_window (w : World) (s o : string) (db : DB) :
  wf db -> isEmail s = true -> (6 <= String.length o)%nat ->
  let result := verify_otp isEmail w (val s) (val o) db in
  let accepted (row : Row) :=
    col_emailVerificationOtp row = Some o /\
    exists x, col_emailVerificationExpires row = Some x /\ Date_now w <= x in
  (find (by_email s) db = None ->
   result = (db, reply 404 [("error", JString "User not found")])) /\
  (forall row, find (by_email s) db = Some row -> accepted row ->
     snd result = ok [("message", JString "Email verified successfully");
                      ("verified", JBool true)] /\
     exists row',
       find (by_email s) (fst result) = Some row' /\
       col_id row' = col_id row /\
       col_isEmailVerified row' = true) /\
  (forall row, find (by_email s) db = Some row -> ~ accepted row ->
     result = (db, reply 400 [("error", JString "Invalid or expired OTP")])).
Proof.
  intros Hwf Hs Hlen result accepted. subst result accepted.
  assert (Ho : o <> "") by (intros ->; simpl in Hlen; lia).
  unfold verify_otp. rewrite (validate_VerifyOtpDTO_ok isEmail s o Hs Ho Hlen).
  cbn [nonempty text]. unfold findOneBy.
  split; [| split].
  - intros ->. reflexivity.
  - intros row Hfind (Hotp & x & Hexp & Hx). rewrite Hfind. cbn [option_map].
    cbn [load emailVerificationOtp emailVerificationExpires].
    rewrite Hotp, Hexp.
    cbn [hydrate falsy_string same_string falsy_object earlier].
    rewrite String.eqb_refl.
    destruct (String.eqb_spec o ""); [contradiction |].
    destruct (Z.ltb_spec x (Date_now w)); [lia |]. cbn [negb orb].
    pose proof (find_some _ _ Hfind) as [Hin _].
    rewrite (save_loaded db row _ (store_isEmailVerified true) Hwf Hin
               (update_verified row) eq_refl).
    cbn [fst snd]. split; [reflexivity |].
    exists (store_isEmailVerified true row).
    split; [apply find_amend_self; [reflexivity | exact Hfind] |].
    split; reflexivity.
  - intros row Hfind Hnot. rewrite Hfind. cbn [option_map].
    cbn [load emailVerificationOtp emailVerificationExpires].
    destruct (col_emailVerificationOtp row) as [c |] eqn:Hotp;
      cbn [hydrate falsy_string same_string]; [| reflexivity].
    destruct (String.eqb c ""); [reflexivity |].
    destruct (String.eqb_spec c o) as [-> | Hne]; [| reflexivity].
    destruct (col_emailVerificationExpires row) as [x |] eqn:Hexp;
      cbn [hydrate falsy_object earlier negb orb]; [| reflexivity].
    destruct (Z.ltb_spec x (Date_now w)); [reflexivity |].
    exfalso. apply Hnot. split; [reflexivity |]. exists x. auto.
Qed.

(** X8. A resend for an unverified account stores a fresh code with
    its expiry before the mail is sent, so the table changes even when
    the mail transport fails and the answer is 500; from then on a
    verify-otp with any other code, the previous one included, is
    answered 400, and one with the fresh code within its 10 minutes is
    answered 200. *)
Theorem resend_replaces_code (w w' : World) (s : string) (db : DB) (row : Row) :
  wf db -> isEmail s = true ->
  find (by_email s) db = Some row ->
  col_isEmailVerified row = false ->
  let result := resend_otp isEmail w (val s) db in
  status (snd result) = (if sendMail_ok w then 200 else 500) /\
  fst result
  = amend (col_id row)
      (store_otp (Some (generateOtp w)) (Some (Date_now w + 600000))) db /\
  (forall o, o <> generateOtp w ->
     status (snd (verify_otp isEmail w' (val s) (val o) (fst result))) = 400) /\
  (unit_interval (Math_random w) -> Date_now w' <= Date_now w + 600000 ->
   status (snd (verify_otp isEmail w' (val s) (val (generateOtp w)) (fst result)))
   = 200).
Proof.
  intros Hwf Hs Hfind Hunv result. subst result.
  pose proof (find_some _ _ Hfind) as [Hin _].
  assert (E : resend_otp isEmail w (val s) db
              = (amend (col_id row)
                   (store_otp (Some (generateOtp w)) (Some (Date_now w + 600000))) db,
                 if sendMail_ok w
                 then ok [("message", JString "OTP resent successfully");
                          ("email", JString (col_email row))]
                 else reply 500 [("error", JString "Failed to send OTP email")])).
  { unfold resend_otp. unfold validate_ResendOtpDTO, violations.
    cbn [IsEmail filter snd negb map fst]. rewrite Hs. cbn [negb map nonempty text].
    unfold findOneBy. rewrite Hfind. cbn [option_map load isEmailVerified].
    rewrite Hunv. cbn [falsy_bool negb].
    rewrite (save_loaded db row _ _ Hwf Hin (update_otp row _ _) eq_refl).
    destruct (sendMail_ok w); reflexivity. }
  rewrite E. cbn [fst snd].
  set (fresh := store_otp (Some (generateOtp w)) (Some (Date_now w + 600000))).
  assert (Hwf' : wf (amend (col_id row) fresh db))
    by (apply wf_amend; [reflexivity | exact Hwf]).
  assert (Hfind' : find (by_email s) (amend (col_id row) fresh db)
                   = Some (fresh row))
    by (apply find_amend_self; [reflexivity | exact Hfind]).
  split; [destruct (sendMail_ok w); reflexivity |]. split; [reflexivity |]. split.
  - intros o Ho. unfold verify_otp.
    destruct (nonempty (validate_VerifyOtpDTO isEmail (val s) (val o)));
      [reflexivity |].
    unfold findOneBy. cbn [text]. rewrite Hfind'. cbn [option_map].
    cbn [load emailVerificationOtp emailVerificationExpires fresh store_otp
         col_emailVerificationOtp col_emailVerificationExpires
         hydrate falsy_string same_string].
    destruct (String.eqb (generateOtp w) ""); [reflexivity |].
    destruct (String.eqb_spec (generateOtp w) o); [congruence | reflexivity].
  - intros Hrnd Hclock.
    destruct (generateOtp_six_digits w Hrnd) as (n & _ & _ & Hlen & _).
    assert (Hlen' : (6 <= String.length (generateOtp w))%nat) by lia.
    pose proof (verify_otp_result isEmail w' (val s) (val (generateOtp w))
                  (amend (col_id row) fresh db) Hwf') as H.
    destruct H as [[Hno _] | (row' & _ & _ & _ & ->)]; [| reflexivity].
    exfalso. apply Hno. unfold verify_otp.
    rewrite (validate_VerifyOtpDTO_ok isEmail s (generateOtp w) Hs)
      by (auto; intros H; rewrite H in Hlen; discriminate Hlen).
    cbn [nonempty text]. unfold findOneBy. rewrite Hfind'. cbn [option_map].
    cbn [load emailVerificationOtp emailVerificationExpires fresh store_otp
         col_emailVerificationOtp col_emailVerificationExpires
         hydrate falsy_string same_string falsy_object earlier].
    rewrite String.eqb_refl.
    destruct (String.eqb_spec (generateOtp w) "") as [H |];
      [rewrite H in Hlen; discriminate Hlen |].
    destruct (Z.ltb_spec (Date_now w + 600000) (Date_now w')); [lia |].
    cbn [negb orb].
    rewrite (save_keyed _ (col_id row)) by reflexivity. reflexivity.
Qed.

End Codes.

(** ** Password reset *)

(** X9. Forgot-password and reset-password compose: the token mailed
    is the hex writing, 64 characters, of 32 random bytes; provided no
    other account holds that token, a reset with it and a non-empty
    password, no later than the configured lifetime after the request
    (the expiry instant included), is answered 200 and leaves the
    account with a hash that verifies the new password; a later one is
    answered 400 and changes nothing.  This holds whether or not the
    mail could be sent. *)
Theorem forgot_then_reset (env : Env) (w w2 : World) (s q : string)
  (db : DB) (row : Row) :
  wf db -> s <> "" -> q <> "" ->
  find (by_email s) db = Some row ->
  (forall r, In r db ->
             col_resetPasswordToken r = Some (hex (randomBytes w 32)) -> r = row) ->
  let mailed := hex (randomBytes w 32) in
  let expiry := Date_now w + RESET_PASSWORD_EXPIRES_IN env * 1000 in
  let db1 := fst (forgot_password env w (val s) db) in
  let result := reset_password w2 (val mailed) (val q) db1 in
  String.length mailed = 64%nat /\
  db1 = amend (col_id row) (store_reset (Some mailed) (Some expiry)) db /\
  (Date_now w2 <= expiry ->
   status (snd result) = 200 /\
   fst result
   = amend (col_id row) (store_password (argon2_hash q (argon2_salt w2))) db1 /\
   exists row',
     find (by_email s) (fst result) = Some row' /\
     argon2_verify (col_password row') q = true) /\
  (expiry < Date_now w2 ->
   status (snd result) = 400 /\ fst result = db1).
Proof.
  intros Hwf Hs Hq Hfind Hsole mailed expiry db1 result.
  assert (Hlen : String.length mailed = 64%nat).
  { subst mailed. rewrite hex_length, randomBytes_length. reflexivity. }
  assert (Hmailed : mailed <> "").
  { intros H. rewrite H in Hlen. discriminate Hlen. }
  pose proof (find_some _ _ Hfind) as [Hin _].
  set (f := store_reset (Some mailed) (Some expiry)).
  assert (E1 : db1 = amend (col_id row) f db).
  { subst db1. unfold forgot_password. cbn [falsy_string text].
    destruct (String.eqb_spec s ""); [contradiction |].
    unfold findOneBy. rewrite Hfind. cbn [option_map].
    rewrite (save_loaded db row _ _ Hwf Hin (update_reset_requested row _ _) eq_refl).
    destruct (sendMail_ok w); reflexivity. }
  assert (Hwf1 : wf db1) by (rewrite E1; apply wf_amend; [reflexivity | exact Hwf]).
  assert (Hin1 : In (f row) db1).
  { rewrite E1. unfold amend. apply in_map_iff. exists row.
    unfold by_id. rewrite N.eqb_refl. auto. }
  assert (Htoken : find (by_resetPasswordToken mailed) db1 = Some (f row)).
  { destruct (find (by_resetPasswordToken mailed) db1) as [r' |] eqn:Hf.
    - f_equal. apply find_some in Hf. destruct Hf as [Hr' Hb].
      rewrite E1 in Hr'. unfold amend in Hr'. apply in_map_iff in Hr'.
      destruct Hr' as (r & Hr & Hr').
      destruct (by_id (col_id row) r) eqn:Hid.
      + apply N.eqb_eq in Hid.
        assert (r = row) by (apply (wf_unique db); auto). subst r. auto.
      + subst r'. exfalso. unfold by_resetPasswordToken in Hb.
        destruct (col_resetPasswordToken r) as [t |] eqn:Ht; [| discriminate Hb].
        apply String.eqb_eq in Hb. subst t.
        rewrite (Hsole r Hr' Ht) in Hid.
        unfold by_id in Hid. rewrite N.eqb_refl in Hid. discriminate Hid.
    - exfalso. pose proof (find_none _ _ Hf (f row) Hin1) as Hb.
      unfold by_resetPasswordToken in Hb. cbn [f store_reset col_resetPasswordToken] in Hb.
      rewrite String.eqb_refl in Hb. discriminate Hb. }
  split; [exact Hlen |]. split; [exact E1 |].
  assert (Hshape : result
                   = if expiry <? Date_now w2
                     then (db1, reply 400 [("error", JString "Invalid or expired token")])
                     else (amend (col_id row)
                             (store_password (argon2_hash q (argon2_salt w2))) db1,
                           ok [("message", JString "Password has been reset")])).
  { subst result. unfold reset_password. cbn [falsy_string text].
    destruct (String.eqb_spec mailed ""); [contradiction |].
    destruct (String.eqb_spec q ""); [contradiction |]. cbn [orb].
    unfold findOneBy. rewrite Htoken. cbn [option_map].
    cbn [load resetPasswordExpires f store_reset col_resetPasswordExpires
         hydrate falsy_object earlier orb].
    destruct (expiry <? Date_now w2); [reflexivity |].
    rewrite (save_loaded db1 (f row) _
               (store_password (argon2_hash q (argon2_salt w2)))
               Hwf1 Hin1 (update_password_reset (f row) _) eq_refl).
    reflexivity. }
  rewrite Hshape. split.
  - intros Hclock. destruct (Z.ltb_spec expiry (Date_now w2)); [lia |].
    cbn [fst snd]. split; [reflexivity |]. split; [reflexivity |].
    exists (store_password (argon2_hash q (argon2_salt w2)) (f row)).
    split.
    + change (col_id row) with (col_id (f row)).
      apply find_amend_self; [reflexivity |].
      rewrite E1. apply find_amend_self; [reflexivity | exact Hfind].
    + unfold argon2_verify. cbn [col_password store_password argon2_hash plain].
      apply String.eqb_refl.
  - intros Hclock. destruct (Z.ltb_spec expiry (Date_now w2)); [| lia].
    split; reflexivity.
Qed.

(** ** Sessions *)

(** X10. A refresh that presents the access token of a login is
    answered 401 and changes nothing, provided the two configured
    lifetimes differ (with equal lifetimes the two tokens of a pair are
    the same string). *)
Theorem access_token_is_no_refresh_token (env : Env) (isEmail : string -> bool)
  (w w' : World) (e p : js string) (db : DB) :
  wf db ->
  accessTokenExpiresIn env <> refreshTokenExpiresIn env ->
  status (snd (login env isEmail w e p db)) = 200 ->
  exists access,
    field "accessToken" (snd (login env isEmail w e p db)) = Some (JToken access) /\
    status (snd (refresh env w' (val access) (fst (login env isEmail w e p db)))) = 401 /\
    fst (refresh env w' (val access) (fst (login env isEmail w e p db)))
    = fst (login env isEmail w e p db).
Proof.
  intros Hwf Hdiff Hok.
  destruct (login_result env isEmail w e p db Hwf) as [[Hno _] | (row & Hfind & E)];
    [contradiction |].
  rewrite E. cbn [fst snd]. eexists. split; [reflexivity |].
  set (db' := amend (col_id row)
                (store_refreshToken (Some (snd (generateTokens env w (col_id row)))))
                db).
  assert (Hwf' : wf db') by (apply wf_amend; [reflexivity | exact Hwf]).
  pose proof (find_key _ db row Hwf Hfind) as Hkey.
  assert (Hkey' : find (by_id (col_id row)) db'
                  = Some (store_refreshToken
                            (Some (snd (generateTokens env w (col_id row)))) row))
    by (apply find_amend_self; [reflexivity | exact Hkey]).
  destruct (refresh_cases env w' (val (fst (generateTokens env w (col_id row)))) db' Hwf')
    as [(t & c & row' & (Et & Hv & Hf & Hs) & _) | (_ & msg & ->)];
    [| split; reflexivity].
  exfalso. inversion Et; subst t. clear Et.
  cbn [generateTokens fst sign verify] in Hv.
  destruct (_ && _) in Hv; [| discriminate Hv]. inversion Hv; subst c. clear Hv.
  cbn [sub] in Hf. rewrite Hkey' in Hf. inversion Hf; subst row'.
  cbn [col_refreshToken store_refreshToken generateTokens fst snd sign] in Hs.
  inversion Hs. lia.
Qed.

(** X11. A refresh token handed out in the response to any request is
    accepted by [POST /refresh] on the table that request leaves, as
    long as the clock, in seconds, is below the second of issue plus
    the refresh-token lifetime, and is answered 401 from then on. *)
Theorem issued_token_refreshes (env : Env) (isEmail : string -> bool)
  (w w' : World) (rq : Request) (db : DB) (t : token) :
  wf db ->
  field "refreshToken" (snd (handle env isEmail w rq db)) = Some (JToken t) ->
  status (snd (refresh env w' (val t) (fst (handle env isEmail w rq db))))
  = (if Date_now w' / 1000 <? Date_now w / 1000 + refreshTokenExpiresIn env
     then 200 else 401).
Proof.
  intros Hwf Hfield.
  pose proof (handle_wf env isEmail w rq db Hwf) as Hwf'.
  destruct (handle_token_effect env isEmail w rq db Hwf)
    as [[Hnone _] | (j & Hj & Hstored)]; [congruence |].
  rewrite Hfield in Hj. inversion Hj; subst t. clear Hj Hfield.
  specialize (Hstored j). rewrite N.eqb_refl in Hstored.
  set (db' := fst (handle env isEmail w rq db)) in *.
  set (t := snd (generateTokens env w j)) in *.
  assert (Hv : verify t (jwtSecret env) (Date_now w')
               = if Date_now w' / 1000 <? Date_now w / 1000 + refreshTokenExpiresIn env
                 then Some {| sub := j;
                              exp := Date_now w / 1000 + refreshTokenExpiresIn env;
                              iat := Date_now w / 1000 |}
                 else None).
  { unfold t, generateTokens, sign, verify. cbn [snd exp].
    rewrite String.eqb_refl. reflexivity. }
  change (sign j _ _ _) with t.
  destruct (refresh_cases env w' (val t) db' Hwf')
    as [(t' & c & row & (E & Hv' & _) & ->) | (Hnot & msg & ->)].
  - inversion E; subst t'. rewrite Hv in Hv'.
    destruct (_ <? _); [reflexivity | discriminate Hv'].
  - destruct (Date_now w' / 1000 <? _) eqn:Hclock; [| reflexivity].
    exfalso. unfold stored in Hstored.
    destruct (find (by_id j) db') as [row |] eqn:Hfind; [| discriminate Hstored].
    apply (Hnot t {| sub := j;
                     exp := Date_now w / 1000 + refreshTokenExpiresIn env;
                     iat := Date_now w / 1000 |} row).
    split; [reflexivity |]. split; [exact Hv |].
    split; [exact Hfind | exact Hstored].
Qed.

(** ** The mail transport *)

(** X12. What a request writes does not depend on the mail transport:
    every handler saves before it sends.  Only resend-otp and
    forgot-password answer differently when the mail cannot be sent
    (registration swallows the failure), and where they do, the answer
    is 200 with the transport up and 500 with it down. *)
Theorem mail_outage (env : Env) (isEmail : string -> bool) (w : World)
  (rq : Request) (db : DB) :
  let up := handle env isEmail (mail_set true w) rq db in
  let down := handle env isEmail (mail_set false w) rq db in
  fst down = fst up /\
  (snd down = snd up \/
   status (snd up) = 200 /\ status (snd down) = 500 /\
   ((exists e, rq = ResendOtp e) \/ (exists e, rq = ForgotPassword e))).
Proof.
  intros up down. subst up down.
  destruct rq as [e p | e p | e o | e | x | x | tok | e | tok p | h];
    cbn [handle]; try (split; [reflexivity | left; reflexivity]).
  - unfold resend_otp.
    destruct (nonempty (validate_ResendOtpDTO isEmail e));
      [split; [reflexivity | left; reflexivity] |].
    destruct (findOneBy (by_email (text e)) db) as [user |];
      [| split; [reflexivity | left; reflexivity]].
    destruct (negb (falsy_bool (isEmailVerified user)));
      [split; [reflexivity | left; reflexivity] |].
    change (generateOtp (mail_set true w)) with (generateOtp w).
    change (generateOtp (mail_set false w)) with (generateOtp w).
    cbn [mail_set Date_now sendMail_ok].
    destruct (save _ db) as [[db' u] |];
      [| split; [reflexivity | left; reflexivity]].
    split; [reflexivity |]. right. cbn [snd status ok reply].
    split; [reflexivity |]. split; [reflexivity |]. left. eexists. reflexivity.
  - unfold forgot_password.
    destruct (falsy_string e); [split; [reflexivity | left; reflexivity] |].
    destruct (findOneBy (by_email (text e)) db) as [user |];
      [| split; [reflexivity | left; reflexivity]].
    change (randomBytes (mail_set true w) 32) with (randomBytes w 32).
    change (randomBytes (mail_set false w) 32) with (randomBytes w 32).
    cbn [mail_set Date_now sendMail_ok].
    destruct (save _ db) as [[db' u] |];
      [| split; [reflexivity | left; reflexivity]].
    split; [reflexivity |]. right. cbn [snd status ok reply errorHandler].
    split; [reflexivity |]. split; [reflexivity |]. right. eexists. reflexivity.
Qed.

(** * Properties of the to-do routes *)

Section TodoProperties.

Variable L : TodoLib.

Lemma todos_wf_nth (todos : Todos L) (n : nat) (t : Todo L) :
  todos_wf L todos -> nth_error todos n = Some t -> todo_id t = N.of_nat n.
Proof.
  intros Hwf Hn.
  assert (Hlt : (n < List.length todos)%nat).
  { apply nth_error_Some. rewrite Hn. discriminate. }
  assert (H : nth_error (map todo_id todos) n = Some (todo_id t)).
  { rewrite nth_error_map, Hn. reflexivity. }
  rewrite Hwf, nth_error_map, nth_error_seq in H.
  destruct (Nat.ltb_spec n (List.length todos)); [| lia].
  simpl in H. inversion H. reflexivity.
Qed.

Lemma todos_wf_unique (todos : Todos L) (t t' : Todo L) :
  todos_wf L todos -> In t todos -> In t' todos -> todo_id t = todo_id t' -> t = t'.
Proof.
  intros Hwf Ht Ht' Hid.
  apply In_nth_error in Ht. destruct Ht as [n Hn].
  apply In_nth_error in Ht'. destruct Ht' as [n' Hn'].
  pose proof (todos_wf_nth todos n t Hwf Hn).
  pose proof (todos_wf_nth todos n' t' Hwf Hn').
  assert (n = n') by lia. subst n'. congruence.
Qed.


(** What [find_todo] finds. *)
Lemma find_todo_Some (i u : uuid) (todos : Todos L) (t : Todo L) :
  find_todo L i u todos = Some t ->
  In t todos /\ live t = true /\ todo_id t = i /\ todo_userId t = u.
Proof.
  intros H. apply find_some in H. destruct H as [Hin Hb].
  apply andb_true_iff in Hb. destruct Hb as [Hb Ho].
  apply andb_true_iff in Hb. destruct Hb as [Hl Hi].
  repeat split; auto; apply N.eqb_eq; assumption.
Qed.

Lemma find_todo_own (todos : Todos L) (t : Todo L) :
  todos_wf L todos -> In t todos -> live t = true ->
  find_todo L (todo_id t) (todo_userId t) todos = Some t.
Proof.
  intros Hwf Hin Hlive.
  destruct (find_todo L (todo_id t) (todo_userId t) todos) as [t' |] eqn:Hf.
  - destruct (find_todo_Some _ _ _ _ Hf) as (Hin' & _ & Hid & _).
    f_equal. apply (todos_wf_unique todos); auto.
  - exfalso. pose proof (find_none _ _ Hf t Hin) as Hb. cbn beta in Hb.
    unfold owned_by in Hb. rewrite Hlive, !N.eqb_refl in Hb. discriminate.
Qed.

(** A todo that is deleted, or belongs to someone else, is not found. *)
Lemma find_todo_none (todos : Todos L) (t : Todo L) (u : uuid) :
  todos_wf L todos -> In t todos ->
  live t = false \/ todo_userId t <> u ->
  find_todo L (todo_id t) u todos = None.
Proof.
  intros Hwf Hin Hnot.
  destruct (find_todo L (todo_id t) u todos) as [t' |] eqn:Hf; [| reflexivity].
  exfalso. destruct (find_todo_Some _ _ _ _ Hf) as (Hin' & Hlive & Hid & Hown).
  assert (t' = t) by (apply (todos_wf_unique todos); auto). subst t'.
  destruct Hnot as [Hdead | Hother]; congruence.
Qed.

(** Rewriting the row of [t] changes that row and no other. *)
Lemma rewrite_todo_nth (todos : Todos L) (t : Todo L) (f : Todo L -> Todo L)
  (n : nat) (t0 : Todo L) :
  todos_wf L todos -> In t todos -> nth_error todos n = Some t0 ->
  nth_error (rewrite_todo L (todo_id t) f todos) n
  = Some (if N.eqb (todo_id t0) (todo_id t) then f t else t0).
Proof.
  intros Hwf Hin Hn. unfold rewrite_todo. rewrite nth_error_map, Hn.
  cbn [option_map]. destruct (N.eqb_spec (todo_id t0) (todo_id t)) as [E |];
    [| reflexivity].
  assert (t0 = t).
  { apply (todos_wf_unique todos); auto. apply nth_error_In with n. exact Hn. }
  subst t0. reflexivity.
Qed.

Lemma todos_wf_rewrite_found (todos : Todos L) (t0 : Todo L) (f : Todo L -> Todo L) :
  todos_wf L todos -> In t0 todos -> todo_id (f t0) = todo_id t0 ->
  todos_wf L (rewrite_todo L (todo_id t0) f todos).
Proof.
  unfold todos_wf, rewrite_todo. intros Hwf Hin Hf.
  rewrite map_map, length_map, <- Hwf. apply map_ext_in.
  intros t Ht. destruct (N.eqb_spec (todo_id t) (todo_id t0)) as [E |]; [| reflexivity].
  assert (t = t0) by (apply (todos_wf_unique todos); auto). subst t. exact Hf.
Qed.

(** ** Listing *)

Lemma insert_by_date_perm (t : Todo L) (l : list (Todo L)) :
  Permutation (t :: l) (insert_by_date L t l).
Proof.
  induction l as [| t' l IH]; cbn [insert_by_date]; [apply Permutation_refl |].
  destruct (date_leb L (todo_dateTime t) (todo_dateTime t'));
    [apply Permutation_refl |].
  apply perm_trans with (t' :: t :: l); [apply perm_swap |].
  apply perm_skip. exact IH.
Qed.

Lemma order_by_date_perm (l : list (Todo L)) : Permutation l (order_by_date L l).
Proof.
  induction l as [| t l IH]; cbn [order_by_date]; [apply perm_nil |].
  apply perm_trans with (t :: order_by_date L l);
    [apply perm_skip; exact IH | apply insert_by_date_perm].
Qed.

Lemma insert_by_date_sorted (t : Todo L) (l : list (Todo L)) :
  (forall a b, date_leb L a b = true \/ date_leb L b a = true) ->
  Sorted by_date l -> Sorted by_date (insert_by_date L t l).
Proof.
  intros Htotal. induction l as [| t' l IH]; intros Hs; cbn [insert_by_date].
  - repeat constructor.
  - destruct (date_leb L (todo_dateTime t) (todo_dateTime t')) eqn:E.
    + constructor; [exact Hs | constructor; exact E].
    + apply Sorted_inv in Hs. destruct Hs as [Hs Hhd].
      constructor; [apply IH; exact Hs |].
      assert (Hle : by_date t' t).
      { unfold by_date.
        destruct (Htotal (todo_dateTime t) (todo_dateTime t')); congruence. }
      destruct l as [| t'' l]; cbn [insert_by_date].
      * constructor. exact Hle.
      * destruct (date_leb L (todo_dateTime t) (todo_dateTime t''));
          constructor; [exact Hle |].
        inversion Hhd. assumption.
Qed.

Lemma order_by_date_sorted (l : list (Todo L)) :
  (forall a b, date_leb L a b = true \/ date_leb L b a = true) ->
  Sorted by_date (order_by_date L l).
Proof.
  intros Htotal. induction l as [| t l IH]; cbn [order_by_date];
    [constructor | apply insert_by_date_sorted; assumption].
Qed.


(** X13. [GET /todos] answers 200 with exactly the caller's todos that
    are not soft-deleted and pass the status filter (done for
    [COMPLETED], not done for [UPCOMING], all for any other or no
    value), each as often as it is in the table, in ascending order of
    date whenever the database's order on dates is total; the table is
    left as it is. *)
Theorem list_todos_selects (user : User) (query_status : js string) (todos : Todos L) :
  (forall a b, date_leb L a b = true \/ date_leb L b a = true) ->
  exists listed,
    list_todos L user query_status todos = (todos, (200, TTodos listed)) /\
    Permutation (filter (selected (uid user) query_status) todos) listed /\
    Sorted by_date listed /\
    (forall t, In t listed <->
               In t todos /\ live t = true /\ todo_userId t = uid user /\
               (query_status = val "COMPLETED" -> todo_isDone t = true) /\
               (query_status = val "UPCOMING" -> todo_isDone t = false)).
Proof.
  intros Htotal. eexists. split; [reflexivity |].
  split; [apply order_by_date_perm |].
  split; [apply order_by_date_sorted; exact Htotal |].
  intros t. split.
  - intros Hin.
    apply (Permutation_in t (Permutation_sym (order_by_date_perm _))) in Hin.
    apply filter_In in Hin. destruct Hin as [Hin Hsel].
    unfold selected in Hsel.
    apply andb_true_iff in Hsel. destruct Hsel as [Hsel Hstatus].
    apply andb_true_iff in Hsel. destruct Hsel as [Hlive Hown].
    apply N.eqb_eq in Hown.
    repeat split; auto.
    + intros ->. cbn [same_string] in Hstatus. exact Hstatus.
    + intros ->. cbn [same_string] in Hstatus.
      apply negb_true_iff. exact Hstatus.
  - intros (Hin & Hlive & Hown & Hdone & Hopen).
    apply (Permutation_in t (order_by_date_perm _)).
    apply filter_In. split; [exact Hin |].
    unfold selected, owned_by. rewrite Hlive, Hown, N.eqb_refl. cbn [andb].
    destruct query_status as [| | s]; cbn [same_string]; try reflexivity.
    destruct (String.eqb_spec s "COMPLETED") as [-> | _]; [auto |].
    destruct (String.eqb_spec s "UPCOMING") as [-> | _]; [| reflexivity].
    rewrite (Hopen eq_refl). reflexivity.
Qed.

(** ** Ownership and soft deletion *)

(** X14. A request to the to-do routes changes no todo of another user
    and no soft-deleted todo, keeps every todo at its place in the
    table with its identifier and owner, and adds a row only when it
    creates a todo, which it adds for the caller. *)
Theorem todo_route_isolation (w : World) (user : User) (rq : TodoRequest)
  (todos : Todos L) :
  todos_wf L todos ->
  let todos' := fst (todo_route L w user rq todos) in
  todos_wf L todos' /\
  (forall n t,
     nth_error todos n = Some t ->
     exists t',
       nth_error todos' n = Some t' /\
       todo_id t' = todo_id t /\
       todo_userId t' = todo_userId t /\
       (live t = false \/ todo_userId t <> uid user -> t' = t)) /\
  (todos' = firstn (List.length todos) todos' \/
   exists t n d s, rq = CreateTodo n d s /\
                   todos' = todos ++ [t] /\
                   todo_userId t = uid user /\ live t = true).
Proof.
  intros Hwf todos'. subst todos'.
  assert (Hsame : forall answer,
             todos_wf L (fst (todos, answer)) /\
             (forall n t,
                nth_error todos n = Some t ->
                exists t',
                  nth_error (fst (todos, answer)) n = Some t' /\
                  todo_id t' = todo_id t /\
                  todo_userId t' = todo_userId t /\
                  (live t = false \/ todo_userId t <> uid user -> t' = t)) /\
             (fst (todos, answer : Z * TodoBody L)
              = firstn (List.length todos) (fst (todos, answer)) \/
              exists t n d s, rq = CreateTodo n d s /\
                              fst (todos, answer) = todos ++ [t] /\
                              todo_userId t = uid user /\ live t = true)).
  { intros answer. cbn [fst]. split; [exact Hwf |]. split.
    - intros n t Hn. exists t. auto.
    - left. symmetry. apply firstn_all. }
  assert (Hrewrite : forall i f answer t0,
             find_todo L i (uid user) todos = Some t0 ->
             todo_id (f t0) = todo_id t0 ->
             todo_userId (f t0) = todo_userId t0 ->
             todos_wf L (fst (rewrite_todo L i f todos, answer)) /\
             (forall n t,
                nth_error todos n = Some t ->
                exists t',
                  nth_error (fst (rewrite_todo L i f todos, answer)) n = Some t' /\
                  todo_id t' = todo_id t /\
                  todo_userId t' = todo_userId t /\
                  (live t = false \/ todo_userId t <> uid user -> t' = t)) /\
             (fst (rewrite_todo L i f todos, answer : Z * TodoBody L)
              = firstn (List.length todos) (fst (rewrite_todo L i f todos, answer)) \/
              exists t n d s, rq = CreateTodo n d s /\
                              fst (rewrite_todo L i f todos, answer) = todos ++ [t] /\
                              todo_userId t = uid user /\ live t = true)).
  { intros i f answer t0 Hfind Hfid Hfown. cbn [fst].
    destruct (find_todo_Some _ _ _ _ Hfind) as (Hin0 & Hlive0 & Hid0 & Hown0).
    subst i.
    split; [apply todos_wf_rewrite_found; assumption |]. split.
    - intros n t Hn.
      rewrite (rewrite_todo_nth todos t0 f n t Hwf Hin0 Hn).
      eexists. split; [reflexivity |].
      destruct (N.eqb_spec (todo_id t) (todo_id t0)) as [E |]; [| auto].
      assert (t = t0).
      { apply (todos_wf_unique todos); auto. apply nth_error_In with n. exact Hn. }
      subst t. repeat split; auto.
      intros [Hdead | Hother]; congruence.
    - left. symmetry. unfold rewrite_todo.
      rewrite <- (length_map (fun t => if N.eqb (todo_id t) (todo_id t0) then f t else t)
                    todos).
      apply firstn_all. }
  destruct rq as [n d s | s | i n d s b | i]; cbn [todo_route].
  - (* create *)
    unfold create_todo.
    destruct (nonempty (validate_CreateTodoDTO L n d s)); [apply Hsame |].
    cbn [fst]. split.
    + unfold todos_wf in *. rewrite map_app, length_app, Hwf. cbn [map List.length].
      rewrite Nat.add_1_r, seq_S, map_app. reflexivity.
    + split.
      * intros k t Hk. exists t. split; [| auto].
        rewrite nth_error_app1; [exact Hk |]. apply nth_error_Some. congruence.
      * right. eexists. exists n, d, s. repeat split.
  - (* list *)
    apply Hsame.
  - (* update *)
    unfold update_todo. destruct i as [bad | i]; [apply Hsame |].
    destruct (find_todo L i (uid user) todos) as [t0 |] eqn:Hfind; [| apply Hsame].
    apply (Hrewrite i _ _ t0 Hfind); reflexivity.
  - (* delete *)
    unfold delete_todo. destruct i as [bad | i]; [apply Hsame |].
    destruct (find_todo L i (uid user) todos) as [t0 |] eqn:Hfind; [| apply Hsame].
    apply (Hrewrite i _ _ t0 Hfind); reflexivity.
Qed.


(** X16. Updating one's own todo is answered 200 with the todo as
    stored and rewrites that todo alone: a text property of the body
    that is absent, [null] or the empty string leaves the column as it
    was and any other is stored (name and description sanitized);
    [isDone] is stored when the body gives a boolean, [false] included;
    identifier, owner and liveness stay, so the todo is found again as
    updated. *)
Theorem update_todo_fields (user : User) (todos : Todos L) (t : Todo L)
  (n d s : js string) (b : js bool) :
  todos_wf L todos -> In t todos -> live t = true -> todo_userId t = uid user ->
  let result := update_todo L user (Uuid (todo_id t)) n d s b todos in
  exists t',
    snd result = (200, TTodo t' None) /\
    todo_id t' = todo_id t /\ todo_userId t' = todo_userId t /\ live t' = true /\
    todo_name t'
    = (if falsy_string n then todo_name t else sanitizeHtml L (text n)) /\
    todo_shortDescription t'
    = (if falsy_string d then todo_shortDescription t else sanitizeHtml L (text d)) /\
    todo_dateTime t'
    = (if falsy_string s then todo_dateTime t else new_Date L (text s)) /\
    todo_isDone t' = match b with val x => x | _ => todo_isDone t end /\
    find_todo L (todo_id t) (uid user) (fst result) = Some t' /\
    (forall k x, nth_error todos k = Some x -> x <> t ->
                 nth_error (fst result) k = Some x).
Proof.
  intros Hwf Hin Hlive Hown result.
  pose proof (find_todo_own todos t Hwf Hin Hlive) as Hfind. rewrite Hown in Hfind.
  subst result. unfold update_todo. rewrite Hfind. cbn [fst snd].
  eexists. split; [reflexivity |]. cbn [todo_id todo_userId todo_name
    todo_shortDescription todo_dateTime todo_isDone].
  split; [reflexivity |]. split; [reflexivity |]. split; [exact Hlive |].
  split; [reflexivity |]. split; [reflexivity |]. split; [reflexivity |].
  split; [reflexivity |].
  set (t' := {| todo_id := todo_id t; todo_name := _ |}).
  set (todos' := rewrite_todo L (todo_id t) (fun _ => t') todos).
  assert (Hwf' : todos_wf L todos')
    by (apply todos_wf_rewrite_found; [exact Hwf | exact Hin | reflexivity]).
  assert (Hin' : In t' todos').
  { unfold todos', rewrite_todo. apply in_map_iff. exists t.
    rewrite N.eqb_refl. auto. }
  split.
  - change (todo_id t) with (todo_id t'). rewrite <- Hown.
    change (todo_userId t) with (todo_userId t').
    apply find_todo_own; [exact Hwf' | exact Hin' | exact Hlive].
  - intros k x Hk Hne. unfold todos'.
    rewrite (rewrite_todo_nth todos t (fun _ => t') k x Hwf Hin Hk).
    destruct (N.eqb_spec (todo_id x) (todo_id t)) as [E |]; [| reflexivity].
    exfalso. apply Hne. apply (todos_wf_unique todos); auto.
    apply nth_error_In with k. exact Hk.
Qed.

(** ** Creation *)

Lemma validate_CreateTodoDTO_nil (n d s : js string) :
  validate_CreateTodoDTO L n d s = [] <->
  IsNotEmpty n && MaxLength 100 n = true /\
  IsNotEmpty d && MaxLength 500 d = true /\
  IsNotEmpty s && IsDateString L s = true.
Proof.
  unfold validate_CreateTodoDTO, violations. cbn [filter map fst snd].
  destruct (IsNotEmpty n && MaxLength 100 n),
           (IsNotEmpty d && MaxLength 500 d),
           (IsNotEmpty s && IsDateString L s);
    cbn [negb map fst]; split; intros H;
    try discriminate H; try (destruct H as (? & ? & ?); discriminate); auto.
Qed.

Lemma todos_wf_append (todos : Todos L) (t : Todo L) :
  todos_wf L todos -> todo_id t = N.of_nat (List.length todos) ->
  todos_wf L (todos ++ [t]).
Proof.
  unfold todos_wf. intros Hwf Hid.
  rewrite map_app, length_app, Nat.add_comm. cbn [List.length Nat.add map].
  rewrite seq_S, map_app, Hwf, Hid. reflexivity.
Qed.

(** X17. [POST /todos] accepts exactly the bodies whose name is a
    non-empty string of at most 100 characters, whose description is a
    non-empty string of at most 500 and whose date is a non-empty date
    string; any other is answered 400 and nothing is stored.  An
    accepted todo is appended under an identifier no row had, not done
    and not deleted, for the caller: the caller finds it by that
    identifier, sees it in every listing but the COMPLETED one, and no
    other user finds or lists it. *)
Theorem create_todo_accepts (user : User) (n d s : js string) (todos : Todos L) :
  todos_wf L todos ->
  let result := create_todo L user n d s todos in
  let valid :=
    exists a b c,
      n = val a /\ d = val b /\ s = val c /\
      a <> "" /\ (String.length a <= 100)%nat /\
      b <> "" /\ (String.length b <= 500)%nat /\
      c <> "" /\ isDateString L c = true in
  (valid ->
   exists t,
     result = (todos ++ [t], (201, TTodo t (Some user))) /\
     ~ In (todo_id t) (map todo_id todos) /\
     todo_isDone t = false /\ live t = true /\ todo_userId t = uid user /\
     find_todo L (todo_id t) (uid user) (fst result) = Some t /\
     (forall status,
        In t (order_by_date L (filter (selected (uid user) status) (fst result)))
        <-> status <> val "COMPLETED") /\
     (forall other status,
        other <> uid user ->
        find_todo L (todo_id t) other (fst result) = None /\
        ~ In t (order_by_date L (filter (selected other status) (fst result))))) /\
  (~ valid -> fst (snd result) = 400 /\ fst result = todos).
Proof.
  intros Hwf result valid. subst result valid. split.
  - intros (a & b & c & -> & -> & -> & Ha & Hla & Hb & Hlb & Hc & Hdate).
    assert (Hvalid : validate_CreateTodoDTO L (val a) (val b) (val c) = []).
    { apply validate_CreateTodoDTO_nil.
      unfold IsNotEmpty, MaxLength, IsDateString, falsy_string.
      destruct (String.eqb_spec a ""); [contradiction |].
      destruct (String.eqb_spec b ""); [contradiction |].
      destruct (String.eqb_spec c ""); [contradiction |].
      rewrite Hdate. cbn [negb andb].
      repeat split; apply Nat.leb_le; assumption. }
    unfold create_todo. rewrite Hvalid. cbn [nonempty text fst snd].
    set (t := {| todo_id := N.of_nat (List.length todos);
                 todo_name := sanitizeHtml L a |}).
    assert (Hwf' : todos_wf L (todos ++ [t])) by (apply todos_wf_append; auto).
    assert (Hin : In t (todos ++ [t])) by (apply in_or_app; right; left; reflexivity).
    exists t. split; [reflexivity |]. split.
    { rewrite Hwf. intros H. apply in_map_iff in H. destruct H as (k & Hk & Hseq).
      apply in_seq in Hseq. cbn [todo_id t] in Hk. lia. }
    split; [reflexivity |]. split; [reflexivity |]. split; [reflexivity |].
    split.
    { change (uid user) with (todo_userId t).
      apply find_todo_own; [exact Hwf' | exact Hin | reflexivity]. }
    split.
    + intros status. split.
      * intros H -> .
        apply (Permutation_in t (Permutation_sym (order_by_date_perm _))) in H.
        apply filter_In in H. destruct H as [_ H].
        unfold selected in H. cbn [same_string String.eqb Ascii.eqb Bool.eqb
          t todo_isDone] in H.
        rewrite andb_false_r in H. discriminate H.
      * intros Hstatus.
        apply (Permutation_in t (order_by_date_perm _)).
        apply filter_In. split; [exact Hin |].
        unfold selected, owned_by, live. cbn [t todo_deletedAt todo_userId todo_isDone
          is_some negb andb].
        rewrite N.eqb_refl. cbn [andb].
        destruct status as [| | x]; cbn [same_string]; try reflexivity.
        destruct (String.eqb_spec x "COMPLETED"); [subst; contradiction |].
        destruct (String.eqb x "UPCOMING"); reflexivity.
    + intros other status Hother. split.
      * apply find_todo_none; [exact Hwf' | exact Hin |]. right.
        cbn [t todo_userId]. congruence.
      * intros H.
        apply (Permutation_in t (Permutation_sym (order_by_date_perm _))) in H.
        apply filter_In in H. destruct H as [_ H].
        unfold selected, owned_by in H. cbn [t todo_userId] in H.
        destruct (N.eqb_spec (uid user) other); [congruence |].
        rewrite andb_false_r in H. discriminate H.
  - intros Hnot. unfold create_todo.
    destruct (validate_CreateTodoDTO L n d s) as [| e errors] eqn:Hvalid;
      [| split; reflexivity].
    exfalso. apply Hnot. apply validate_CreateTodoDTO_nil in Hvalid.
    destruct Hvalid as (Hn & Hd & Hs).
    apply andb_true_iff in Hn, Hd, Hs.
    destruct Hn as [Hn Hln], Hd as [Hd Hld], Hs as [Hs Hds].
    unfold IsNotEmpty, falsy_string in Hn, Hd, Hs.
    destruct n as [| | a]; try discriminate Hn.
    destruct d as [| | b]; try discriminate Hd.
    destruct s as [| | c]; try discriminate Hs.
    exists a, b, c. cbn [MaxLength IsDateString] in Hln, Hld, Hds.
    repeat split; try (apply Nat.leb_le; assumption); try assumption;
      intros ->; discriminate.
Qed.

(** X18. The to-do routes sit behind the bearer middleware: a request
    whose bearer token is missing, malformed, does not verify or names
    no account is answered 401 and leaves the todos alone; a request
    with a token that verifies acts as the account the token names,
    and the 201 answer to a create carries, beside the new todo, that
    account's entity as read from its row, password hash and stored
    refresh token included. *)
Theorem api_todos_gate (env : Env) (w : World) (h : option header)
  (rq : TodoRequest) (db : DB) (todos : Todos L) :
  ((forall t c row,
      ~ (h = Some (Bearer t) /\
         verify t (jwtSecret env) (Date_now w) = Some c /\
         find (by_id (sub c)) db = Some row)) ->
   exists r, api_todos L env w h rq db todos = (todos, inl r) /\ status r = 401) /\
  (forall t c row,
     h = Some (Bearer t) ->
     verify t (jwtSecret env) (Date_now w) = Some c ->
     find (by_id (sub c)) db = Some row ->
     api_todos L env w h rq db todos
     = (fst (todo_route L w (load row) rq todos),
        inr (snd (todo_route L w (load row) rq todos))) /\
     forall n d s,
       rq = CreateTodo n d s ->
       validate_CreateTodoDTO L n d s = [] ->
       exists todo,
         snd (api_todos L env w h rq db todos)
         = inr (201, TTodo todo (Some (load row))) /\
         todo_userId todo = col_id row /\
         password (load row) = col_password row /\
         refreshToken (load row) = hydrate (col_refreshToken row)).
Proof.
  split.
  - intros Hbad. unfold api_todos.
    destruct (authenticate_cases env w h db)
      as [(t & c & row & Hh & Hv & Hf & _) | (msg & ->)].
    + exfalso. apply (Hbad t c row). auto.
    + eexists. split; reflexivity.
  - intros t c row -> Hv Hf.
    assert (E : authenticate env w (Some (Bearer t)) db = inr (load row)).
    { unfold authenticate. rewrite Hv. unfold findOneBy. rewrite Hf. reflexivity. }
    unfold api_todos. rewrite E.
    destruct (todo_route L w (load row) rq todos) as [todos' answer] eqn:Hroute.
    split; [reflexivity |].
    intros n d s -> Hvalid. cbn [todo_route] in Hroute.
    unfold create_todo in Hroute. rewrite Hvalid in Hroute. cbn [nonempty] in Hroute.
    inversion Hroute. eexists. split; [reflexivity |].
    repeat split.
Qed.

End TodoProperties.

(** * The further properties at work *)

(** ** On Alice's account *)

(** A login with a wrong password is answered 400 and leaves Alice's
    table as it is. *)
Lemma client_error_keeps_table_witness :
  wf db_verified /\
  fst (handle example_env example_isEmail (example_world 3000 true)
         (Login (val "alice@example.com") (val "wrong horse")) db_verified)
  = db_verified.
Proof.
  assert (Hwf : wf db_verified) by reflexivity.
  split; [exact Hwf |].
  apply (client_error_keeps_table _ _ _ _ _ Hwf).
  assert (E : status (snd (handle example_env example_isEmail (example_world 3000 true)
                             (Login (val "alice@example.com") (val "wrong horse"))
                             db_verified)) = 400)
    by (vm_compute; reflexivity).
  rewrite E. lia.
Defined.

(** Alice is still verified after her login. *)
Lemma verified_stays_verified_witness :
  exists row',
    nth_error (fst (run example_env example_isEmail
                      (alice_onboarding ++ [alice_login]))) 0 = Some row' /\
    col_isEmailVerified row' = true.
Proof.
  destruct (verified_stays_verified example_env example_isEmail
              alice_onboarding [alice_login] 0 (alice_row None true)
              ltac:(vm_compute; reflexivity))
    as (row' & Hn & _ & _ & Hv).
  exists row'. split; [exact Hn | apply Hv; reflexivity].
Defined.

(** A second after her login, Alice's access token opens [GET /me]. *)
Lemma login_then_me_witness :
  exists access,
    field "accessToken"
      (snd (login example_env example_isEmail (example_world 5000 true)
              (val "alice@example.com") (val "correct horse") db_verified))
    = Some (JToken access) /\
    status (me example_env (example_world 6000 true) (Some (Bearer access))
              (fst (login example_env example_isEmail (example_world 5000 true)
                      (val "alice@example.com") (val "correct horse") db_verified)))
    = 200.
Proof.
  assert (Hwf : wf db_verified) by reflexivity.
  destruct (login_then_me example_env example_isEmail (example_world 5000 true)
              (example_world 6000 true) (val "alice@example.com")
              (val "correct horse") db_verified Hwf ltac:(vm_compute; reflexivity))
    as (row & access & refreshing & _ & Ha & _ & Hme & _).
  exists access. split; [exact Ha |]. rewrite Hme. reflexivity.
Defined.

(** A second registration with Alice's email is answered 400. *)
Lemma register_then_register_witness :
  status
    (snd (register example_isEmail (example_world 1500 true)
            (val "alice@example.com") (val "another horse")
            (fst (register example_isEmail (example_world 1000 true)
                    (val "alice@example.com") (val "correct horse") []))))
  = 400.
Proof.
  pose proof (register_then_register example_isEmail (example_world 1000 true)
                (example_world 1500 true) (val "alice@example.com")
                (val "correct horse") (val "another horse") []
                ltac:(vm_compute; reflexivity)) as H.
  cbv zeta in H. exact (proj1 (proj2 H)).
Defined.

(** Alice registers at clock 1000, verifies at 2000 and logs in at
    5000. *)
Lemma register_verify_login_witness :
  status
    (snd (login example_env example_isEmail (example_world 5000 true)
            (val "alice@example.com") (val "correct horse")
            (fst (verify_otp example_isEmail (example_world 2000 true)
                    (val "alice@example.com")
                    (val (generateOtp (example_world 1000 true)))
                    (fst (register example_isEmail (example_world 1000 true)
                            (val "alice@example.com") (val "correct horse") []))))))
  = 200.
Proof.
  assert (Hclock : Date_now (example_world 2000 true)
                   <= Date_now (example_world 1000 true) + 600000)
    by (cbn [Date_now example_world]; lia).
  pose proof (register_verify_login example_env example_isEmail
                (example_world 1000 true) (example_world 2000 true)
                (example_world 5000 true) (val "alice@example.com")
                (val "correct horse") [] wf_nil
                (example_random_unit_interval 1000 true)
                ltac:(vm_compute; reflexivity) Hclock) as H.
  cbv zeta in H. exact (proj1 (proj2 H)).
Defined.

(** Alice's code is accepted at clock 2000. *)
Lemma verify_otp_window_witness :
  snd (verify_otp example_isEmail (example_world 2000 true)
         (val "alice@example.com") (val "550000") db_registered)
  = ok [("message", JString "Email verified successfully"); ("verified", JBool true)].
Proof.
  assert (Hwf : wf db_registered) by reflexivity.
  pose proof (verify_otp_window example_isEmail (example_world 2000 true)
                "alice@example.com" "550000" db_registered Hwf eq_refl
                (le_n 6)) as H.
  cbv zeta in H. destruct H as (_ & H & _).
  assert (Hclock : Date_now (example_world 2000 true) <= 601000)
    by (cbn [Date_now example_world]; lia).
  destruct (H (alice_row None false) eq_refl
              (conj eq_refl (ex_intro _ 601000 (conj eq_refl Hclock)))) as [E _].
  exact E.
Defined.

(** With the mail transport down, a resend for Alice is answered 500. *)
Lemma resend_replaces_code_witness :
  status (snd (resend_otp example_isEmail (example_world 3000 false)
                 (val "alice@example.com") db_registered))
  = 500.
Proof.
  assert (Hwf : wf db_registered) by reflexivity.
  pose proof (resend_replaces_code example_isEmail (example_world 3000 false)
                (example_world 4000 true) "alice@example.com" db_registered
                (alice_row None false) Hwf eq_refl eq_refl eq_refl) as H.
  cbv zeta in H. exact (proj1 H).
Defined.

(** Alice resets her password, a second after asking, with the token
    mailed to her. *)
Lemma forgot_then_reset_witness :
  status
    (snd (reset_password (example_world 7000 true)
            (val (hex (randomBytes (example_world 6000 true) 32)))
            (val "first new password")
            (fst (forgot_password example_env (example_world 6000 true)
                    (val "alice@example.com") db_verified))))
  = 200.
Proof.
  assert (Hwf : wf db_verified) by reflexivity.
  assert (Hsole : forall r, In r db_verified ->
                    col_resetPasswordToken r
                    = Some (hex (randomBytes (example_world 6000 true) 32)) ->
                    r = alice_row None true).
  { intros r [<- | []] _. reflexivity. }
  pose proof (forgot_then_reset example_env (example_world 6000 true)
                (example_world 7000 true) "alice@example.com" "first new password"
                db_verified (alice_row None true) Hwf
                ltac:(discriminate) ltac:(discriminate) eq_refl Hsole) as H.
  cbv zeta in H. destruct H as (_ & _ & H & _).
  assert (Hclock : Date_now (example_world 7000 true)
                   <= Date_now (example_world 6000 true)
                      + RESET_PASSWORD_EXPIRES_IN example_env * 1000)
    by (cbn [Date_now example_world RESET_PASSWORD_EXPIRES_IN example_env]; lia).
  exact (proj1 (H Hclock)).
Defined.

(** Alice's access token is refused by [POST /refresh]. *)
Lemma access_token_is_no_refresh_token_witness :
  exists access,
    field "accessToken"
      (snd (login example_env example_isEmail (example_world 5000 true)
              (val "alice@example.com") (val "correct horse") db_verified))
    = Some (JToken access) /\
    status
      (snd (refresh example_env (example_world 6000 true) (val access)
              (fst (login example_env example_isEmail (example_world 5000 true)
                      (val "alice@example.com") (val "correct horse") db_verified))))
    = 401.
Proof.
  assert (Hwf : wf db_verified) by reflexivity.
  destruct (access_token_is_no_refresh_token example_env example_isEmail
              (example_world 5000 true) (example_world 6000 true)
              (val "alice@example.com") (val "correct horse") db_verified Hwf
              ltac:(discriminate) ltac:(vm_compute; reflexivity))
    as (access & Ha & Hs & _).
  exists access. split; [exact Ha | exact Hs].
Defined.

(** The refresh token of Alice's login is accepted a second later. *)
Lemma issued_token_refreshes_witness :
  status
    (snd (refresh example_env (example_world 6000 true) (val alice_token)
            (fst (handle example_env example_isEmail (fst alice_login)
                    (snd alice_login) db_verified))))
  = 200.
Proof.
  assert (Hwf : wf db_verified) by reflexivity.
  exact (issued_token_refreshes example_env example_isEmail (fst alice_login)
           (example_world 6000 true) (snd alice_login) db_verified alice_token
           Hwf ltac:(vm_compute; reflexivity)).
Defined.

(** ** On Alice's todos *)

(** Alice's listing is in order of date. *)
Lemma list_todos_selects_witness :
  exists listed,
    list_todos example_lib alice undefined example_todos
    = (example_todos, (200, TTodos listed)) /\
    Sorted by_date listed.
Proof.
  destruct (list_todos_selects example_lib alice undefined example_todos
              String.leb_total) as (listed & E & _ & Hsorted & _).
  exists listed. split; [exact E | exact Hsorted].
Defined.

(** Alice asks to delete Bob's todo: the table stays well formed. *)
Lemma todo_route_isolation_witness :
  todos_wf example_lib
    (fst (todo_route example_lib (example_world 9000 true) alice
            (DeleteTodo (Uuid 1%N)) example_todos)).
Proof.
  assert (Hwf : todos_wf example_lib example_todos) by reflexivity.
  pose proof (todo_route_isolation example_lib (example_world 9000 true) alice
                (DeleteTodo (Uuid 1%N)) example_todos Hwf) as H.
  cbv zeta in H. exact (proj1 H).
Defined.


(** Alice marks her todo done, sending an empty name: the name stays. *)
Lemma update_todo_fields_witness :
  exists t',
    snd (update_todo example_lib alice (Uuid 0%N) (val "") undefined null (val true)
           example_todos)
    = (200, TTodo t' None) /\
    todo_name t' = "Write the report" /\
    todo_isDone t' = true.
Proof.
  assert (Hwf : todos_wf example_lib example_todos) by reflexivity.
  pose proof (update_todo_fields example_lib alice example_todos alice_todo
                (val "") undefined null (val true)
                Hwf (or_introl eq_refl) eq_refl eq_refl) as H.
  cbv zeta in H. destruct H as (t' & E & _ & _ & _ & Hn & _ & _ & Hd & _).
  exists t'. split; [exact E |]. split; [exact Hn | exact Hd].
Defined.

(** Alice adds a todo. *)
Lemma create_todo_accepts_witness :
  exists t,
    create_todo example_lib alice (val "Pay the rent") (val "Before the first")
      (val "2026-04-01T09:00:00Z") example_todos
    = (example_todos ++ [t], (201, TTodo t (Some alice))).
Proof.
  assert (Hwf : todos_wf example_lib example_todos) by reflexivity.
  pose proof (create_todo_accepts example_lib alice (val "Pay the rent")
                (val "Before the first") (val "2026-04-01T09:00:00Z")
                example_todos Hwf) as H.
  cbv zeta in H. destruct H as [H _].
  destruct H as (t & E & _).
  { exists "Pay the rent", "Before the first", "2026-04-01T09:00:00Z".
    repeat split; try discriminate; try reflexivity;
      cbn [String.length]; lia. }
  exists t. exact E.
Defined.

(** A request to the to-do routes without a bearer token is answered
    401. *)
Lemma api_todos_gate_witness :
  exists r,
    api_todos example_lib example_env (example_world 6000 true) None
      (ListTodos undefined) db_logged_in example_todos
    = (example_todos, inl r) /\
    status r = 401.
Proof.
  destruct (api_todos_gate example_lib example_env (example_world 6000 true) None
              (ListTodos undefined) db_logged_in example_todos) as [H _].
  apply H. intros t c row (E & _). discriminate E.
Defined.
